(** * Redfish: the proof-gated balance validator and its submission client

    A shallow embedding of

    - [EtherscanVerifier.submitBalance] (Solidity, the on-chain journal
      validator and state committer), and
    - [submitProof] together with [getRevertData] and [getNetworkConfig]
      (TypeScript, the off-chain submission client), and
    - [verify] and [deploy] with their command lines (TypeScript, the
      verification of the contract's source through forge, and the
      deployment of the contract),

    and the properties of these that the specification states, with
    further properties read off the code.

    The EVM built-ins ([abi.decode], [keccak256], [sha256]), the external
    RISC Zero verifier and the viem / node primitives are not part of the
    repository; they are parameters (type classes), so that every theorem
    holds for whatever these primitives compute. A later part gives them
    concretely, to run the programs on a sample deployment. *)

From Stdlib Require Import ZArith Lia.
From stdpp Require Import base decidable option list strings gmap pretty.
From Equations Require Import Equations.

Local Open Scope Z_scope.

(** ** Solidity value types *)

(** [bytes] and [string] are both dynamically sized byte arrays; the cast
    [bytes(s)] of the source is the identity on the representation. *)
Abbreviation bytes := (list Byte.byte).

#[global] Instance byte_eq_dec : EqDecision Byte.byte := Strings.Byte.byte_eq_dec.

(** A string literal of the source, as the bytes it denotes. *)
Definition lit (s : string) : bytes := String.list_byte_of_string s.

(** [bytes32] and [uint256] values, as the integer they denote. *)
Abbreviation bytes32 := Z.
Abbreviation uint256 := Z.
Definition uint256_max : Z := 2 ^ 256 - 1.

(** [a.length] and [a[i]] on a memory array; [None] stands for the
    out-of-bounds access on which the compiled code panics. *)
Definition len (a : bytes) : uint256 := Z.of_nat (length a).
Definition index (a : bytes) (i : uint256) : option Byte.byte :=
  if decide (0 <= i) then a !! Z.to_nat i else None.

(** ** The contract's data *)

Module EtherscanVerifier.

(** The five custom errors of the contract. *)
Inductive Error :=
| InvalidNotaryKeyFingerprint
| InvalidQueriesHash
| InvalidUrl
| ZKProofVerificationFailed
| InvalidBalance.

(** What a revert carries back to the caller: one of the custom errors, a
    compiler-inserted [Panic(code)], or no data at all. *)
Inductive RevertData :=
| CustomError (e : Error)
| Panic (code : Z)
| EmptyRevert.

#[global] Instance Error_eq_dec : EqDecision Error.
Proof. solve_decision. Defined.
#[global] Instance RevertData_eq_dec : EqDecision RevertData.
Proof. solve_decision. Defined.

(** [event BalanceVerified(string balance, string url, uint256 timestamp,
    uint256 blockNumber)]. *)
Record Event := BalanceVerified {
  ev_balance : bytes;
  ev_url : bytes;
  ev_timestamp : uint256;
  ev_blockNumber : uint256;
}.

(** The tuple [abi.decode] produces from the journal:
    [(bytes32, string, string, uint256, bytes32, string)]. *)
Record Journal := mkJournal {
  notaryKeyFingerprint : bytes32;
  method : bytes;
  url : bytes;
  timestamp : uint256;
  queriesHash : bytes32;
  _balance : bytes;
}.

(** The [immutable] state variables. *)
Record Immutables := mkImmutables {
  VERIFIER : Z;
  IMAGE_ID : bytes32;
  EXPECTED_NOTARY_KEY_FINGERPRINT : bytes32;
  EXPECTED_QUERIES_HASH : bytes32;
}.

(** The two storage variables. *)
Record Storage := mkStorage {
  expectedUrlPattern : bytes;
  balance : bytes;
}.

(** One external call [VERIFIER.verify(seal, imageId, journalDigest)]. *)
Record VerifyCall := mkVerifyCall {
  call_seal : bytes;
  call_imageId : bytes32;
  call_journalDigest : bytes32;
}.

(** How an external call ends: it returns, or it reverts with some return
    data (a custom error of the verifier, a panic, anything). *)
Inductive CallResult :=
| Returned
| CallReverted (returndata : bytes).

(** ** Execution monad

    The state a call threads: the storage, the events emitted so far and
    the external calls made so far. A computation either continues with a
    value or reverts; a revert keeps the state reached at that point, so
    that what the code did before failing stays visible ([transact] below
    is where the EVM discards it). *)
Record Exec := mkExec {
  storage : Storage;
  logs : list Event;
  calls : list VerifyCall;
}.

Inductive Outcome (A : Type) :=
| Continue (a : A) (x : Exec)
| Reverted (r : RevertData) (x : Exec).
Arguments Continue {A} a x.
Arguments Reverted {A} r x.

Definition M (A : Type) : Type := Exec -> Outcome A.

#[global] Instance M_ret : MRet M := fun A a x => Continue a x.
#[global] Instance M_bind : MBind M := fun A B f m x =>
  match m x with
  | Continue a x' => f a x'
  | Reverted r x' => Reverted r x'
  end.

(** [revert E();] *)
Definition revert {A} (r : RevertData) : M A := fun x => Reverted r x.

(** [if (c) { revert E(); }] *)
Definition revert_if (c : bool) (r : RevertData) : M unit :=
  if c then revert r else mret tt.

(** Reading and writing the storage variables, emitting an event. *)
Definition sload_expectedUrlPattern : M bytes :=
  fun x => Continue (expectedUrlPattern (storage x)) x.

Definition sstore_balance (v : bytes) : M unit :=
  fun x => Continue tt
    (mkExec (mkStorage (expectedUrlPattern (storage x)) v) (logs x) (calls x)).

Definition emit (e : Event) : M unit :=
  fun x => Continue tt (mkExec (storage x) (logs x ++ [e]) (calls x)).

(** The constructor: fills the immutables and [expectedUrlPattern];
    [balance] starts as the empty string. *)
Definition constructor (_verifier : Z) (_imageId _expectedNotaryKeyFingerprint
    _expectedQueriesHash : bytes32) (_expectedUrlPattern : bytes)
  : Immutables * Storage :=
  (mkImmutables _verifier _imageId _expectedNotaryKeyFingerprint
     _expectedQueriesHash,
   mkStorage _expectedUrlPattern []).

(** *** The ledger's view

    What the ledger keeps of the contract between transactions: its storage
    and the events of the transactions that succeeded. *)
Record Chain := mkChain {
  chain_storage : Storage;
  chain_events : list Event;
}.

Inductive Receipt :=
| Success
| Failure (r : RevertData).

(** A transaction: the block height it is included at and the two
    arguments of [submitBalance]. *)
Record Tx := mkTx {
  tx_block : uint256;
  tx_journalData : bytes;
  tx_seal : bytes;
}.

(** What the journal of an accepted submission leaves behind. *)
Definition committed (c : Chain) (j : Journal) (bn : uint256) : Chain :=
  mkChain (mkStorage (expectedUrlPattern (chain_storage c)) (_balance j))
          (chain_events c ++ [BalanceVerified (_balance j) (url j)
                                              (timestamp j) bn]).

(** *** Primitives the contract relies on *)

(** The EVM built-ins the function uses: [abi.decode(journalData, (bytes32,
    string, string, uint256, bytes32, string))] ([None] when the bytes are
    not an encoding of such a tuple), [keccak256] and [sha256].

    On bytes it does not decode, the generated decoder reverts: without
    data when the bytes end before what they announce, and with
    [Panic(0x41)] when a string announces a length that cannot be
    allocated, which the decoder tests before the bounds.
    [abi_decode_overflow] tells which of the two it is. *)
Class Builtins := {
  abi_decode : bytes -> option Journal;
  abi_decode_overflow : bytes -> bool;
  keccak256 : bytes -> bytes32;
  sha256 : bytes -> bytes32;
}.

(** [interface IRiscZeroVerifier]: the behaviour of the contract deployed at
    [VERIFIER] (there is one: a call to an address without code is not a
    failure of the verifier, and [catch] does not see it). [verify] is a
    [view] function, it returns nothing and reverts when the proof is not
    valid. *)
Class IRiscZeroVerifier := {
  verify : bytes -> bytes32 -> bytes32 -> CallResult;
}.

Section Contract.

Context `{!Builtins} `{!IRiscZeroVerifier}.

(** The immutables fixed by the constructor. *)
Variable imm : Immutables.

(** What a failing [abi.decode] reverts with. *)
Definition decode_failure (journalData : bytes) : RevertData :=
  if abi_decode_overflow journalData then Panic 0x41 else EmptyRevert.

(** The decoding at the head of [submitBalance]. *)
Definition decode_journal (journalData : bytes) : M Journal :=
  match abi_decode journalData with
  | Some j => mret j
  | None => revert (decode_failure journalData)
  end.

(** [try VERIFIER.verify(seal, IMAGE_ID, digest) {} catch { revert
    ZKProofVerificationFailed(); }]: the call is made (and recorded), and
    whatever it reverts with is replaced by the one custom error. *)
Definition try_verify (seal : bytes) (imageId digest : bytes32) : M unit :=
  fun x =>
    let x' := mkExec (storage x) (logs x)
                (calls x ++ [mkVerifyCall seal imageId digest]) in
    match verify seal imageId digest with
    | Returned => Continue tt x'
    | CallReverted _ => Reverted (CustomError ZKProofVerificationFailed) x'
    end.

(** The loop
    [for (uint256 i = 0; i < patternBytes.length; i++)
       if (urlBytes[i] != patternBytes[i]) revert InvalidUrl();]
    from index [i] on. Array accesses are bounds-checked (panic 0x32) and
    the increment is checked (panic 0x11), as compiled by solc 0.8. *)
Equations? url_prefix_loop (urlBytes patternBytes : bytes) (i : uint256)
  : M unit by wf (Z.to_nat (len patternBytes - i)) lt :=
url_prefix_loop urlBytes patternBytes i with decide (i < len patternBytes) := {
  | right _ => mret tt
  | left _ =>
      match index urlBytes i, index patternBytes i with
      | Some a, Some b =>
          if decide (a <> b) then revert (CustomError InvalidUrl)
          else if decide (i = uint256_max) then revert (Panic 0x11)
          else url_prefix_loop urlBytes patternBytes (i + 1)
      | _, _ => revert (Panic 0x32)
      end }.
Proof. lia. Qed.

(** [function submitBalance(bytes calldata journalData, bytes calldata seal)
    external], run in a block of height [block_number]. *)
Definition submitBalance (block_number : uint256) (journalData seal : bytes)
  : M unit :=
  (* Decode the journal data *)
  j ← decode_journal journalData;
  (* Validate notary key fingerprint *)
  revert_if (bool_decide (notaryKeyFingerprint j
                          <> EXPECTED_NOTARY_KEY_FINGERPRINT imm))
    (CustomError InvalidNotaryKeyFingerprint);;
  (* Validate method is GET *)
  revert_if (bool_decide (keccak256 (method j) <> keccak256 (lit "GET")))
    (CustomError InvalidUrl);;
  (* Validate queries hash *)
  revert_if (bool_decide (queriesHash j <> EXPECTED_QUERIES_HASH imm))
    (CustomError InvalidQueriesHash);;
  (* Validate URL starts with the expected pattern *)
  let urlBytes := url j in
  patternBytes ← sload_expectedUrlPattern;
  revert_if (bool_decide (len urlBytes < len patternBytes))
    (CustomError InvalidUrl);;
  url_prefix_loop urlBytes patternBytes 0;;
  (* Validate balance is not empty *)
  revert_if (bool_decide (len (_balance j) = 0)) (CustomError InvalidBalance);;
  (* Verify the ZK proof *)
  try_verify seal (IMAGE_ID imm) (sha256 journalData);;
  (* Store the verified balance *)
  sstore_balance (_balance j);;
  emit (BalanceVerified (_balance j) (url j) (timestamp j) block_number).

(** The state a call starts from. *)
Definition enter (c : Chain) : Exec := mkExec (chain_storage c) [] [].

(** A transaction calling [submitBalance]: on success the storage and the
    events of the call are committed; on a revert the EVM discards both and
    the ledger is as before. *)
Definition transact (block_number : uint256) (journalData seal : bytes)
    (c : Chain) : Receipt * Chain :=
  match submitBalance block_number journalData seal (enter c) with
  | Continue _ x => (Success, mkChain (storage x) (chain_events c ++ logs x))
  | Reverted r _ => (Failure r, c)
  end.

(** The external calls a transaction makes, committed or not. *)
Definition verifier_calls (block_number : uint256) (journalData seal : bytes)
    (c : Chain) : list VerifyCall :=
  match submitBalance block_number journalData seal (enter c) with
  | Continue _ x => calls x
  | Reverted _ x => calls x
  end.

(** A sequence of transactions, in inclusion order. *)
Definition run_txs (txs : list Tx) (c : Chain) : Chain :=
  foldl (fun c t => (transact (tx_block t) (tx_journalData t) (tx_seal t) c).2)
        c txs.

End Contract.

End EtherscanVerifier.

(** ** The submission client *)

Module SubmitProof.

Abbreviation Address := string.
Abbreviation Hex := string.

(** *** JavaScript values

    What a [catch] clause can receive ([unknown] in the source). Objects are
    finite maps from property names to values. *)
Set Warnings "-register-all".
Inductive JsVal :=
| JsUndefined
| JsNull
| JsBool (b : bool)
| JsNumber (n : Z)
| JsString (s : string)
| JsArray (l : list JsVal)
| JsObject (props : gmap string JsVal).
Set Warnings "register-all".

(** How an expression completes: with a value, or by throwing. *)
Inductive Completion (A : Type) :=
| Normal (a : A)
| Throw (e : JsVal).
Arguments Normal {A} a.
Arguments Throw {A} e.

(** [new Error(message)]. *)
Definition new_Error (message : string) : JsVal :=
  JsObject {[ "message" := JsString message ]}.

(** The error a property read on [undefined] or [null] raises. *)
Definition TypeError : JsVal :=
  JsObject {[ "name" := JsString "TypeError" ]}.

(** [typeof v === 'object' && v !== null]. *)
Definition is_object (v : JsVal) : bool :=
  match v with
  | JsObject _ | JsArray _ => true
  | _ => false
  end.

(** [v[k]] for a [v] that passed [is_object]; a missing property reads as
    [undefined]. *)
Definition prop (v : JsVal) (k : string) : JsVal :=
  match v with
  | JsObject props => default JsUndefined (props !! k)
  | _ => JsUndefined
  end.

(** [v.k] for an arbitrary [v]: reading a property of [undefined] or [null]
    throws. *)
Definition member (v : JsVal) (k : string) : Completion JsVal :=
  match v with
  | JsUndefined | JsNull => Throw TypeError
  | _ => Normal (prop v k)
  end.

(** Truthiness of a [string | undefined]: [undefined] and the empty string
    are falsy. *)
Definition truthy (s : option string) : bool :=
  match s with
  | Some s => negb (bool_decide (s = ""))
  | None => false
  end.

(** [a || b] on [string | undefined]. *)
Definition or_else (a b : option string) : option string :=
  if truthy a then a else b.

(** The line break of the template literals, and the double quote. *)
Definition nl : string := String (Ascii.ascii_of_nat 10) "".
Definition dq : string := String (Ascii.ascii_of_nat 34) "".

(** [s.toLowerCase()], on the ASCII letters. *)
Definition ascii_toLowerCase (c : Ascii.ascii) : Ascii.ascii :=
  let n := Ascii.nat_of_ascii c in
  if bool_decide (65 <= n <= 90)%nat then Ascii.ascii_of_nat (n + 32) else c.

Fixpoint toLowerCase (s : string) : string :=
  match s with
  | EmptyString => EmptyString
  | String c s' => String (ascii_toLowerCase c) (toLowerCase s')
  end.

(** [s.length]: the number of UTF-16 code units of a string. The bytes of a
    string are its UTF-8 encoding: a character is one unit, or two when it
    lies outside the basic plane (a sequence of four bytes). *)
Definition utf16_units (c : Ascii.ascii) : nat :=
  let n := Ascii.nat_of_ascii c in
  if bool_decide (128 <= n < 192)%nat then 0
  else if bool_decide (240 <= n)%nat then 2
  else 1.

Fixpoint length_utf16 (s : string) : nat :=
  match s with
  | EmptyString => 0
  | String c s' => utf16_units c + length_utf16 s'
  end.

(** *** The data of the script *)

(** [interface ProofData], with its optional fields. *)
Record ProofFields := mkProofFields {
  pf_zkProof : option string;
  pf_journalDataAbi : option string;
}.

Record ProofData := mkProofData {
  pd_success : bool;
  pd_data : option ProofFields;
  pd_zkProof : option string;
  pd_journalDataAbi : option string;
}.

(** [interface DeploymentInfo]; the script tests the field for falsiness
    after reading it, so it may be missing. *)
Record DeploymentInfo := mkDeploymentInfo {
  di_contractAddress : option Address;
}.

Record SubmitProofOptions := mkOptions {
  opt_network : string;
  opt_proofFile : string;
  opt_contractAddress : option Address;
}.

Record SubmitProofResult := mkResult {
  transactionHash : Hex;
  blockNumber : Z;
  gasUsed : Z;
  balance : string;
}.

(** [viem/chains]: the one chain the configuration knows. *)
Inductive Chain := sepolia.

Record NetworkConfig := mkNetworkConfig {
  chain : Chain;
  rpcUrl : string;
}.

Record Account := mkAccount { address : Address }.

Record PublicClient := createPublicClient {
  pc_chain : Chain;
  pc_transport : string;
}.

Record WalletClient := createWalletClient {
  wc_account : Account;
  wc_chain : Chain;
  wc_transport : string;
}.

(** The tuple [decodeAbiParameters] returns for the journal. *)
Record DecodedJournal := mkDecoded {
  d_notaryKeyFingerprint : Hex;
  d_method : string;
  d_url : string;
  d_timestamp : Z;
  d_queriesHash : Hex;
  d_balance : string;
}.

(** What [decodeErrorResult] returns. *)
Record DecodedError := mkDecodedError {
  errorName : string;
  args : option (list JsVal);
}.

Record TransactionReceipt := mkReceipt {
  r_blockNumber : Z;
  r_gasUsed : Z;
  r_status : string;
}.

(** One entry of [contractABI]. *)
Record AbiParam := mkParam { param_name : string; param_type : string }.
Record AbiItem := mkAbiItem {
  abi_name : string;
  abi_type : string;
  abi_inputs : list AbiParam;
  abi_outputs : list AbiParam;
}.

(** Contract ABI - only the functions we need. *)
Definition contractABI : list AbiItem :=
  [ mkAbiItem "submitBalance" "function"
      [mkParam "journalData" "bytes"; mkParam "seal" "bytes"] [];
    mkAbiItem "balance" "function" [] [mkParam "" "string"];
    (* Custom errors for better revert decoding *)
    mkAbiItem "InvalidNotaryKeyFingerprint" "error" [] [];
    mkAbiItem "InvalidQueriesHash" "error" [] [];
    mkAbiItem "InvalidUrl" "error" [] [];
    mkAbiItem "InvalidBalance" "error" [] [];
    mkAbiItem "ZKProofVerificationFailed" "error" [] [];
    (* Standard errors *)
    mkAbiItem "Error" "error" [mkParam "message" "string"] [];
    mkAbiItem "Panic" "error" [mkParam "code" "uint256"] [] ].

(** [function getRevertData(err: unknown): string | undefined]. *)
Definition getRevertData (err : JsVal) : option string :=
  if is_object err then
    match prop err "data" with
    | JsString d => Some d
    | _ =>
        if is_object (prop err "cause") then
          match prop (prop err "cause") "data" with
          | JsString d => Some d
          | _ => None
          end
        else None
    end
  else None.

(** *** What the script does to the outside *)

Inductive Action :=
| console_log (line : string)
| console_error (items : list JsVal)
| rpc_simulateContract (client : PublicClient) (addr : Address)
    (functionName : string) (arguments : list Hex) (account : Address)
| rpc_writeContract (client : WalletClient) (addr : Address)
    (functionName : string) (arguments : list Hex)
| rpc_waitForTransactionReceipt (client : PublicClient) (hash : Hex)
| rpc_readContract (client : PublicClient) (addr : Address)
    (functionName : string).

(** A computation of the script: it extends the trace of actions and
    completes normally or by throwing. *)
Definition Js (A : Type) : Type := list Action -> Completion A * list Action.

#[global] Instance Js_ret : MRet Js := fun A a tr => (Normal a, tr).
#[global] Instance Js_bind : MBind Js := fun A B f m tr =>
  match m tr with
  | (Normal a, tr') => f a tr'
  | (Throw e, tr') => (Throw e, tr')
  end.

Definition throw {A} (e : JsVal) : Js A := fun tr => (Throw e, tr).

(** An expression without effect on the trace. *)
Definition eval {A} (c : Completion A) : Js A := fun tr => (c, tr).

(** An action [a] whose outcome is [c]. *)
Definition perform {A} (a : Action) (c : Completion A) : Js A :=
  fun tr => (c, tr ++ [a]).

Definition log (line : string) : Js unit := perform (console_log line) (Normal tt).
Definition error (items : list JsVal) : Js unit :=
  perform (console_error items) (Normal tt).

(** [try { m } catch (e) { h e }]. *)
Definition try_catch {A} (m : Js A) (h : JsVal -> Js A) : Js A :=
  fun tr =>
    match m tr with
    | (Normal a, tr') => (Normal a, tr')
    | (Throw e, tr') => h e tr'
    end.

(** *** The environment of the script *)

(** [process.env], [path], [fs] with [JSON.parse], and [Date]. *)
Class Node := {
  env_SEPOLIA_RPC_URL : option string;
  env_PRIVATE_KEY : option string;
  __dirname : string;
  path_join : list string -> string;
  path_resolve : string -> string;
  fs_existsSync : string -> bool;
  (** [JSON.parse(fs.readFileSync(p, 'utf-8')) as DeploymentInfo] *)
  read_DeploymentInfo : string -> Completion DeploymentInfo;
  (** [JSON.parse(fs.readFileSync(p, 'utf-8')) as ProofData] *)
  read_ProofData : string -> Completion ProofData;
  (** [new Date(Number(t) * 1000).toISOString()], which throws a
      [RangeError] when the date is out of range *)
  toISOString : Z -> Completion string;
}.

(** The functions of viem the script calls. *)
Class Viem := {
  privateKeyToAccount : string -> Completion Account;
  (** [decodeAbiParameters] at the six types of the journal *)
  decodeAbiParameters : Hex -> Completion DecodedJournal;
  decodeErrorResult : list AbiItem -> string -> Completion DecodedError;
  simulateContract :
    PublicClient -> Address -> string -> list Hex -> Address -> Completion unit;
  writeContract :
    WalletClient -> Address -> string -> list Hex -> Completion Hex;
  waitForTransactionReceipt :
    PublicClient -> Hex -> Completion TransactionReceipt;
  readContract : PublicClient -> Address -> string -> Completion string;
}.

(** *** Observations on a trace *)

(** The calls that reached the node, in order. *)
Definition rpc_calls (tr : list Action) : list Action :=
  omap (fun a => match a with
                 | console_log _ | console_error _ => None
                 | _ => Some a
                 end) tr.

(** What was written with [console.error], in order. *)
Definition stderr (tr : list Action) : list (list JsVal) :=
  omap (fun a => match a with
                 | console_error items => Some items
                 | _ => None
                 end) tr.

Section Script.

Context `{!Node} `{!Viem}.

(** [export function getNetworkConfig(network: string): NetworkConfig]. *)
Definition getNetworkConfig (network : string) : Completion NetworkConfig :=
  let networkLower := toLowerCase network in
  if bool_decide (networkLower = "sepolia") then
    Normal (mkNetworkConfig sepolia
              (default "https://rpc.sepolia.org"
                 (or_else env_SEPOLIA_RPC_URL (Some "https://rpc.sepolia.org"))))
  else Throw (new_Error ("Unsupported network: " +:+ network)).

(** [export async function submitProof(options)]. Each [await] is a
    sequencing point; the steps follow the source in order. *)
Definition submitProof (options : SubmitProofOptions) : Js SubmitProofResult :=
  let network := opt_network options in
  let proofFile := opt_proofFile options in
  let overrideAddress := opt_contractAddress options in
  log (nl +:+ "=== Submitting ZK Proof to " +:+ network +:+ " ===" +:+ nl);;
  (* Get network configuration *)
  networkConfig ← eval (getNetworkConfig network);
  let rpcUrl :=
    if bool_decide (network = "sepolia") then
      if truthy env_SEPOLIA_RPC_URL
      then default (rpcUrl networkConfig) env_SEPOLIA_RPC_URL
      else rpcUrl networkConfig
    else rpcUrl networkConfig in
  (* Load deployment info to get contract address *)
  let deploymentPath :=
    path_join [__dirname; "../deployments"; network +:+ ".json"] in
  contractAddress ←
    (if truthy overrideAddress then mret overrideAddress
     else if fs_existsSync deploymentPath then
       deployment ← eval (read_DeploymentInfo deploymentPath);
       mret (di_contractAddress deployment)
     else throw (new_Error
       ("Contract address not found. Either provide it as an argument or ensure "
        +:+ deploymentPath +:+ " exists.")));
  (if negb (truthy contractAddress) then
     throw (new_Error
       ("Contract address not configured for network: " +:+ network))
   else mret tt);;
  let contractAddress := default "" contractAddress in
  log ("Network: " +:+ network);;
  log ("Contract: " +:+ contractAddress);;
  log ("RPC URL: " +:+ rpcUrl);;
  (* Setup wallet *)
  let privateKey := env_PRIVATE_KEY in
  (if negb (truthy privateKey) then
     throw (new_Error "PRIVATE_KEY not set in environment variables")
   else mret tt);;
  account ← eval (privateKeyToAccount (default "" privateKey));
  log (nl +:+ "Wallet address: " +:+ address account);;
  (* Create clients *)
  let publicClient := createPublicClient (chain networkConfig) rpcUrl in
  let walletClient := createWalletClient account (chain networkConfig) rpcUrl in
  (* Load proof data from file *)
  let proofPath := path_resolve proofFile in
  (if negb (fs_existsSync proofPath) then
     throw (new_Error ("Proof file not found: " +:+ proofPath))
   else mret tt);;
  proofData ← eval (read_ProofData proofPath);
  (* Extract zkProof (seal) and journalDataAbi from compressed proof response *)
  let zkProof :=
    or_else (pd_data proofData ≫= pf_zkProof) (pd_zkProof proofData) in
  let journalDataAbi :=
    or_else (pd_data proofData ≫= pf_journalDataAbi)
            (pd_journalDataAbi proofData) in
  (if negb (truthy zkProof) || negb (truthy journalDataAbi) then
     throw (new_Error "Invalid proof file: missing zkProof or journalDataAbi")
   else mret tt);;
  let zkProof := default "" zkProof in
  let journalDataAbi := default "" journalDataAbi in
  log (nl +:+ "Proof Details:");;
  log ("  ZK Proof (seal) length: " +:+ pretty (length_utf16 zkProof)
       +:+ " chars");;
  log ("  Journal Data ABI length: " +:+ pretty (length_utf16 journalDataAbi)
       +:+ " chars");;
  (* Decode the journalDataAbi to extract the fields for logging *)
  decoded ←
    try_catch (eval (decodeAbiParameters journalDataAbi))
      (fun e =>
         error [JsString "Error decoding journalDataAbi:"; e];;
         throw (new_Error
           "Failed to decode journalDataAbi. Make sure the proof format matches the contract expectations."));
  log (nl +:+ "Decoded Journal Data:");;
  log ("  Notary Key Fingerprint: " +:+ d_notaryKeyFingerprint decoded);;
  log ("  Method: " +:+ d_method decoded);;
  log ("  URL: " +:+ d_url decoded);;
  iso ← eval (toISOString (d_timestamp decoded));
  log ("  Timestamp: " +:+ pretty (d_timestamp decoded) +:+ " (" +:+ iso
       +:+ ")");;
  log ("  Queries Hash: " +:+ d_queriesHash decoded);;
  log ("  Balance: " +:+ d_balance decoded);;
  (* Use journalDataAbi directly *)
  let journalData := journalDataAbi in
  log (nl +:+ "Transaction Details:");;
  log ("  Journal Data Length: " +:+ pretty (length_utf16 journalData)
       +:+ " chars");;
  log ("  Seal Length: " +:+ pretty (length_utf16 zkProof) +:+ " chars");;
  (* Simulate transaction first *)
  log (nl +:+ "Simulating transaction...");;
  try_catch
    (perform
       (rpc_simulateContract publicClient contractAddress "submitBalance"
          [journalData; zkProof] (address account))
       (simulateContract publicClient contractAddress "submitBalance"
          [journalData; zkProof] (address account));;
     log "✓ Simulation successful")
    (fun e =>
       message ← eval (member e "message");
       (* Try to decode custom error *)
       let revertData := getRevertData e in
       (if truthy revertData then
          try_catch
            (decoded ← eval (decodeErrorResult contractABI
                               (default "" revertData));
             error [JsString ("✗ Simulation failed: " +:+ errorName decoded);
                    JsArray (default [] (args decoded))])
            (fun _ =>
               error [JsString "✗ Simulation failed:"; message];;
               error [JsString "Revert data:";
                      JsString (default "" revertData)])
        else error [JsString "✗ Simulation failed:"; message]);;
       throw e);;
  (* Submit transaction *)
  log (nl +:+ "Submitting transaction...");;
  hash ←
    try_catch
      (perform
         (rpc_writeContract walletClient contractAddress "submitBalance"
            [journalData; zkProof])
         (writeContract walletClient contractAddress "submitBalance"
            [journalData; zkProof]))
      (fun e =>
         message ← eval (member e "message");
         let revertData := getRevertData e in
         (if truthy revertData then
            try_catch
              (decoded ← eval (decodeErrorResult contractABI
                                 (default "" revertData));
               error [JsString ("✗ Submission failed: " +:+ errorName decoded);
                      JsArray (default [] (args decoded))])
              (fun _ =>
                 error [JsString "✗ Submission failed:"; message];;
                 error [JsString "Revert data:";
                        JsString (default "" revertData)])
          else error [JsString "✗ Submission failed:"; message]);;
         throw e);
  log (nl +:+ "Transaction submitted: " +:+ hash);;
  log "Waiting for confirmation...";;
  (* Wait for transaction receipt *)
  receipt ← perform (rpc_waitForTransactionReceipt publicClient hash)
              (waitForTransactionReceipt publicClient hash);
  log (nl +:+ "✓ Transaction confirmed!");;
  log ("  Block: " +:+ pretty (r_blockNumber receipt));;
  log ("  Gas used: " +:+ pretty (r_gasUsed receipt));;
  log ("  Status: " +:+ r_status receipt);;
  (* Verify on-chain *)
  log (nl +:+ "Verifying on-chain data...");;
  storedBalance ← perform (rpc_readContract publicClient contractAddress "balance")
                    (readContract publicClient contractAddress "balance");
  log (nl +:+ "✓ Verified on-chain:");;
  log ("  Balance: " +:+ storedBalance);;
  mret (mkResult hash (r_blockNumber receipt) (r_gasUsed receipt) storedBalance).

End Script.

(** ** The checks of the script before its first call *)

Section Checks.

Context `{!Node} `{!Viem}.

(** The tests of the script before it first talks to the node. *)
Definition deploymentPath (network : string) : string :=
  path_join [__dirname; "../deployments"; network +:+ ".json"].

(** The contract address: the one given if any (and not empty), else the
    one of the deployment file of the network. *)
Definition address_found (opts : SubmitProofOptions) (addr : Address) : Prop :=
  (opt_contractAddress opts = Some addr \/
   truthy (opt_contractAddress opts) = false /\
   fs_existsSync (deploymentPath (opt_network opts)) = true /\
   exists di,
     read_DeploymentInfo (deploymentPath (opt_network opts)) = Normal di /\
     di_contractAddress di = Some addr) /\
  addr <> "".

Definition wallet_ready (acct : Account) : Prop :=
  exists key,
    env_PRIVATE_KEY = Some key /\ privateKeyToAccount key = Normal acct /\
    key <> "".

(** The seal and the journal of the proof file: the fields under [data]
    if present (and not empty), else those at the top. *)
Definition proof_loaded (opts : SubmitProofOptions) (zk jd : Hex) : Prop :=
  fs_existsSync (path_resolve (opt_proofFile opts)) = true /\
  exists pd,
    read_ProofData (path_resolve (opt_proofFile opts)) = Normal pd /\
    or_else (pd_data pd ≫= pf_zkProof) (pd_zkProof pd) = Some zk /\
    or_else (pd_data pd ≫= pf_journalDataAbi) (pd_journalDataAbi pd) = Some jd /\
    zk <> "" /\ jd <> "".

Definition journal_printed (jd : Hex) : Prop :=
  exists dj iso,
    decodeAbiParameters jd = Normal dj /\
    toISOString (d_timestamp dj) = Normal iso.

(** What the [catch] block of a failed call ([what] is Simulation or
    Submission) prints and throws. *)
Definition failed_call (what : string) (e : JsVal)
  : Completion SubmitProofResult * list (list JsVal) :=
  match member e "message" with
  | Throw t => (Throw t, [])
  | Normal message =>
      (Throw e,
       if truthy (getRevertData e) then
         match decodeErrorResult contractABI (default "" (getRevertData e)) with
         | Normal de =>
             [[JsString ("✗ " +:+ what +:+ " failed: " +:+ errorName de);
               JsArray (default [] (args de))]]
         | Throw _ =>
             [[JsString ("✗ " +:+ what +:+ " failed:"); message];
              [JsString "Revert data:"; JsString (default "" (getRevertData e))]]
         end
       else [[JsString ("✗ " +:+ what +:+ " failed:"); message]])
  end.

(** All the tests together. *)
Definition validated (opts : SubmitProofOptions) (cfg : NetworkConfig)
    (addr : Address) (acct : Account) (zk jd : Hex) : Prop :=
  getNetworkConfig (opt_network opts) = Normal cfg /\
  address_found opts addr /\
  wallet_ready acct /\
  proof_loaded opts zk jd /\
  journal_printed jd.


End Checks.

End SubmitProof.
(** * The deployment scripts

    [verify.ts] (the verification of the contract's source on the block
    explorer, through forge) and [deploy.ts] (the deployment of the
    contract, and of a mock verifier when no verifier is given). They share
    the values, the completions and the network configuration of the
    client. *)

Module Scripts.
Import SubmitProof.

(** ** More of JavaScript *)

(** [ToBoolean]: what an [if] makes of a value. *)
Definition to_boolean (v : JsVal) : bool :=
  match v with
  | JsUndefined | JsNull => false
  | JsBool b => b
  | JsNumber n => negb (bool_decide (n = 0))
  | JsString s => negb (bool_decide (s = ""))
  | JsArray _ | JsObject _ => true
  end.

(** [xs.join(sep)] on strings. *)
Definition join (sep : string) (xs : list string) : string :=
  String.concat sep xs.

(** [s.startsWith(p)]. *)
Definition startsWith (p s : string) : bool := String.prefix p s.

(** ** What the scripts do to the outside *)

(** [sepolia.id] of [viem/chains]. *)
Definition chain_id (c : Chain) : Z :=
  match c with
  | sepolia => 11155111
  end.

(** [interface ContractArtifact]. *)
Record ContractArtifact := mkArtifact {
  abi : JsVal;
  bytecode : string;
}.

Inductive Effect :=
| console_log (items : list JsVal)
| console_error (items : list JsVal)
| child_process_exec (command : string)
| fs_mkdirSync (path : string)
| fs_writeFileSync (path : string) (json : JsVal)
| rpc_getBalance (client : PublicClient) (address : Address)
| rpc_deployContract (client : WalletClient) (artifact : ContractArtifact)
    (account : Account) (chain : Chain) (arguments : list JsVal)
| rpc_waitForTransactionReceipt (client : PublicClient) (hash : Hex).

(** A computation of a script: it extends the trace of effects and
    completes normally or by throwing. *)
Definition Script (A : Type) : Type :=
  list Effect -> Completion A * list Effect.

#[global] Instance Script_ret : MRet Script := fun A a tr => (Normal a, tr).
#[global] Instance Script_bind : MBind Script := fun A B f m tr =>
  match m tr with
  | (Normal a, tr') => f a tr'
  | (Throw e, tr') => (Throw e, tr')
  end.

Definition throw {A} (e : JsVal) : Script A := fun tr => (Throw e, tr).
Definition eval {A} (c : Completion A) : Script A := fun tr => (c, tr).
Definition perform {A} (a : Effect) (c : Completion A) : Script A :=
  fun tr => (c, tr ++ [a]).

(** [console.log] and [console.error] of one template string. *)
Definition log (line : string) : Script unit :=
  perform (console_log [JsString line]) (Normal tt).
Definition error (line : string) : Script unit :=
  perform (console_error [JsString line]) (Normal tt).

(** [if (c) { m }]. *)
Definition when (c : bool) (m : Script unit) : Script unit :=
  if c then m else mret tt.

(** [try { m } catch (e) { h e }]. *)
Definition try_catch {A} (m : Script A) (h : JsVal -> Script A) : Script A :=
  fun tr =>
    match m tr with
    | (Normal a, tr') => (Normal a, tr')
    | (Throw e, tr') => h e tr'
    end.

(** *** Observations on a trace *)

(** The commands run, in order. *)
Definition commands (tr : list Effect) : list string :=
  omap (fun a => match a with
                 | child_process_exec command => Some command
                 | _ => None
                 end) tr.

(** The contracts deployed, by their constructor arguments, and the files
    written, in order. *)
Definition deployed (tr : list Effect) : list (list JsVal) :=
  omap (fun a => match a with
                 | rpc_deployContract _ _ _ _ arguments => Some arguments
                 | _ => None
                 end) tr.

Definition written (tr : list Effect) : list (string * JsVal) :=
  omap (fun a => match a with
                 | fs_writeFileSync path json => Some (path, json)
                 | _ => None
                 end) tr.

(** What was written with [console.error], in order. *)
Definition errors (tr : list Effect) : list (list JsVal) :=
  omap (fun a => match a with
                 | console_error items => Some items
                 | _ => None
                 end) tr.

(** How a [main] ends: it returns, or it has called [process.exit]. *)
Inductive Ending :=
| Returned
| Exited (code : Z).

(** ** The environment of the scripts *)

(** What [execAsync] resolves to. *)
Record ExecOutput := mkExecOutput {
  out_stdout : string;
  out_stderr : string;
}.

(** [promisify(exec)] of [child_process], on a command. *)
Class Shell := {
  execAsync : string -> Completion ExecOutput;
}.

(** The receipt of a deployment. *)
Record DeployReceipt := mkDeployReceipt {
  dr_contractAddress : option Address;
  dr_blockNumber : Z;
  dr_gasUsed : Z;
}.

(** What the deployment reads and calls: [process.env], the build
    artifacts on disk, the clock, the number formats, the file system and
    the functions of viem. *)
Class Tools := {
  env_ZK_PROVER_GUEST_ID : option string;
  env_NOTARY_KEY_FINGERPRINT : option string;
  env_QUERIES_HASH : option string;
  env_EXPECTED_URL : option string;
  (** [JSON.parse(fs.readFileSync(p, 'utf-8'))], then [.abi] and
      [.bytecode.object] *)
  read_artifact : string -> Completion ContractArtifact;
  Date_now : Z;
  (** what a template makes of [Number(wei) / 1e18] *)
  ether : Z -> string;
  (** [Number(n)] of a bigint *)
  Number_of_bigint : Z -> Z;
  (** [fs.mkdirSync(p, { recursive: true })] and
      [fs.writeFileSync(p, JSON.stringify(v, null, 2))] *)
  mkdirSync : string -> Completion unit;
  writeFileSync : string -> JsVal -> Completion unit;
  getBalance : PublicClient -> Address -> Completion Z;
  deployContract :
    WalletClient -> ContractArtifact -> Account -> Chain -> list JsVal
    -> Completion Hex;
  waitForTransactionReceipt : PublicClient -> Hex -> Completion DeployReceipt;
}.

(** ** [verify.ts] *)

Record VerifyOptions := mkVerifyOptions {
  vo_network : string;
  vo_contractAddress : string;
  vo_constructorArgs : option (list string);
}.

Record VerifyResult := mkVerifyResult { success : bool }.

Section Verify.

Context `{!Node} `{!Shell}.

(** [export async function verify(options)]. *)
Definition verify (options : VerifyOptions) : Script VerifyResult :=
  let network := vo_network options in
  let contractAddress := vo_contractAddress options in
  let constructorArgs := default [] (vo_constructorArgs options) in
  log (nl +:+ "=== Verifying Contract on " +:+ network +:+ " ===" +:+ nl);;
  (* Get network configuration to validate *)
  networkConfig ← eval (getNetworkConfig network);
  log ("Network: " +:+ network);;
  log ("Chain ID: " +:+ pretty (chain_id (chain networkConfig)));;
  log ("Contract: " +:+ contractAddress);;
  (* Build forge verify command *)
  let args :=
    ["forge"; "verify-contract"; contractAddress;
     "src/EtherscanVerifier.sol:EtherscanVerifier"; "--chain"; network;
     "--watch"] in
  (* Add constructor args if provided *)
  let args :=
    if bool_decide (0 < length constructorArgs)%nat
    then args ++ ["--constructor-args"] ++ constructorArgs
    else args in
  let command := join " " args in
  log (nl +:+ "Running verification command:");;
  log (command +:+ nl);;
  try_catch
    (out ← perform (child_process_exec command) (execAsync command);
     when (negb (bool_decide (out_stdout out = ""))) (log (out_stdout out));;
     when (negb (bool_decide (out_stderr out = ""))) (error (out_stderr out));;
     log (nl +:+ "✓ Contract verified successfully!");;
     mret (mkVerifyResult true))
    (fun e =>
       error (nl +:+ "✗ Verification failed:");;
       stdout ← eval (member e "stdout");
       when (to_boolean stdout) (perform (console_log [stdout]) (Normal tt));;
       stderr ← eval (member e "stderr");
       when (to_boolean stderr) (perform (console_error [stderr]) (Normal tt));;
       throw e).

(** The usage text of the command line. *)
Definition verify_usage : string :=
  nl +:+ "Usage: npm run verify <network> <contractAddress> [constructorArgs...]"
  +:+ nl +:+ nl +:+ "Arguments:"
  +:+ nl +:+ "  network         - Target network (sepolia)"
  +:+ nl +:+ "  contractAddress - Deployed contract address"
  +:+ nl +:+ "  constructorArgs - (Optional) Constructor arguments if needed"
  +:+ nl +:+ nl +:+ "Examples:"
  +:+ nl +:+ "  npm run verify sepolia 0x1234..."
  +:+ nl +:+ "  npm run verify sepolia 0x1234... 0xverifier... 0ximageId... 0xnotary... 0xhash... "
  +:+ dq +:+ "url" +:+ dq
  +:+ nl.

(** [async function main()] of [verify.ts], on the arguments of the
    command line ([process.argv.slice(2)]). With fewer than two arguments
    it prints the usage and exits; [process.exit] ends the run there. *)
Definition verify_main (args : list string) : Script Ending :=
  match args with
  | network :: contractAddress :: constructorArgs =>
      try_catch
        (verify (mkVerifyOptions network contractAddress (Some constructorArgs));;
         log (nl +:+ "=== Verification Complete ===");;
         mret Returned)
        (fun e =>
           message ← eval (member e "message");
           perform (console_error [JsString (nl +:+ "Verification error:");
                                   message]) (Normal tt);;
           mret (Exited 1))
  | _ =>
      error verify_usage;;
      mret (Exited 1)
  end.

End Verify.

(** ** [deploy.ts] *)

Record DeployOptions := mkDeployOptions {
  do_network : string;
  do_verify : option bool;
  do_verifierAddress : option Address;
}.

Record DeployResult := mkDeployResult {
  res_address : Address;
  res_transactionHash : Hex;
  res_deploymentInfo : JsVal;
}.

(** The all-zero [bytes32], as the script spells it. *)
Definition zero_word : string :=
  "0x0000000000000000000000000000000000000000000000000000000000000000".

Section Deploy.

Context `{!Node} `{!Viem} `{!Tools}.

(** [function loadContractArtifact()]. *)
Definition loadContractArtifact : Script ContractArtifact :=
  let artifactPath :=
    path_join [__dirname; "../out/EtherscanVerifier.sol/EtherscanVerifier.json"] in
  when (negb (fs_existsSync artifactPath))
    (throw (new_Error "Contract not compiled. Run: forge build"));;
  eval (read_artifact artifactPath).

(** [function loadMockVerifierArtifact()]. *)
Definition loadMockVerifierArtifact : Script ContractArtifact :=
  let artifactPath :=
    path_join [__dirname;
               "../out/RiscZeroMockVerifier.sol/RiscZeroMockVerifier.json"] in
  when (negb (fs_existsSync artifactPath))
    (throw (new_Error
       "Mock verifier not compiled. Run: forge build (make sure test files import RiscZeroMockVerifier)"));;
  eval (read_artifact artifactPath).

(** [async function deployMockVerifier(walletClient, publicClient,
    account)]. *)
Definition deployMockVerifier (walletClient : WalletClient)
    (publicClient : PublicClient) (account : Account) : Script Address :=
  artifact ← loadMockVerifierArtifact;
  hash ← perform
    (rpc_deployContract walletClient artifact account (wc_chain walletClient)
       [JsString "0xFFFFFFFF"])
    (deployContract walletClient artifact account (wc_chain walletClient)
       [JsString "0xFFFFFFFF"]);
  receipt ← perform (rpc_waitForTransactionReceipt publicClient hash)
              (waitForTransactionReceipt publicClient hash);
  when (negb (truthy (dr_contractAddress receipt)))
    (throw (new_Error
       "Mock verifier deployment failed - no contract address in receipt"));;
  mret (default "" (dr_contractAddress receipt)).

(** [export async function deploy(options)]. *)
Definition deploy (options : DeployOptions) : Script DeployResult :=
  let network := do_network options in
  let verify := default false (do_verify options) in
  let providedVerifier := do_verifierAddress options in
  log (nl +:+ "=== Deploying to " +:+ network +:+ " ===" +:+ nl);;
  (* Get network configuration *)
  networkConfig ← eval (getNetworkConfig network);
  (* Use SEPOLIA_RPC_URL from .env if deploying to sepolia *)
  rpcUrl ←
    (if bool_decide (network = "sepolia") then
       if truthy env_SEPOLIA_RPC_URL then
         log "Using SEPOLIA_RPC_URL from .env";;
         mret (default (rpcUrl networkConfig) env_SEPOLIA_RPC_URL)
       else
         log ("SEPOLIA_RPC_URL not set in .env, using default: "
              +:+ rpcUrl networkConfig);;
         mret (rpcUrl networkConfig)
     else mret (rpcUrl networkConfig));
  log ("Network: " +:+ network);;
  log ("Chain ID: " +:+ pretty (chain_id (chain networkConfig)));;
  log ("RPC URL: " +:+ rpcUrl);;
  (* Setup wallet *)
  let privateKey := env_PRIVATE_KEY in
  when (negb (truthy privateKey))
    (throw (new_Error "PRIVATE_KEY not set in environment variables"));;
  account ← eval (privateKeyToAccount (default "" privateKey));
  log (nl +:+ "Deployer address: " +:+ address account);;
  (* Create clients *)
  let publicClient := createPublicClient (chain networkConfig) rpcUrl in
  let walletClient := createWalletClient account (chain networkConfig) rpcUrl in
  (* Check balance *)
  balance ← perform (rpc_getBalance publicClient (address account))
              (getBalance publicClient (address account));
  log ("Balance: " +:+ pretty balance +:+ " wei (" +:+ ether balance +:+ " ETH)");;
  when (bool_decide (balance = 0)) (throw (new_Error "Deployer has no funds"));;
  (* Get or deploy verifier *)
  verifierAddress ←
    (if negb (truthy providedVerifier) then
       log (nl +:+ "No verifier address provided. Deploying RiscZeroMockVerifier...");;
       deployed ← deployMockVerifier walletClient publicClient account;
       log ("RiscZeroMockVerifier deployed at: " +:+ deployed);;
       log "⚠️  WARNING: This is a MOCK verifier for testing only. Do NOT use in production!";;
       mret deployed
     else mret (default "" providedVerifier));
  let imageId := env_ZK_PROVER_GUEST_ID in
  let notaryKeyFingerprint := env_NOTARY_KEY_FINGERPRINT in
  let queriesHash := env_QUERIES_HASH in
  let expectedUrl :=
    default ""
      (or_else env_EXPECTED_URL
         (Some "https://data-api.binance.vision/api/v3/exchangeInfo?symbol=ETHUSDC")) in
  when (negb (truthy imageId) || bool_decide (imageId = Some zero_word))
    (throw (new_Error "ZK_PROVER_GUEST_ID not set"));;
  when (negb (truthy notaryKeyFingerprint)
        || bool_decide (notaryKeyFingerprint = Some zero_word))
    (throw (new_Error "NOTARY_KEY_FINGERPRINT not set"));;
  when (negb (truthy queriesHash) || bool_decide (queriesHash = Some zero_word))
    (throw (new_Error "QUERIES_HASH not set"));;
  let imageId := default "" imageId in
  let notaryKeyFingerprint := default "" notaryKeyFingerprint in
  let queriesHash := default "" queriesHash in
  log (nl +:+ "Deployment Parameters:");;
  log ("  Verifier: " +:+ verifierAddress);;
  log ("  Image ID: " +:+ imageId);;
  log ("  Notary Key Fingerprint: " +:+ notaryKeyFingerprint);;
  log ("  Queries Hash: " +:+ queriesHash);;
  log ("  Expected URL: " +:+ expectedUrl);;
  (* Load contract artifact *)
  artifact ← loadContractArtifact;
  log (nl +:+ "Contract bytecode loaded ("
       +:+ pretty (length_utf16 (bytecode artifact)) +:+ " bytes)");;
  (* Deploy contract *)
  log (nl +:+ "Deploying contract...");;
  let arguments :=
    [JsString verifierAddress; JsString imageId; JsString notaryKeyFingerprint;
     JsString queriesHash; JsString expectedUrl] in
  hash ← perform
    (rpc_deployContract walletClient artifact account (wc_chain walletClient)
       arguments)
    (deployContract walletClient artifact account (wc_chain walletClient)
       arguments);
  log (nl +:+ "Transaction hash: " +:+ hash);;
  log "Waiting for confirmation...";;
  (* Wait for transaction receipt *)
  receipt ← perform (rpc_waitForTransactionReceipt publicClient hash)
              (waitForTransactionReceipt publicClient hash);
  when (negb (truthy (dr_contractAddress receipt)))
    (throw (new_Error
       "Contract deployment failed - no contract address in receipt"));;
  let contractAddress := default "" (dr_contractAddress receipt) in
  log (nl +:+ "✓ Contract deployed successfully!");;
  log ("  Address: " +:+ contractAddress);;
  log ("  Block: " +:+ pretty (dr_blockNumber receipt));;
  log ("  Gas used: " +:+ pretty (dr_gasUsed receipt));;
  (* Create deployments directory if it doesn't exist *)
  let deploymentsDir := path_join [__dirname; "../deployments"] in
  when (negb (fs_existsSync deploymentsDir))
    (perform (fs_mkdirSync deploymentsDir) (mkdirSync deploymentsDir));;
  (* Save deployment info *)
  let deploymentInfo :=
    JsObject
      (<["network" := JsString network]>
      (<["chainId" := JsNumber (chain_id (chain networkConfig))]>
      (<["contractAddress" := JsString contractAddress]>
      (<["deployer" := JsString (address account)]>
      (<["transactionHash" := JsString hash]>
      (<["blockNumber" := JsNumber (Number_of_bigint (dr_blockNumber receipt))]>
      (<["gasUsed" := JsString (pretty (dr_gasUsed receipt))]>
      (<["timestamp" := JsNumber Date_now]>
      {[ "parameters" := JsObject
           (<["verifierAddress" := JsString verifierAddress]>
           (<["imageId" := JsString imageId]>
           (<["notaryKeyFingerprint" := JsString notaryKeyFingerprint]>
           (<["queriesHash" := JsString queriesHash]>
           {[ "expectedUrl" := JsString expectedUrl ]})))) ]})))))))) in
  let deploymentPath := path_join [deploymentsDir; network +:+ ".json"] in
  perform (fs_writeFileSync deploymentPath deploymentInfo)
    (writeFileSync deploymentPath deploymentInfo);;
  log (nl +:+ "Deployment info saved to: " +:+ deploymentPath);;
  (* Verify contract if requested *)
  when verify
    (log (nl +:+ "=== Contract Verification ===");;
     log "To verify on block explorer, run:";;
     log ("forge verify-contract " +:+ contractAddress
          +:+ " EtherscanVerifier --chain " +:+ network +:+ " --watch"));;
  mret (mkDeployResult contractAddress hash deploymentInfo).

Definition deploy_usage : string :=
  nl +:+ "Usage: tsx scripts/deploy.ts <network> [verifierAddress] [--verify]"
  +:+ nl +:+ nl +:+ "Networks:"
  +:+ nl +:+ "  sepolia"
  +:+ nl +:+ nl +:+ "Options:"
  +:+ nl +:+ "  --verify    Request contract verification after deployment"
  +:+ nl +:+ nl +:+ "Examples:"
  +:+ nl +:+ "  tsx scripts/deploy.ts sepolia                      # deploys mock verifier first"
  +:+ nl +:+ "  tsx scripts/deploy.ts sepolia 0x... --verify       # uses provided verifier"
  +:+ nl.

(** [async function main()] of [deploy.ts]. The verifier address is the
    first argument that starts with 0x and is 42 characters long. *)
Definition deploy_main (args : list string) : Script Ending :=
  match args with
  | [] =>
      error deploy_usage;;
      mret (Exited 1)
  | network :: _ =>
      let shouldVerify := bool_decide ("--verify" ∈ args) in
      let potentialAddressArg :=
        List.find (fun a => startsWith "0x" a
                            && bool_decide (length_utf16 a = 42%nat)) args in
      try_catch
        (result ← deploy (mkDeployOptions network (Some shouldVerify)
                            potentialAddressArg);
         log (nl +:+ "=== Deployment Complete ===");;
         log ("Contract Address: " +:+ res_address result);;
         log ("Transaction: " +:+ res_transactionHash result);;
         log (nl +:+ "Next steps:");;
         log "2. Test the contract with your proof data";;
         mret Returned)
        (fun e =>
           message ← eval (member e "message");
           perform (console_error [JsString (nl +:+ "✗ Deployment failed:");
                                   message]) (Normal tt);;
           mret (Exited 1))
  end.

(** [main().catch(...)]: the run of the script. *)
Definition deploy_script (args : list string) : Script Ending :=
  try_catch (deploy_main args)
    (fun e =>
       perform (console_error [JsString "Unhandled error:"; e]) (Normal tt);;
       mret (Exited 1)).

(** *** What the tests of [deploy] come to *)

(** A parameter of the environment counts as set when it is there, not
    empty, and not the all-zero word. *)
Definition parameter_set (v : option string) : Prop :=
  exists s, v = Some s /\ s <> "" /\ s <> zero_word.


End Deploy.

End Scripts.

(** * Concrete primitives and a sample deployment

    The theorems further down hold for any primitives. To exercise them,
    this part gives the primitives concretely: Keccak-256 and SHA-256, the
    head/tail layout of the contract ABI for the journal tuple, a mock
    verifier, and a node for the client to talk to. *)

(** ** Bytes, words and hexadecimal *)

(** The integer a big-endian byte string denotes, and back. *)
Definition word_of_bytes (bs : bytes) : Z :=
  foldl (fun acc b => acc * 256 + Z.of_N (Byte.to_N b)) 0 bs.

Definition byte_of_Z (z : Z) : Byte.byte :=
  default Byte.x00 (Byte.of_N (Z.to_N (z mod 256))).

Fixpoint bytes_of_word (n : nat) (z : Z) : bytes :=
  match n with
  | O => []
  | S n' => bytes_of_word n' (z / 256) ++ [byte_of_Z z]
  end.

(** [l] cut into pieces of [n] elements; [fuel] bounds their number. *)
Fixpoint chunks {A} (n : nat) (fuel : nat) (l : list A) : list (list A) :=
  match fuel with
  | O => []
  | S fuel' =>
      match l with
      | [] => []
      | _ => take n l :: chunks n fuel' (drop n l)
      end
  end.

(** Lower-case hexadecimal with the 0x prefix. *)
Definition hex_digit (n : N) : string :=
  String.substring (N.to_nat n) 1 "0123456789abcdef".

Definition to_hex (bs : bytes) : string :=
  "0x" +:+ String.concat ""
    ((fun b => hex_digit (Byte.to_N b / 16) +:+ hex_digit (Byte.to_N b mod 16))
       <$> bs).

Definition digit_of_hex (c : Ascii.ascii) : option Z :=
  let n := Z.of_nat (Ascii.nat_of_ascii c) in
  if decide (48 <= n <= 57) then Some (n - 48)
  else if decide (97 <= n <= 102) then Some (n - 87)
  else if decide (65 <= n <= 70) then Some (n - 55)
  else None.

Fixpoint bytes_of_digits (s : string) : option bytes :=
  match s with
  | EmptyString => Some []
  | String hi (String lo s') =>
      h ← digit_of_hex hi; l ← digit_of_hex lo; bs ← bytes_of_digits s';
      Some (byte_of_Z (16 * h + l) :: bs)
  | String _ EmptyString => None
  end.

Definition of_hex (s : string) : option bytes :=
  if String.prefix "0x" s
  then bytes_of_digits (String.substring 2 (String.length s - 2) s)
  else None.

(** ** Keccak-256 *)

Module Keccak.

Definition mask64 : Z := 2 ^ 64 - 1.

Definition rotl64 (x n : Z) : Z :=
  Z.lor (Z.land (Z.shiftl x n) mask64) (Z.shiftr x (64 - n)).

(** The state: 25 lanes of 64 bits, the lane at [(x, y)] at position
    [x + 5 y]. *)
Definition lane (s : list Z) (x y : nat) : Z :=
  default 0 (s !! (x + 5 * y)%nat).

Definition coords : list (nat * nat) :=
  y ← seq 0 5; x ← seq 0 5; [(x, y)].

Definition theta (s : list Z) : list Z :=
  let c x := foldr Z.lxor 0 ((lane s x) <$> seq 0 5) in
  let d x := Z.lxor (c ((x + 4) mod 5)%nat) (rotl64 (c ((x + 1) mod 5)%nat) 1) in
  (fun '(x, y) => Z.lxor (lane s x y) (d x)) <$> coords.

Definition rotation_offsets : list Z :=
  [ 0;  1; 62; 28; 27;
   36; 44;  6; 55; 20;
    3; 10; 43; 25; 39;
   41; 45; 15; 21;  8;
   18;  2; 61; 56; 14].

(** The lane at [(X, Y)] after rho and pi is the rotated lane at
    [((X + 3 Y) mod 5, X)]. *)
Definition rho_pi (s : list Z) : list Z :=
  (fun '(X, Y) =>
     let x := ((X + 3 * Y) mod 5)%nat in
     let y := X in
     rotl64 (lane s x y) (default 0 (rotation_offsets !! (x + 5 * y)%nat)))
  <$> coords.

Definition chi (s : list Z) : list Z :=
  (fun '(x, y) =>
     Z.lxor (lane s x y)
       (Z.land (Z.lxor (lane s ((x + 1) mod 5)%nat y) mask64)
               (lane s ((x + 2) mod 5)%nat y)))
  <$> coords.

Definition round_constants : list Z :=
  [0x0000000000000001; 0x0000000000008082; 0x800000000000808A;
   0x8000000080008000; 0x000000000000808B; 0x0000000080000001;
   0x8000000080008081; 0x8000000000008009; 0x000000000000008A;
   0x0000000000000088; 0x0000000080008009; 0x000000008000000A;
   0x000000008000808B; 0x800000000000008B; 0x8000000000008089;
   0x8000000000008003; 0x8000000000008002; 0x8000000000000080;
   0x000000000000800A; 0x800000008000000A; 0x8000000080008081;
   0x8000000000008080; 0x0000000080000001; 0x8000000080008008].

Definition iota (rc : Z) (s : list Z) : list Z :=
  match s with
  | [] => []
  | l :: s' => Z.lxor l rc :: s'
  end.

Definition round (s : list Z) (rc : Z) : list Z :=
  iota rc (chi (rho_pi (theta s))).

Definition keccak_f (s : list Z) : list Z := foldl round s round_constants.

(** Lanes are read and written little-endian. *)
Definition lane_of_bytes (bs : bytes) : Z :=
  foldr (fun b acc => Z.of_N (Byte.to_N b) + 256 * acc) 0 bs.

Definition rate : nat := 136.

(** Padding of the original Keccak (domain byte 0x01), as the EVM uses. *)
Definition pad (m : bytes) : bytes :=
  let q := (rate - length m mod rate)%nat in
  if decide (q = 1%nat) then m ++ [Byte.x81]
  else m ++ [Byte.x01] ++ replicate (q - 2) Byte.x00 ++ [Byte.x80].

Definition absorb (s : list Z) (block : bytes) : list Z :=
  let lanes := lane_of_bytes <$> chunks 8 17 block in
  keccak_f (zip_with Z.lxor s (lanes ++ replicate 8 0)).

Definition digest (m : bytes) : bytes :=
  let p := pad m in
  let s := foldl absorb (replicate 25 0) (chunks rate (length p) p) in
  l ← take 4 s; (fun k => byte_of_Z (Z.shiftr l (8 * Z.of_nat k))) <$> seq 0 8.

Definition keccak256 (m : bytes) : bytes32 := word_of_bytes (digest m).

End Keccak.

(** ** SHA-256 *)

Module SHA256.

Definition add32 (a b : Z) : Z := (a + b) mod 2 ^ 32.
Definition rotr32 (x n : Z) : Z :=
  Z.lor (Z.shiftr x n) (Z.land (Z.shiftl x (32 - n)) (2 ^ 32 - 1)).
Definition not32 (x : Z) : Z := Z.lxor x (2 ^ 32 - 1).

(** The constants are taken from the primes: the round constants are the
    first 32 bits of the fractional parts of the cube roots of the first 64
    primes, the initial state those of the square roots of the first 8. *)
Definition is_prime (n : nat) : bool :=
  bool_decide (2 <= n)%nat
  && forallb (fun d => negb (n mod d =? 0)%nat) (seq 2 (n - 2)).

Definition primes : list nat := List.filter is_prime (seq 2 310).

(** The integer cube root of a number below [2 ^ 108], bit by bit. *)
Definition cube_root (n : Z) : Z :=
  foldl (fun r k => let r' := r + 2 ^ k in
                    if decide (r' * r' * r' <= n) then r' else r)
        0 (Z.of_nat <$> reverse (seq 0 36)).

Definition K : list Z :=
  (fun p => cube_root (Z.of_nat p * 2 ^ 96) mod 2 ^ 32) <$> primes.

Definition H0 : list Z :=
  (fun p => Z.sqrt (Z.of_nat p * 2 ^ 64) mod 2 ^ 32) <$> take 8 primes.

Definition pad (m : bytes) : bytes :=
  let zeros := ((64 - (length m + 9) mod 64) mod 64)%nat in
  m ++ [Byte.x80] ++ replicate zeros Byte.x00
    ++ bytes_of_word 8 (8 * Z.of_nat (length m)).

(** The message schedule; [w] holds the words so far, latest first. *)
Fixpoint schedule (n : nat) (w : list Z) : list Z :=
  match n with
  | O => w
  | S n' =>
      let at_ k := default 0 (w !! k) in
      let s0 := Z.lxor (Z.lxor (rotr32 (at_ 14%nat) 7) (rotr32 (at_ 14%nat) 18))
                       (Z.shiftr (at_ 14%nat) 3) in
      let s1 := Z.lxor (Z.lxor (rotr32 (at_ 1%nat) 17) (rotr32 (at_ 1%nat) 19))
                       (Z.shiftr (at_ 1%nat) 10) in
      schedule n' (add32 (add32 (add32 (at_ 15%nat) s0) (at_ 6%nat)) s1 :: w)
  end.

Definition step (v : list Z) (kw : Z * Z) : list Z :=
  match v with
  | [a; b; c; d; e; f; g; h] =>
      let S1 := Z.lxor (Z.lxor (rotr32 e 6) (rotr32 e 11)) (rotr32 e 25) in
      let ch := Z.lxor (Z.land e f) (Z.land (not32 e) g) in
      let t1 := add32 (add32 (add32 (add32 h S1) ch) kw.1) kw.2 in
      let S0 := Z.lxor (Z.lxor (rotr32 a 2) (rotr32 a 13)) (rotr32 a 22) in
      let maj := Z.lxor (Z.lxor (Z.land a b) (Z.land a c)) (Z.land b c) in
      let t2 := add32 S0 maj in
      [add32 t1 t2; a; b; c; add32 d t1; e; f; g]
  | _ => v
  end.

Definition compress (h : list Z) (block : bytes) : list Z :=
  let w :=
    reverse (schedule 48 (reverse (word_of_bytes <$> chunks 4 16 block))) in
  zip_with add32 h (foldl step h (zip K w)).

Definition digest (m : bytes) : bytes :=
  let p := pad m in
  foldl compress H0 (chunks 64 (length p) p) ≫= bytes_of_word 4.

Definition sha256 (m : bytes) : bytes32 := word_of_bytes (digest m).

End SHA256.

(** ** The ABI encoding of the journal *)

Module ABI.
Import EtherscanVerifier.

Definition word (z : Z) : bytes := bytes_of_word 32 z.

(** A dynamic value in the tail: its length, then its bytes padded with
    zeros to a multiple of 32. *)
Definition enc_dynamic (s : bytes) : bytes :=
  word (len s) ++ s ++ replicate ((32 - length s mod 32) mod 32) Byte.x00.

(** [abi.encode(notaryKeyFingerprint, method, url, timestamp, queriesHash,
    balance)]. *)
Definition encode (j : Journal) : bytes :=
  let t1 := enc_dynamic (method j) in
  let t2 := enc_dynamic (url j) in
  let t3 := enc_dynamic (_balance j) in
  word (notaryKeyFingerprint j)
  ++ word 192
  ++ word (192 + len t1)
  ++ word (timestamp j)
  ++ word (queriesHash j)
  ++ word (192 + len t1 + len t2)
  ++ t1 ++ t2 ++ t3.

(** *** The decoder the compiler generates

    It reads the six head slots, then each string through its offset:
    the offset must fit 64 bits and the length word must lie within the
    data (else a revert without data); the memory for the string is then
    allocated, which panics with code 0x41 when the length, or the free
    memory pointer after the allocation, does not fit 64 bits; only then
    is the end of the string tested against the end of the data. *)
Inductive Decoding (A : Type) :=
| Decoded (a : A)
| OutOfBounds
| AllocationOverflow.
Arguments Decoded {A} a.
Arguments OutOfBounds {A}.
Arguments AllocationOverflow {A}.

Definition uint64_max : Z := 2 ^ 64 - 1.

(** [calldataload]: the word at an offset, the bytes after the end of the
    data reading as zero. *)
Definition load (bs : bytes) (off : Z) : Z :=
  word_of_bytes (take 32 (drop (Z.to_nat off) bs ++ replicate 32 Byte.x00)).

(** [round_up_to_mul_of_32]. *)
Definition round_up (n : Z) : Z := (n + 31) / 32 * 32.

(** The string a head slot points to, decoded with the free memory pointer
    at [free]; with it, the free memory pointer after the allocation. *)
Definition string_at (bs : bytes) (slot free : Z) : Decoding (bytes * Z) :=
  let off := load bs slot in
  if decide (uint64_max < off) then OutOfBounds
  else if decide (off + 31 < len bs) then
    let n := load bs off in
    if decide (uint64_max < n) then AllocationOverflow
    else
      let free' := free + round_up (round_up n + 32) in
      if decide (uint64_max < free') then AllocationOverflow
      else if decide (len bs < off + 32 + n) then OutOfBounds
      else Decoded (take (Z.to_nat n) (drop (Z.to_nat (off + 32)) bs), free')
  else OutOfBounds.

(** The tuple; the free memory pointer is at 0x80 when the function
    starts. *)
Definition decode_tuple (bs : bytes) : Decoding Journal :=
  if decide (len bs < 192) then OutOfBounds
  else
    let fp := load bs 0 in
    match string_at bs 32 0x80 with
    | Decoded (m, free1) =>
        match string_at bs 64 free1 with
        | Decoded (u, free2) =>
            let ts := load bs 96 in
            let qh := load bs 128 in
            match string_at bs 160 free2 with
            | Decoded (b, _) => Decoded (mkJournal fp m u ts qh b)
            | OutOfBounds => OutOfBounds
            | AllocationOverflow => AllocationOverflow
            end
        | OutOfBounds => OutOfBounds
        | AllocationOverflow => AllocationOverflow
        end
    | OutOfBounds => OutOfBounds
    | AllocationOverflow => AllocationOverflow
    end.

Definition decode (bs : bytes) : option Journal :=
  match decode_tuple bs with
  | Decoded j => Some j
  | _ => None
  end.

Definition overflow (bs : bytes) : bool :=
  match decode_tuple bs with
  | AllocationOverflow => true
  | _ => false
  end.

(** The first four bytes of the Keccak-256 digest of a signature. *)
Definition selector (signature : string) : bytes :=
  take 4 (Keccak.digest (lit signature)).

End ABI.

(** ** A sample deployment *)

Module Sample.
Import EtherscanVerifier.

(** The primitives of the EVM. *)
Definition evm : Builtins := {|
  abi_decode := ABI.decode;
  abi_decode_overflow := ABI.overflow;
  keccak256 := Keccak.keccak256;
  sha256 := SHA256.sha256;
|}.

(** A hash without collisions: the bytes read as digits 1..256 in base
    257. No function into 256 bits is collision-free; this one stands for
    the idealisation under which a digest identifies its preimage. *)
Definition ideal_hash (bs : bytes) : Z :=
  foldr (fun b acc => Z.of_N (Byte.to_N b) + 1 + 257 * acc) 0 bs.

(** The EVM with the idealised hash in place of Keccak-256. *)
Definition ideal : Builtins := {|
  abi_decode := ABI.decode;
  abi_decode_overflow := ABI.overflow;
  keccak256 := ideal_hash;
  sha256 := SHA256.sha256;
|}.

(** A verifier in the manner of a mock: it accepts the seal [0xAA] for the
    image of the deployment, whatever the digest, and reverts on anything
    else. *)
Definition verifier : IRiscZeroVerifier := {|
  verify s image digest :=
    if decide (s = [Byte.xaa] /\ image = 0x2222) then Returned
    else CallReverted (ABI.selector "VerificationFailed()")
|}.

(** The deployment of the client scenario in the specification. *)
Definition imm : Immutables :=
  (constructor 0x1111 0x2222 0xa11ce 0xb0b (lit "https://api.example.com/v2")).1.

Definition genesis : Chain :=
  mkChain
    (constructor 0x1111 0x2222 0xa11ce 0xb0b (lit "https://api.example.com/v2")).2
    [].

Definition journal : Journal := {|
  notaryKeyFingerprint := 0xa11ce;
  method := lit "GET";
  url := lit "https://api.example.com/v2?x=1";
  timestamp := 1700000000;
  queriesHash := 0xb0b;
  _balance := lit "123.45";
|}.

Definition journalData : bytes := ABI.encode journal.
Definition seal : bytes := [Byte.xaa].

(** Journals that fail one check each, and one with another timestamp. *)
Definition with_fields (fp : bytes32) (m u : bytes) (qh : bytes32) (b : bytes)
  : Journal := mkJournal fp m u 1700000000 qh b.

Definition journal_bad_notary : Journal :=
  with_fields 0xbad (lit "GET") (lit "https://api.example.com/v2?x=1") 0xb0b
    (lit "123.45").
Definition journal_lowercase_get : Journal :=
  with_fields 0xa11ce (lit "get") (lit "https://api.example.com/v2?x=1") 0xb0b
    (lit "123.45").
Definition journal_post : Journal :=
  with_fields 0xa11ce (lit "POST") (lit "https://api.example.com/v2?x=1") 0xb0b
    (lit "123.45").
Definition journal_other_host : Journal :=
  with_fields 0xa11ce (lit "GET") (lit "https://api.example.org/v2?x=1") 0xb0b
    (lit "123.45").
Definition journal_short_url : Journal :=
  with_fields 0xa11ce (lit "GET") (lit "https://api.example.com") 0xb0b
    (lit "123.45").
Definition journal_empty_balance : Journal :=
  with_fields 0xa11ce (lit "GET") (lit "https://api.example.com/v2?x=1") 0xb0b
    [].
(** The queries hash with its lowest bit flipped. *)
Definition journal_bad_queries_hash : Journal :=
  with_fields 0xa11ce (lit "GET") (lit "https://api.example.com/v2?x=1")
    (Z.lxor 0xb0b 1) (lit "123.45").
Definition journal_older : Journal :=
  mkJournal 0xa11ce (lit "GET") (lit "https://api.example.com/v2?x=1") 0 0xb0b
    (lit "123.45").

(** Bytes that announce a string of 2^64 bytes: the six head slots, the
    first offset pointing right after them, and the length word there. *)
Definition journalData_oversized : bytes :=
  ABI.word 0xa11ce ++ ABI.word 192 ++ ABI.word 192 ++ ABI.word 1700000000
  ++ ABI.word 0xb0b ++ ABI.word 192 ++ ABI.word (2 ^ 64).

(** ** A sample node for the client *)

Import SubmitProof.

(** The revert payload of the contract, as bytes. *)
Definition error_name (e : Error) : string :=
  match e with
  | InvalidNotaryKeyFingerprint => "InvalidNotaryKeyFingerprint"
  | InvalidQueriesHash => "InvalidQueriesHash"
  | InvalidUrl => "InvalidUrl"
  | ZKProofVerificationFailed => "ZKProofVerificationFailed"
  | InvalidBalance => "InvalidBalance"
  end.

Definition revert_payload (r : RevertData) : bytes :=
  match r with
  | CustomError e => ABI.selector (error_name e +:+ "()")
  | Panic code => ABI.selector "Panic(uint256)" ++ ABI.word code
  | EmptyRevert => []
  end.

(** The error a node client throws when the call reverts, in two shapes.

    [PayloadInCauseRaw] is the shape of viem: the cause holds the error
    decoded against the ABI of the call under [data] (an object, absent
    when the payload is not recognised) and the payload itself under
    [raw]; the message names the error, or the selector when the payload is
    not recognised.

    [PayloadInCauseData] is the shape of a client that passes the JSON-RPC
    error on as the cause: its [data] is the payload, a string, which is
    where [getRevertData] looks for it. *)
Inductive ErrorShape :=
| PayloadInCauseData
| PayloadInCauseRaw.

(** The name under which the client knows a revert, if it does. *)
Definition known_error (r : RevertData) : option string :=
  match r with
  | CustomError e => Some (error_name e)
  | Panic _ => Some "Panic"
  | EmptyRevert => None
  end.

(** What the client says of a panic code (the one code the contract can
    raise is that of its decoder). *)
Definition panic_reason (code : Z) : option string :=
  if bool_decide (code = 0x41)
  then Some "Allocated too much memory or created an array which is too large."
  else None.

(** The head of the message the client builds (the details of the call,
    which follow it, are left out): the error decoded against the ABI of
    the call is named in it. *)
Definition revert_message (r : RevertData) : string :=
  let reverts := "The contract function " +:+ dq +:+ "submitBalance" +:+ dq
                   +:+ " reverted" in
  match r with
  | CustomError e =>
      reverts +:+ "." +:+ nl +:+ nl +:+ "Error: " +:+ error_name e +:+ "()"
  | Panic code =>
      match panic_reason code with
      | Some reason =>
          reverts +:+ " with the following reason:" +:+ nl +:+ reason
      | None => reverts +:+ "."
      end
  | EmptyRevert => reverts +:+ "."
  end.

Definition reverted (shape : ErrorShape) (r : RevertData) : JsVal :=
  let payload := JsString (to_hex (revert_payload r)) in
  JsObject
    (<["name" := JsString "ContractFunctionExecutionError"]>
    (<["message" := JsString (revert_message r)]>
    {[ "cause" := JsObject
         match shape with
         | PayloadInCauseData =>
             <["code" := JsNumber 3]> {[ "data" := payload ]}
         | PayloadInCauseRaw =>
             <["name" := JsString "ContractFunctionRevertedError"]>
             (<["data" := match known_error r with
                          | Some name =>
                              JsObject {[ "errorName" := JsString name ]}
                          | None => JsUndefined
                          end]>
             {[ "raw" := payload ]})
         end ]})).

(** An error without a revert payload: the request did not reach the
    contract. *)
Definition unreachable : JsVal := new_Error "HTTP request failed.".

Definition malformed : JsVal := new_Error "Data size too small.".

(** A call of [submitBalance] on the deployment above, at height 100. *)
Definition call_submitBalance (shape : ErrorShape) (arguments : list Hex)
  : Completion unit :=
  match arguments with
  | [j; s] =>
      match of_hex j, of_hex s with
      | Some jd, Some sl =>
          match (@transact evm verifier imm 100 jd sl genesis).1 with
          | Success => Normal tt
          | Failure r => Throw (reverted shape r)
          end
      | _, _ => Throw (new_Error "Invalid hex value.")
      end
  | _ => Throw (new_Error "Wrong number of arguments.")
  end.

(** The signature of an ABI item, as it is hashed for the selector. *)
Definition abi_signature (item : AbiItem) : string :=
  abi_name item +:+ "("
    +:+ String.concat "," (param_type <$> abi_inputs item) +:+ ")".

(** Decoding of a revert payload against an ABI: the error item whose
    selector heads the payload; arguments are left undecoded. *)
Definition sample_decodeErrorResult (abi : list AbiItem) (data : string)
  : Completion DecodedError :=
  match of_hex data with
  | None => Throw (new_Error "Invalid hex value.")
  | Some bs =>
      match List.find (fun item =>
              bool_decide (abi_type item = "error"
                           /\ ABI.selector (abi_signature item) = take 4 bs))
              abi with
      | Some item =>
          Normal (mkDecodedError (abi_name item)
                    (match abi_inputs item with
                     | [] => None
                     | _ => Some [JsString (to_hex (drop 4 bs))]
                     end))
      | None => Throw (new_Error "Encoded error signature not found on ABI.")
      end
  end.

Definition sample_decodeAbiParameters (data : Hex) : Completion DecodedJournal :=
  match of_hex data ≫= ABI.decode with
  | Some j =>
      Normal (mkDecoded
                (to_hex (ABI.word (notaryKeyFingerprint j)))
                (String.string_of_list_byte (method j))
                (String.string_of_list_byte (url j))
                (timestamp j)
                (to_hex (ABI.word (queriesHash j)))
                (String.string_of_list_byte (_balance j)))
  | None => Throw malformed
  end.

(** The node client; [online] tells whether requests get through. *)
Definition viem (shape : ErrorShape) (online : bool) : Viem := {|
  privateKeyToAccount := fun _ => Normal (mkAccount "0xA11CE");
  decodeAbiParameters := sample_decodeAbiParameters;
  decodeErrorResult := sample_decodeErrorResult;
  simulateContract := fun _ _ _ arguments _ =>
    if online then call_submitBalance shape arguments
    else Throw unreachable;
  writeContract := fun _ _ _ arguments =>
    match call_submitBalance shape arguments with
    | Normal _ => Normal "0x7a"
    | Throw e => Throw e
    end;
  waitForTransactionReceipt := fun _ _ => Normal (mkReceipt 100 21000 "success");
  readContract := fun _ _ _ =>
    Normal (String.string_of_list_byte
              (EtherscanVerifier.balance (chain_storage (committed genesis journal 100))));
|}.

(** The machine the script runs on, with a given proof file. *)
Definition node (file : ProofData) : Node := {|
  env_SEPOLIA_RPC_URL := None;
  env_PRIVATE_KEY := Some "0x01";
  __dirname := "/app/scripts";
  path_join := String.concat "/";
  path_resolve := fun p => "/app/" +:+ p;
  fs_existsSync := fun p => bool_decide (p = "/app/proof.json");
  read_DeploymentInfo := fun _ => Throw (new_Error "ENOENT");
  read_ProofData := fun _ => Normal file;
  toISOString := fun _ => Normal "2023-11-14T22:13:20.000Z";
|}.

Definition options : SubmitProofOptions :=
  mkOptions "sepolia" "proof.json" (Some "0xC0FFEE").

(** The bundle of the client scenario, nested under [data]. *)
Definition bundle (journalDataAbi : Hex) : ProofData :=
  mkProofData true (Some (mkProofFields (Some "0xaa") (Some journalDataAbi)))
    None None.

(** A node client whose submissions end as [submission] says, whatever the
    simulation said, and whose receipts carry the status [status]. *)
Definition viem_submitting (submission : Completion Hex) (status : string)
  : Viem := {|
  privateKeyToAccount := @privateKeyToAccount (viem PayloadInCauseData true);
  decodeAbiParameters := sample_decodeAbiParameters;
  decodeErrorResult := sample_decodeErrorResult;
  simulateContract := @simulateContract (viem PayloadInCauseData true);
  writeContract := fun _ _ _ _ => submission;
  waitForTransactionReceipt := fun _ _ => Normal (mkReceipt 100 21000 status);
  readContract := @readContract (viem PayloadInCauseData true);
|}.

(** The machine with [SEPOLIA_RPC_URL] set. *)
Definition node_with_rpc (file : ProofData) (rpc : string) : Node := {|
  env_SEPOLIA_RPC_URL := Some rpc;
  env_PRIVATE_KEY := Some "0x01";
  __dirname := "/app/scripts";
  path_join := String.concat "/";
  path_resolve := fun p => "/app/" +:+ p;
  fs_existsSync := fun p => bool_decide (p = "/app/proof.json");
  read_DeploymentInfo := fun _ => Throw (new_Error "ENOENT");
  read_ProofData := fun _ => Normal file;
  toISOString := fun _ => Normal "2023-11-14T22:13:20.000Z";
|}.

End Sample.
(** ** The deployment scripts on the sample *)

Module ScriptSample.
Import SubmitProof Scripts.

(** What forge throws when it fails: the error of [exec], with the two
    streams of the command. *)
Definition forge_failure : JsVal :=
  JsObject
    (<["message" := JsString "Command failed: forge verify-contract"]>
    (<["stdout" := JsString ""]>
    {[ "stderr" := JsString "Error: contract does not exist" ]})).

(** A shell on which forge verifies the contract at [0xC0FFEE], and fails
    on any other command. *)
Definition forge : Shell := {|
  execAsync := fun command =>
    if bool_decide
         (command = "forge verify-contract 0xC0FFEE src/EtherscanVerifier.sol:EtherscanVerifier --chain sepolia --watch")
    then Normal (mkExecOutput "Contract successfully verified" "")
    else Throw forge_failure;
|}.

(** The machine of the deployment: the contracts are built, and there is
    no [deployments] directory yet. *)
Definition build_machine : Node := {|
  env_SEPOLIA_RPC_URL := None;
  env_PRIVATE_KEY := Some "0x01";
  __dirname := "/app/scripts";
  path_join := String.concat "/";
  path_resolve := fun p => "/app/" +:+ p;
  fs_existsSync := fun p =>
    bool_decide
      (p = "/app/scripts/../out/EtherscanVerifier.sol/EtherscanVerifier.json"
       \/ p = "/app/scripts/../out/RiscZeroMockVerifier.sol/RiscZeroMockVerifier.json");
  read_DeploymentInfo := fun _ => Throw (new_Error "ENOENT");
  read_ProofData := fun _ => Throw (new_Error "ENOENT");
  toISOString := fun _ => Normal "2023-11-14T22:13:20.000Z";
|}.

Definition contract_artifact : ContractArtifact :=
  mkArtifact (JsArray []) "0x6080604052".
Definition mock_artifact : ContractArtifact :=
  mkArtifact (JsArray []) "0x60a06040".

(** The environment of the deployment, with the three parameters of the
    contract set to [parameter] (or unset): every deployment is mined, the
    mock verifier at [0x4d0c] and anything else at [0xC0FFEE]. *)
Definition tools (parameter : option string) : Tools := {|
  env_ZK_PROVER_GUEST_ID := parameter;
  env_NOTARY_KEY_FINGERPRINT := parameter;
  env_QUERIES_HASH := parameter;
  env_EXPECTED_URL := None;
  read_artifact := fun p =>
    Normal
      (if bool_decide
            (p = "/app/scripts/../out/EtherscanVerifier.sol/EtherscanVerifier.json")
       then contract_artifact else mock_artifact);
  Date_now := 1700000000000;
  ether := fun _ => "1";
  Number_of_bigint := fun n => n;
  mkdirSync := fun _ => Normal tt;
  writeFileSync := fun _ _ => Normal tt;
  getBalance := fun _ _ => Normal (10 ^ 18);
  deployContract := fun _ artifact _ _ _ =>
    Normal (if bool_decide (bytecode artifact = bytecode mock_artifact)
            then "0xaa" else "0xbb");
  waitForTransactionReceipt := fun _ hash =>
    Normal (mkDeployReceipt
              (Some (if bool_decide (hash = "0xaa") then "0x4d0c"
                     else "0xC0FFEE"))
              100 21000);
|}.

(** The deployment file the sample deployment writes. *)
Definition sample_deploymentInfo : JsVal :=
  JsObject
    (<["network" := JsString "sepolia"]>
    (<["chainId" := JsNumber 11155111]>
    (<["contractAddress" := JsString "0xC0FFEE"]>
    (<["deployer" := JsString "0xA11CE"]>
    (<["transactionHash" := JsString "0xbb"]>
    (<["blockNumber" := JsNumber 100]>
    (<["gasUsed" := JsString "21000"]>
    (<["timestamp" := JsNumber 1700000000000]>
    {[ "parameters" := JsObject
         (<["verifierAddress" := JsString "0x4d0c"]>
         (<["imageId" := JsString "0x11"]>
         (<["notaryKeyFingerprint" := JsString "0x11"]>
         (<["queriesHash" := JsString "0x11"]>
         {[ "expectedUrl" := JsString
              "https://data-api.binance.vision/api/v3/exchangeInfo?symbol=ETHUSDC" ]})))) ]})))))))).

End ScriptSample.

(** * Properties of the validator *)

Import EtherscanVerifier.

Section ValidatorProperties.

Context `{!Builtins} `{!IRiscZeroVerifier}.
Variable imm : Immutables.

(** ** The prefix loop *)

Lemma index_of_nat (a : bytes) (k : nat) : index a (Z.of_nat k) = a !! k.
Proof.
  unfold index. rewrite decide_True by lia. by rewrite Nat2Z.id.
Qed.

(** From index [k] on, with [n] bytes of the pattern left, the loop compares
    the rest of the pattern with the url: it falls through when they agree
    and reverts with [InvalidUrl] at the first difference. It neither
    panics nor touches the state. *)
Lemma url_prefix_loop_spec (u p : bytes) (n : nat) :
  forall (k : nat) (x : Exec),
  (k + n)%nat = length p ->
  (length p <= length u)%nat ->
  len p <= uint256_max ->
  url_prefix_loop u p (Z.of_nat k) x =
    if decide (drop k (take (length p) u) = drop k p) then Continue tt x
    else Reverted (CustomError InvalidUrl) x.
Proof.
  induction n as [|n IH]; intros k x Hk Hlen Hmax;
    rewrite url_prefix_loop_equation_1; unfold len in *.
  - destruct (decide (Z.of_nat k < _)) as [?|?]; [lia|]. cbn.
    rewrite !drop_ge; [by rewrite decide_True| lia |rewrite length_take; lia].
  - destruct (decide (Z.of_nat k < _)) as [?|?]; [|lia].
    unfold url_prefix_loop_unfold_clause_1. rewrite !index_of_nat.
    destruct (lookup_lt_is_Some_2 p k) as [b Hb]; [lia|].
    destruct (lookup_lt_is_Some_2 u k) as [a Ha]; [lia|].
    assert (Ha' : take (length p) u !! k = Some a)
      by (rewrite lookup_take_lt by lia; done).
    rewrite Ha, Hb.
    rewrite (drop_S _ _ _ Ha'), (drop_S _ _ _ Hb).
    destruct (decide (a <> b)) as [Hab|Hab].
    + rewrite decide_False; [done|]. intros [= ? _]. done.
    + apply dec_stable in Hab. subst b.
      destruct (decide (Z.of_nat k = _)) as [?|?]; [lia|].
      replace (Z.of_nat k + 1) with (Z.of_nat (S k)) by lia.
      rewrite IH by lia.
      destruct (decide (drop (S k) (take (length p) u) = drop (S k) p)) as [E|E].
      * rewrite decide_True; [done|by rewrite E].
      * rewrite decide_False; [done|]. intros [= ?]. done.
Qed.

(** Whatever the arguments, the loop leaves the state as it found it. *)
Lemma url_prefix_loop_pure u p i :
  forall x, url_prefix_loop u p i x = Continue tt x
            \/ exists r, url_prefix_loop u p i x = Reverted r x.
Proof.
  funelim (url_prefix_loop u p i); intros x; [|by left].
  destruct (index urlBytes i) as [a|]; [|right; by eexists].
  destruct (index patternBytes i) as [b|]; [|right; by eexists].
  destruct (decide (a <> b)); [right; by eexists|].
  destruct (decide (i = uint256_max)); [right; by eexists|].
  eauto.
Qed.

(** ** The function, case by case *)

(** Splits on a test of the function and rewrites its boolean. *)
Ltac check P :=
  let H := fresh "Hc" in
  destruct (decide P) as [H|H];
  [ rewrite (bool_decide_eq_true_2 P H) | rewrite (bool_decide_eq_false_2 P H) ];
  cbn [mret M_ret revert].

Lemma prefix_take_iff (p u : bytes) :
  p `prefix_of` u <-> (length p <= length u)%nat /\ take (length p) u = p.
Proof.
  split.
  - intros [k ->]. rewrite length_app. split; [lia|].
    by rewrite take_app_length.
  - intros [_ E]. rewrite <- E. apply prefix_take.
Qed.

(** A call either runs to its end, with both effects, or reverts with the
    storage and the events as they were. *)
Lemma submitBalance_outcome bn jd seal x :
  (exists j,
     abi_decode jd = Some j /\
     submitBalance imm bn jd seal x =
       Continue tt
         (mkExec (mkStorage (expectedUrlPattern (storage x)) (_balance j))
            (logs x ++ [BalanceVerified (_balance j) (url j) (timestamp j) bn])
            (calls x ++ [mkVerifyCall seal (IMAGE_ID imm) (sha256 jd)]))) \/
  (exists r x',
     submitBalance imm bn jd seal x = Reverted r x' /\
     storage x' = storage x /\ logs x' = logs x).
Proof.
  unfold submitBalance, decode_journal, mbind, M_bind.
  destruct (abi_decode jd) as [j|]; [|right; by eexists _, _].
  cbn [mret M_ret]. unfold revert_if, sload_expectedUrlPattern.
  repeat (case_bool_decide; cbn [mret M_ret revert];
          [right; by eexists _, _|]).
  destruct (url_prefix_loop_pure (url j) (expectedUrlPattern (storage x)) 0 x)
    as [-> | [r ->]]; [|right; by eexists _, _].
  case_bool_decide; cbn [mret M_ret revert]; [right; by eexists _, _|].
  unfold try_verify.
  destruct (verify seal (IMAGE_ID imm) (sha256 jd));
    [left; by exists j | right; by eexists _, _].
Qed.

(** What a call does, from any state: the checks in their order, then the
    verifier, then the two effects. *)
Lemma submitBalance_eq bn jd seal x :
  len (expectedUrlPattern (storage x)) <= uint256_max ->
  submitBalance imm bn jd seal x =
  match abi_decode jd with
  | None => Reverted (decode_failure jd) x
  | Some j =>
    if decide (notaryKeyFingerprint j <> EXPECTED_NOTARY_KEY_FINGERPRINT imm)
    then Reverted (CustomError InvalidNotaryKeyFingerprint) x
    else if decide (keccak256 (method j) <> keccak256 (lit "GET"))
    then Reverted (CustomError InvalidUrl) x
    else if decide (queriesHash j <> EXPECTED_QUERIES_HASH imm)
    then Reverted (CustomError InvalidQueriesHash) x
    else if decide (expectedUrlPattern (storage x) `prefix_of` url j)
    then
      if decide (_balance j = [])
      then Reverted (CustomError InvalidBalance) x
      else
        let x' := mkExec (storage x) (logs x)
          (calls x ++ [mkVerifyCall seal (IMAGE_ID imm) (sha256 jd)]) in
        match verify seal (IMAGE_ID imm) (sha256 jd) with
        | Returned =>
            Continue tt
              (mkExec (mkStorage (expectedUrlPattern (storage x)) (_balance j))
                 (logs x ++ [BalanceVerified (_balance j) (url j)
                                             (timestamp j) bn])
                 (calls x'))
        | CallReverted _ =>
            Reverted (CustomError ZKProofVerificationFailed) x'
        end
    else Reverted (CustomError InvalidUrl) x
  end.
Proof.
  intros Hmax. unfold submitBalance, decode_journal.
  unfold mbind, M_bind.
  destruct (abi_decode jd) as [j|]; [|done]. cbn [mret M_ret].
  unfold revert_if, sload_expectedUrlPattern.
  destruct x as [[pat bal] lg cl];
    cbn [storage expectedUrlPattern balance logs calls] in *.
  check (notaryKeyFingerprint j <> EXPECTED_NOTARY_KEY_FINGERPRINT imm);
    [done|].
  check (keccak256 (method j) <> keccak256 (lit "GET")); [done|].
  check (queriesHash j <> EXPECTED_QUERIES_HASH imm); [done|].
  check (len (url j) < len pat).
  { rewrite decide_False; [done|].
    intros Hp%prefix_length. unfold len in *. lia. }
  change 0 with (Z.of_nat 0).
  rewrite (url_prefix_loop_spec (url j) pat (length pat) 0);
    [|lia|unfold len in *; lia|done].
  rewrite !drop_0.
  destruct (decide (take (length pat) (url j) = pat)) as [Htake|Htake].
  2:{ rewrite decide_False; [done|]. by intros [_ ?]%prefix_take_iff. }
  rewrite decide_True
    by (apply prefix_take_iff; split; [unfold len in *; lia|done]).
  check (len (_balance j) = Z.of_nat 0).
  { rewrite decide_True; [done|]. destruct (_balance j); [done|].
    unfold len in *. simpl in *. lia. }
  rewrite decide_False by (intros E; rewrite E in *; done).
  unfold try_verify. cbn.
  destruct (verify seal (IMAGE_ID imm) (sha256 jd)); done.
Qed.

(** The same for a transaction, and for the calls it makes. *)
Lemma transact_eq bn jd seal c :
  len (expectedUrlPattern (chain_storage c)) <= uint256_max ->
  transact imm bn jd seal c =
  match abi_decode jd with
  | None => (Failure (decode_failure jd), c)
  | Some j =>
    if decide (notaryKeyFingerprint j <> EXPECTED_NOTARY_KEY_FINGERPRINT imm)
    then (Failure (CustomError InvalidNotaryKeyFingerprint), c)
    else if decide (keccak256 (method j) <> keccak256 (lit "GET"))
    then (Failure (CustomError InvalidUrl), c)
    else if decide (queriesHash j <> EXPECTED_QUERIES_HASH imm)
    then (Failure (CustomError InvalidQueriesHash), c)
    else if decide (expectedUrlPattern (chain_storage c) `prefix_of` url j)
    then
      if decide (_balance j = [])
      then (Failure (CustomError InvalidBalance), c)
      else
        match verify seal (IMAGE_ID imm) (sha256 jd) with
        | Returned =>
            (Success,
             mkChain
               (mkStorage (expectedUrlPattern (chain_storage c)) (_balance j))
               (chain_events c ++ [BalanceVerified (_balance j) (url j)
                                                   (timestamp j) bn]))
        | CallReverted _ => (Failure (CustomError ZKProofVerificationFailed), c)
        end
    else (Failure (CustomError InvalidUrl), c)
  end.
Proof.
  intros Hfit. unfold transact. rewrite submitBalance_eq by done.
  destruct (abi_decode jd) as [j|]; [|done].
  repeat case_decide; try done.
  cbn. destruct (verify seal (IMAGE_ID imm) (sha256 jd)); done.
Qed.

Lemma verifier_calls_eq bn jd seal c :
  len (expectedUrlPattern (chain_storage c)) <= uint256_max ->
  verifier_calls imm bn jd seal c =
  match abi_decode jd with
  | None => []
  | Some j =>
    if decide (notaryKeyFingerprint j = EXPECTED_NOTARY_KEY_FINGERPRINT imm
               /\ keccak256 (method j) = keccak256 (lit "GET")
               /\ queriesHash j = EXPECTED_QUERIES_HASH imm
               /\ expectedUrlPattern (chain_storage c) `prefix_of` url j
               /\ _balance j <> [])
    then [mkVerifyCall seal (IMAGE_ID imm) (sha256 jd)]
    else []
  end.
Proof.
  intros Hfit. unfold verifier_calls. rewrite submitBalance_eq by done.
  destruct (abi_decode jd) as [j|]; [|done].
  repeat case_decide; try done; try tauto.
  all: cbn; destruct (verify seal (IMAGE_ID imm) (sha256 jd)); try done; tauto.
Qed.

(** ** The properties *)

(** C1. A journal that decodes, passes the five local checks and whose
    proof the verifier accepts is committed: the transaction succeeds,
    [balance()] then returns the extracted value, and the event log grows by
    exactly one [BalanceVerified] carrying the extracted value, the url, the
    timestamp and the current block height. *)
Theorem submitBalance_success_commits bn jd seal j c :
  len (expectedUrlPattern (chain_storage c)) <= uint256_max ->
  abi_decode jd = Some j ->
  notaryKeyFingerprint j = EXPECTED_NOTARY_KEY_FINGERPRINT imm ->
  method j = lit "GET" ->
  queriesHash j = EXPECTED_QUERIES_HASH imm ->
  expectedUrlPattern (chain_storage c) `prefix_of` url j ->
  _balance j <> [] ->
  verify seal (IMAGE_ID imm) (sha256 jd) = Returned ->
  exists c',
    transact imm bn jd seal c = (Success, c') /\
    balance (chain_storage c') = _balance j /\
    chain_events c' =
      chain_events c ++ [BalanceVerified (_balance j) (url j) (timestamp j) bn].
Proof.
  intros Hfit Hdec Hfp Hm Hqh Hurl Hbal Hv.
  exists (committed c j bn). split; [|done].
  rewrite transact_eq, Hdec, Hv by done.
  rewrite Hm. by repeat case_decide.
Qed.

(** C2. A submission either commits both effects (the storage write and
    the event) or none. Whenever it fails, on the decoding or on any check
    or on the proof, the call has written nothing and emitted nothing by
    the time it reverts, and the ledger is as before: the stored balance is
    the one from before the call and no event is added. *)
Theorem submitBalance_all_or_nothing bn jd seal c :
  (exists j, abi_decode jd = Some j /\
     transact imm bn jd seal c = (Success, committed c j bn)) \/
  (exists r x,
     submitBalance imm bn jd seal (enter c) = Reverted r x /\
     storage x = chain_storage c /\ logs x = [] /\
     transact imm bn jd seal c = (Failure r, c)).
Proof.
  unfold transact.
  destruct (submitBalance_outcome bn jd seal (enter c))
    as [(j & Hdec & Hrun) | (r & x & Hrun & Hst & Hlog)].
  - left. exists j. by rewrite Hrun.
  - right. exists r, x. by rewrite Hrun.
Qed.

(** C3. Once the five local checks have passed, the verifier is called,
    once, with the seal, [IMAGE_ID] and the SHA-256 digest of the journal
    bytes as they were submitted; and whatever the verifier reverts with,
    the submission fails with [ZKProofVerificationFailed]. *)
Theorem verifier_called_on_raw_journal_digest bn jd seal j c :
  len (expectedUrlPattern (chain_storage c)) <= uint256_max ->
  abi_decode jd = Some j ->
  notaryKeyFingerprint j = EXPECTED_NOTARY_KEY_FINGERPRINT imm ->
  method j = lit "GET" ->
  queriesHash j = EXPECTED_QUERIES_HASH imm ->
  expectedUrlPattern (chain_storage c) `prefix_of` url j ->
  _balance j <> [] ->
  verifier_calls imm bn jd seal c
    = [mkVerifyCall seal (IMAGE_ID imm) (sha256 jd)] /\
  forall returndata,
    verify seal (IMAGE_ID imm) (sha256 jd) = CallReverted returndata ->
    transact imm bn jd seal c
      = (Failure (CustomError ZKProofVerificationFailed), c).
Proof.
  intros Hfit Hdec Hfp Hm Hqh Hurl Hbal. split.
  - rewrite verifier_calls_eq, Hdec by done.
    rewrite decide_True; [done|]. by rewrite Hm.
  - intros rd Hv. rewrite transact_eq, Hdec, Hv by done.
    rewrite Hm. by repeat case_decide.
Qed.

(** C4. A journal whose notary fingerprint is not the expected one is
    rejected with [InvalidNotaryKeyFingerprint], whatever its other fields
    are. *)
Theorem notary_mismatch_aborts bn jd seal j c :
  abi_decode jd = Some j ->
  notaryKeyFingerprint j <> EXPECTED_NOTARY_KEY_FINGERPRINT imm ->
  transact imm bn jd seal c
    = (Failure (CustomError InvalidNotaryKeyFingerprint), c).
Proof.
  intros Hdec Hfp. unfold transact, submitBalance, decode_journal.
  unfold mbind, M_bind. rewrite Hdec. cbn [mret M_ret].
  by rewrite (bool_decide_eq_true_2 _ Hfp).
Qed.

(** The method check as the code performs it: on the digests. *)
Lemma method_digest_mismatch_aborts bn jd seal j c :
  abi_decode jd = Some j ->
  notaryKeyFingerprint j = EXPECTED_NOTARY_KEY_FINGERPRINT imm ->
  keccak256 (method j) <> keccak256 (lit "GET") ->
  transact imm bn jd seal c = (Failure (CustomError InvalidUrl), c).
Proof.
  intros Hdec Hfp Hm. unfold transact, submitBalance, decode_journal.
  unfold mbind, M_bind. rewrite Hdec. cbn [mret M_ret].
  rewrite bool_decide_eq_false_2 by (intros ?; done). cbn [revert_if mret M_ret].
  by rewrite bool_decide_eq_true_2.
Qed.

(** C5. A journal with the expected fingerprint whose method is not the
    string "GET" is rejected with [InvalidUrl]. The code compares Keccak-256
    digests; the statement is under the assumption that no other byte string
    has the digest of "GET". *)
Theorem method_mismatch_aborts_InvalidUrl bn jd seal j c :
  (forall m, keccak256 m = keccak256 (lit "GET") -> m = lit "GET") ->
  abi_decode jd = Some j ->
  notaryKeyFingerprint j = EXPECTED_NOTARY_KEY_FINGERPRINT imm ->
  method j <> lit "GET" ->
  transact imm bn jd seal c = (Failure (CustomError InvalidUrl), c).
Proof.
  intros Hk Hdec Hfp Hm. apply (method_digest_mismatch_aborts _ _ _ j); [done..|].
  intros E. by apply Hm, Hk.
Qed.

(** C6. For a journal that passed the notary, method and queries-hash
    checks: if the url is at least as long as the expected prefix and
    starts with it, the url check passes and the outcome is decided by the
    remaining steps (never [InvalidUrl]); if the url is shorter than the
    prefix or differs from it at a position within the prefix, the
    submission is rejected with [InvalidUrl]. *)
Theorem url_prefix_check bn jd seal j c :
  let pat := expectedUrlPattern (chain_storage c) in
  len pat <= uint256_max ->
  abi_decode jd = Some j ->
  notaryKeyFingerprint j = EXPECTED_NOTARY_KEY_FINGERPRINT imm ->
  keccak256 (method j) = keccak256 (lit "GET") ->
  queriesHash j = EXPECTED_QUERIES_HASH imm ->
  ((length pat <= length (url j))%nat /\ take (length pat) (url j) = pat ->
     transact imm bn jd seal c =
       (if decide (_balance j = [])
        then (Failure (CustomError InvalidBalance), c)
        else match verify seal (IMAGE_ID imm) (sha256 jd) with
             | Returned => (Success, committed c j bn)
             | CallReverted _ =>
                 (Failure (CustomError ZKProofVerificationFailed), c)
             end) /\
     (transact imm bn jd seal c).1 <> Failure (CustomError InvalidUrl)) /\
  ((length (url j) < length pat)%nat \/
   (exists i, (i < length pat)%nat /\ url j !! i <> pat !! i) ->
     transact imm bn jd seal c = (Failure (CustomError InvalidUrl), c)).
Proof.
  intros pat Hfit Hdec Hfp Hm Hqh. rewrite transact_eq, Hdec by done.
  fold pat. split.
  - intros Hp%prefix_take_iff.
    repeat case_decide; try done.
    destruct (verify seal (IMAGE_ID imm) (sha256 jd)); done.
  - intros Hbad.
    assert (Hnp : ~ pat `prefix_of` url j).
    { intros Hp. destruct Hbad as [Hs|(i & Hi & Hne)].
      - apply prefix_length in Hp. lia.
      - destruct (lookup_lt_is_Some_2 pat i Hi) as [b Hb].
        by rewrite (prefix_lookup_Some _ _ _ _ Hb Hp), Hb in Hne. }
    by repeat case_decide.
Qed.

(** C7. A journal that passed the first four local checks but whose
    extracted value is empty is rejected with [InvalidBalance] without the
    verifier being called; and whenever the verifier is called, the journal
    decoded and all five local checks had passed. *)
Theorem empty_balance_aborts_before_verification bn jd seal c :
  len (expectedUrlPattern (chain_storage c)) <= uint256_max ->
  (forall j,
     abi_decode jd = Some j ->
     notaryKeyFingerprint j = EXPECTED_NOTARY_KEY_FINGERPRINT imm ->
     keccak256 (method j) = keccak256 (lit "GET") ->
     queriesHash j = EXPECTED_QUERIES_HASH imm ->
     expectedUrlPattern (chain_storage c) `prefix_of` url j ->
     _balance j = [] ->
     transact imm bn jd seal c = (Failure (CustomError InvalidBalance), c) /\
     verifier_calls imm bn jd seal c = []) /\
  (verifier_calls imm bn jd seal c <> [] ->
   exists j,
     abi_decode jd = Some j /\
     notaryKeyFingerprint j = EXPECTED_NOTARY_KEY_FINGERPRINT imm /\
     keccak256 (method j) = keccak256 (lit "GET") /\
     queriesHash j = EXPECTED_QUERIES_HASH imm /\
     expectedUrlPattern (chain_storage c) `prefix_of` url j /\
     _balance j <> []).
Proof.
  intros Hfit. rewrite transact_eq, verifier_calls_eq by done. split.
  - intros j -> Hfp Hm Hqh Hurl Hbal. split.
    + by repeat case_decide.
    + rewrite decide_False; [done|]. tauto.
  - destruct (abi_decode jd) as [j|]; [|done].
    case_decide; [eauto|done].
Qed.

(** A journal that passed the notary and method checks but carries another
    queries hash is rejected with [InvalidQueriesHash]. *)
Lemma queries_hash_mismatch_aborts bn jd seal j c :
  abi_decode jd = Some j ->
  notaryKeyFingerprint j = EXPECTED_NOTARY_KEY_FINGERPRINT imm ->
  keccak256 (method j) = keccak256 (lit "GET") ->
  queriesHash j <> EXPECTED_QUERIES_HASH imm ->
  transact imm bn jd seal c = (Failure (CustomError InvalidQueriesHash), c).
Proof.
  intros Hdec Hfp Hm Hqh. unfold transact, submitBalance, decode_journal.
  unfold mbind, M_bind. rewrite Hdec. cbn [mret M_ret].
  rewrite bool_decide_eq_false_2 by (intros ?; done). cbn [revert_if mret M_ret].
  rewrite bool_decide_eq_false_2 by (intros ?; done). cbn [revert_if mret M_ret].
  by rewrite bool_decide_eq_true_2.
Qed.

(** The url pattern is written by the constructor only. *)
Lemma transact_expectedUrlPattern bn jd seal c :
  len (expectedUrlPattern (chain_storage c)) <= uint256_max ->
  expectedUrlPattern (chain_storage (transact imm bn jd seal c).2)
    = expectedUrlPattern (chain_storage c).
Proof.
  intros Hfit. rewrite transact_eq by done.
  destruct (abi_decode jd) as [j|]; [|done].
  repeat case_decide; try done.
  destruct (verify seal (IMAGE_ID imm) (sha256 jd)); done.
Qed.

Lemma run_txs_expectedUrlPattern txs c :
  len (expectedUrlPattern (chain_storage c)) <= uint256_max ->
  expectedUrlPattern (chain_storage (run_txs imm txs c))
    = expectedUrlPattern (chain_storage c).
Proof.
  revert c. induction txs as [|t txs IH]; intros c Hfit; [done|].
  change (run_txs imm (t :: txs) c) with
    (run_txs imm txs
       (transact imm (tx_block t) (tx_journalData t) (tx_seal t) c).2).
  rewrite IH; by rewrite transact_expectedUrlPattern.
Qed.

(** Override: a second accepted submission replaces the stored value, and
    nothing of the first one is left in the storage. *)
Lemma second_submission_overwrites bn1 jd1 seal1 bn2 jd2 seal2 c c1 c2 :
  len (expectedUrlPattern (chain_storage c)) <= uint256_max ->
  transact imm bn1 jd1 seal1 c = (Success, c1) ->
  transact imm bn2 jd2 seal2 c1 = (Success, c2) ->
  exists j1 j2,
    abi_decode jd1 = Some j1 /\ abi_decode jd2 = Some j2 /\
    chain_storage c2
      = mkStorage (expectedUrlPattern (chain_storage c)) (_balance j2) /\
    chain_events c2
      = chain_events c
          ++ [BalanceVerified (_balance j1) (url j1) (timestamp j1) bn1;
              BalanceVerified (_balance j2) (url j2) (timestamp j2) bn2].
Proof.
  intros Hfit H1 H2.
  assert (Hacc : forall bn jd seal c c',
    len (expectedUrlPattern (chain_storage c)) <= uint256_max ->
    transact imm bn jd seal c = (Success, c') ->
    exists j, abi_decode jd = Some j /\ c' = committed c j bn).
  { clear. intros bn jd seal c c' Hfit Htx. rewrite transact_eq in Htx by done.
    destruct (abi_decode jd) as [j|]; [|done]. exists j. split; [done|].
    repeat case_decide; try done.
    destruct (verify seal (IMAGE_ID imm) (sha256 jd)); [|done].
    by injection Htx as <-. }
  destruct (Hacc _ _ _ _ _ Hfit H1) as (j1 & Hd1 & ->).
  destruct (Hacc bn2 jd2 seal2 (committed c j1 bn1) c2 Hfit H2)
    as (j2 & Hd2 & ->).
  exists j1, j2. split_and!; [done..|].
  cbn. by rewrite <- app_assoc.
Qed.

(** C10. Acceptance depends neither on the stored balance, nor on the
    block, nor on the journal's timestamp. A pair accepted once is accepted
    again after any sequence of transactions, at any height, and writes the
    same balance; it is accepted from any state with the same url pattern;
    and a journal that differs from an accepted one in its timestamp only
    is accepted as soon as the verifier accepts its proof, the timestamp
    being copied into the event. *)
Theorem no_replay_or_freshness_protection bn jd seal c c1 :
  len (expectedUrlPattern (chain_storage c)) <= uint256_max ->
  transact imm bn jd seal c = (Success, c1) ->
  exists j,
    abi_decode jd = Some j /\ c1 = committed c j bn /\
    (forall txs bn',
       transact imm bn' jd seal (run_txs imm txs c1)
         = (Success, committed (run_txs imm txs c1) j bn')) /\
    (forall c' bn',
       expectedUrlPattern (chain_storage c')
         = expectedUrlPattern (chain_storage c) ->
       transact imm bn' jd seal c' = (Success, committed c' j bn')) /\
    (forall jd' seal' t bn',
       abi_decode jd' =
         Some (mkJournal (notaryKeyFingerprint j) (method j) (url j) t
                         (queriesHash j) (_balance j)) ->
       verify seal' (IMAGE_ID imm) (sha256 jd') = Returned ->
       exists c2,
         transact imm bn' jd' seal' c = (Success, c2) /\
         balance (chain_storage c2) = _balance j /\
         chain_events c2 =
           chain_events c ++ [BalanceVerified (_balance j) (url j) t bn']).
Proof.
  intros Hfit Htx. rewrite transact_eq in Htx by done.
  destruct (abi_decode jd) as [j|] eqn:Hdec; [|done].
  repeat case_decide; try done.
  destruct (verify seal (IMAGE_ID imm) (sha256 jd)) eqn:Hv; [|done].
  injection Htx as <-. exists j.
  assert (Hany : forall c' bn',
    expectedUrlPattern (chain_storage c') = expectedUrlPattern (chain_storage c) ->
    transact imm bn' jd seal c' = (Success, committed c' j bn')).
  { intros c' bn' Hpat. rewrite transact_eq by (by rewrite Hpat).
    rewrite Hdec, Hv. unfold committed. rewrite Hpat.
    by repeat case_decide. }
  repeat split; [| done |].
  - intros txs bn'. apply Hany.
    by rewrite run_txs_expectedUrlPattern.
  - intros jd' seal' t bn' Hdec' Hv'.
    exists (committed c (mkJournal (notaryKeyFingerprint j) (method j) (url j)
                           t (queriesHash j) (_balance j)) bn').
    split; [|done]. rewrite transact_eq, Hdec', Hv' by done. cbn.
    by repeat case_decide.
Qed.

End ValidatorProperties.
(** * Further properties of the validator *)

Section ValidatorCoverage.

Context `{!Builtins} `{!IRiscZeroVerifier}.
Variable imm : Immutables.

(** ** What a receipt tells *)

(** A submission succeeds exactly when the journal decodes, the five local
    checks pass and the verifier accepts the proof. *)
Theorem submitBalance_succeeds_iff bn jd seal c :
  len (expectedUrlPattern (chain_storage c)) <= uint256_max ->
  (transact imm bn jd seal c).1 = Success <->
  exists j,
    abi_decode jd = Some j /\
    notaryKeyFingerprint j = EXPECTED_NOTARY_KEY_FINGERPRINT imm /\
    keccak256 (method j) = keccak256 (lit "GET") /\
    queriesHash j = EXPECTED_QUERIES_HASH imm /\
    expectedUrlPattern (chain_storage c) `prefix_of` url j /\
    _balance j <> [] /\
    verify seal (IMAGE_ID imm) (sha256 jd) = Returned.
Proof.
  intros Hfit. rewrite transact_eq by done. split.
  - destruct (abi_decode jd) as [j|]; [|done]. intros Hok. exists j.
    repeat case_decide; try done.
    destruct (verify seal (IMAGE_ID imm) (sha256 jd)); [|done].
    split_and!; try done; by apply dec_stable.
  - intros (j & -> & Hfp & Hm & Hqh & Hurl & Hbal & ->).
    by repeat case_decide.
Qed.


(** ** The state over a history *)

(** No transaction writes the url pattern, the events of a history are kept
    in order, and a transaction adds at most one. *)
Theorem history_is_append_only txs c :
  len (expectedUrlPattern (chain_storage c)) <= uint256_max ->
  expectedUrlPattern (chain_storage (run_txs imm txs c))
    = expectedUrlPattern (chain_storage c) /\
  chain_events c `prefix_of` chain_events (run_txs imm txs c) /\
  (length (chain_events (run_txs imm txs c))
     <= length (chain_events c) + length txs)%nat.
Proof.
  revert c. induction txs as [|t txs IH]; intros c Hfit.
  { cbn. split_and!; [done|done|lia]. }
  change (run_txs imm (t :: txs) c) with
    (run_txs imm txs
       (transact imm (tx_block t) (tx_journalData t) (tx_seal t) c).2).
  pose proof (transact_expectedUrlPattern imm
                (tx_block t) (tx_journalData t) (tx_seal t) c Hfit) as Hpat.
  assert (Hev : exists l,
    chain_events (transact imm (tx_block t) (tx_journalData t) (tx_seal t) c).2
      = chain_events c ++ l /\ (length l <= 1)%nat).
  { rewrite transact_eq by done.
    destruct (abi_decode (tx_journalData t)) as [j|];
      [|exists []; by rewrite app_nil_r; cbn; split; [|lia]].
    repeat case_decide;
      try (exists []; rewrite app_nil_r; cbn; split; [done|lia]).
    destruct (verify _ _ _);
      [eexists [_]; cbn; split; [done|lia]
      |exists []; rewrite app_nil_r; cbn; split; [done|lia]]. }
  destruct Hev as (l & Hl & Hlen).
  destruct (IH _ ltac:(by rewrite Hpat)) as (IH1 & IH2 & IH3).
  rewrite IH1, Hpat. split; [done|]. rewrite Hl in IH2, IH3. split.
  - etrans; [|exact IH2]. by apply prefix_app_r.
  - rewrite length_app in IH3. cbn [length]. lia.
Qed.

(** The stored balance is that of the last event: it is empty until a
    first submission is accepted, and never empty after. *)
Lemma transact_balance_is_last_verified bn jd seal c :
  len (expectedUrlPattern (chain_storage c)) <= uint256_max ->
  balance (chain_storage c)
    = from_option ev_balance [] (last (chain_events c)) ->
  Forall (fun e => ev_balance e <> []) (chain_events c) ->
  let c' := (transact imm bn jd seal c).2 in
  balance (chain_storage c')
    = from_option ev_balance [] (last (chain_events c')) /\
  Forall (fun e => ev_balance e <> []) (chain_events c').
Proof.
  intros Hfit Hbal Hne. rewrite transact_eq by done.
  destruct (abi_decode jd) as [j|]; [|done].
  repeat case_decide; try done.
  destruct (verify seal (IMAGE_ID imm) (sha256 jd)); [|done].
  cbn. rewrite last_snoc. split; [done|].
  apply Forall_app. split; [done|]. by apply Forall_singleton.
Qed.

End ValidatorCoverage.

Theorem balance_is_last_verified
    _verifier _imageId _fingerprint _queriesHash _pattern txs
    `{!Builtins} `{!IRiscZeroVerifier} :
  len _pattern <= uint256_max ->
  let d := constructor _verifier _imageId _fingerprint _queriesHash _pattern in
  let c := run_txs d.1 txs (mkChain d.2 []) in
  balance (chain_storage c)
    = from_option ev_balance [] (last (chain_events c)) /\
  Forall (fun e => ev_balance e <> []) (chain_events c) /\
  (balance (chain_storage c) = [] <-> chain_events c = []).
Proof.
  intros Hfit d c.
  assert (Hinv : forall txs c0,
    len (expectedUrlPattern (chain_storage c0)) <= uint256_max ->
    balance (chain_storage c0)
      = from_option ev_balance [] (last (chain_events c0)) ->
    Forall (fun e => ev_balance e <> []) (chain_events c0) ->
    balance (chain_storage (run_txs d.1 txs c0))
      = from_option ev_balance [] (last (chain_events (run_txs d.1 txs c0))) /\
    Forall (fun e => ev_balance e <> []) (chain_events (run_txs d.1 txs c0))).
  { clear. intros txs. induction txs as [|t txs IH]; intros c0 Hfit Hbal Hne;
      [done|].
    change (run_txs d.1 (t :: txs) c0) with
      (run_txs d.1 txs
         (transact d.1 (tx_block t) (tx_journalData t) (tx_seal t) c0).2).
    destruct (transact_balance_is_last_verified d.1
                (tx_block t) (tx_journalData t) (tx_seal t) c0 Hfit Hbal Hne)
      as [Hbal' Hne'].
    apply IH; [|done..]. by rewrite transact_expectedUrlPattern. }
  destruct (Hinv txs (mkChain d.2 [])) as [Hbal Hne]; [done..|].
  fold c in Hbal, Hne. split_and!; [done..|].
  rewrite Hbal. destruct (chain_events c) as [|e l] using rev_ind; [done|].
  rewrite last_snoc. cbn. apply Forall_app in Hne as [_ He%Forall_inv].
  split; [intros E; destruct (He E)|by intros [_ [=]]%app_eq_nil].
Qed.

(** The loop on its own reads the url beyond its end: on a url that is a
    proper prefix of the pattern it panics (array index out of bounds); the
    length test before the loop is what turns this into [InvalidUrl]. *)
Theorem url_prefix_loop_out_of_bounds (u p : bytes) (x : Exec) :
  len p <= uint256_max ->
  (length u < length p)%nat ->
  u `prefix_of` p ->
  url_prefix_loop u p 0 x = Reverted (Panic 0x32) x.
Proof.
  intros Hfit Hlen Hpre.
  assert (Hk : forall n k, (k + n)%nat = length u ->
    url_prefix_loop u p (Z.of_nat k) x = Reverted (Panic 0x32) x).
  { induction n as [|n IH]; intros k Hk;
      rewrite url_prefix_loop_equation_1; unfold len in *;
      (destruct (decide (Z.of_nat k < _)) as [?|?]; [|lia]);
      unfold url_prefix_loop_unfold_clause_1; rewrite !index_of_nat.
    - rewrite (lookup_ge_None_2 u k) by lia. done.
    - destruct (lookup_lt_is_Some_2 u k) as [a Ha]; [lia|].
      rewrite Ha, (prefix_lookup_Some _ _ _ _ Ha Hpre).
      rewrite decide_False by (intros ?; done).
      destruct (decide (Z.of_nat k = _)) as [?|?]; [lia|].
      replace (Z.of_nat k + 1) with (Z.of_nat (S k)) by lia.
      apply IH. lia. }
  apply (Hk (length u) 0%nat). lia.
Qed.


(** ** The theorems on the sample deployment *)

Section SampleDeployment.

Import Sample.

(** The two digests on the standard test vectors. *)
Lemma keccak256_vectors :
  Keccak.keccak256 []
    = 0xc5d2460186f7233c927e7db2dcc703c0e500b653ca82273b7bfad8045d85a470 /\
  Keccak.keccak256 (lit "abc")
    = 0x4e03657aea45a94fc7d47ba826c8d667c0d1e6e33a64a036ec44f58fa12d6c45.
Proof. split_and!; compute_done. Qed.

Lemma sha256_vectors :
  SHA256.sha256 []
    = 0xe3b0c44298fc1c149afbf4c8996fb92427ae41e4649b934ca495991b7852b855 /\
  SHA256.sha256 (lit "abc")
    = 0xba7816bf8f01cfea414140de5dae2223b00361a396177a9cb410ff61f20015ad /\
  SHA256.sha256 (replicate 200 Byte.x61)
    = 0xc2a908d98f5df987ade41b5fce213067efbcc21ef2240212a41e54b5e7c28ae5.
Proof. split_and!; compute_done. Qed.

(** Decoding undoes encoding on the sample journal. *)
Lemma decode_encode_journal : ABI.decode (ABI.encode journal) = Some journal.
Proof. compute_done. Qed.

Lemma ideal_hash_cons b bs :
  ideal_hash (b :: bs) = Z.of_N (Byte.to_N b) + 1 + 257 * ideal_hash bs.
Proof. reflexivity. Qed.

Lemma ideal_hash_nonneg bs : 0 <= ideal_hash bs.
Proof.
  induction bs as [|b bs IH]; [done|]. rewrite ideal_hash_cons.
  pose proof (N2Z.is_nonneg (Byte.to_N b)). lia.
Qed.

Lemma byte_to_N_inj a b : Byte.to_N a = Byte.to_N b -> a = b.
Proof.
  intros E. apply (inj Some).
  by rewrite <- (Byte.of_to_N a), <- (Byte.of_to_N b), E.
Qed.

(** The idealised hash has no collisions. *)
Lemma ideal_hash_inj a b : ideal_hash a = ideal_hash b -> a = b.
Proof.
  revert b. induction a as [|x a IH]; intros [|y b];
    rewrite ?ideal_hash_cons; intros E.
  - done.
  - pose proof (ideal_hash_nonneg b).
    pose proof (N2Z.is_nonneg (Byte.to_N y)). cbn in E. lia.
  - pose proof (ideal_hash_nonneg a).
    pose proof (N2Z.is_nonneg (Byte.to_N x)). cbn in E. lia.
  - pose proof (Byte.to_N_bounded x). pose proof (Byte.to_N_bounded y).
    pose proof (N2Z.is_nonneg (Byte.to_N x)).
    pose proof (N2Z.is_nonneg (Byte.to_N y)).
    assert (ideal_hash a = ideal_hash b /\ Byte.to_N x = Byte.to_N y)
      as [Ha Hxy] by lia.
    f_equal; [by apply byte_to_N_inj | by apply IH].
Qed.

Local Abbreviation transact_sample := (@transact evm verifier imm).
Local Abbreviation calls_sample := (@verifier_calls evm verifier imm).

Lemma submitBalance_success_commits_witness :
  exists c',
    transact_sample 100 journalData seal genesis = (Success, c') /\
    balance (chain_storage c') = lit "123.45" /\
    chain_events c' =
      [BalanceVerified (lit "123.45") (lit "https://api.example.com/v2?x=1")
                       1700000000 100].
Proof.
  apply (@submitBalance_success_commits evm verifier imm
           100 journalData seal journal genesis); compute_done.
Defined.

Lemma submitBalance_all_or_nothing_witness :
  exists x,
    @submitBalance evm verifier imm 100
      (ABI.encode journal_bad_queries_hash) seal (enter genesis)
      = Reverted (CustomError InvalidQueriesHash) x /\
    storage x = chain_storage genesis /\ logs x = [] /\
    transact_sample 100 (ABI.encode journal_bad_queries_hash) seal genesis
      = (Failure (CustomError InvalidQueriesHash), genesis).
Proof.
  destruct (@submitBalance_all_or_nothing evm verifier imm
              100 (ABI.encode journal_bad_queries_hash) seal genesis)
    as [(j & _ & Htx) | (r & x & Hrun & Hst & Hlog & Htx)].
  - exfalso. revert Htx. vm_compute. discriminate.
  - assert (Hr : r = CustomError InvalidQueriesHash).
    { revert Htx. vm_compute. intros [= <-]. reflexivity. }
    subst r. exists x. exact (conj Hrun (conj Hst (conj Hlog Htx))).
Defined.

(** Bytes that announce a string too long to allocate do not decode, and
    the decoder panics on them; the ledger is as before. *)
Lemma oversized_string_length_panics :
  ABI.decode journalData_oversized = None /\
  transact_sample 100 journalData_oversized seal genesis
    = (Failure (Panic 0x41), genesis) /\
  calls_sample 100 journalData_oversized seal genesis = [].
Proof. split_and!; compute_done. Qed.

(** Bytes that end before what they announce revert without data. *)
Lemma truncated_journal_reverts_without_data :
  transact_sample 100 (take 200 journalData) seal genesis
    = (Failure EmptyRevert, genesis) /\
  transact_sample 100 [] seal genesis = (Failure EmptyRevert, genesis).
Proof. split_and!; compute_done. Qed.

(** On the sample: a forged seal is rejected with
    [ZKProofVerificationFailed]; and the digest handed to the verifier is
    that of the bytes submitted: the journal followed by a stray byte
    decodes to the same tuple, and is verified under another digest. *)
Lemma verifier_called_on_raw_journal_digest_witness :
  calls_sample 100 journalData (lit "forged") genesis
    = [mkVerifyCall (lit "forged") (IMAGE_ID imm) (@sha256 evm journalData)] /\
  transact_sample 100 journalData (lit "forged") genesis
    = (Failure (CustomError ZKProofVerificationFailed), genesis) /\
  ABI.decode (journalData ++ [Byte.x00]) = ABI.decode journalData /\
  calls_sample 100 (journalData ++ [Byte.x00]) seal genesis
    = [mkVerifyCall seal (IMAGE_ID imm)
         (@sha256 evm (journalData ++ [Byte.x00]))] /\
  @sha256 evm (journalData ++ [Byte.x00]) <> @sha256 evm journalData.
Proof.
  destruct (@verifier_called_on_raw_journal_digest evm verifier imm
              100 journalData (lit "forged") journal genesis)
    as [Hcalls Hfail]; [compute_done..|].
  destruct (@verifier_called_on_raw_journal_digest evm verifier imm
              100 (journalData ++ [Byte.x00]) seal journal genesis)
    as [Hcalls' _]; [compute_done..|].
  split; [exact Hcalls|]. split.
  { apply (Hfail (ABI.selector "VerificationFailed()")). compute_done. }
  split; [compute_done|]. split; [exact Hcalls'|compute_done].
Defined.

Lemma notary_mismatch_aborts_witness :
  transact_sample 100 (ABI.encode journal_bad_notary) seal genesis
    = (Failure (CustomError InvalidNotaryKeyFingerprint), genesis).
Proof.
  apply (@notary_mismatch_aborts evm verifier imm 100
           (ABI.encode journal_bad_notary) seal journal_bad_notary
           genesis); compute_done.
Defined.

Lemma method_mismatch_aborts_InvalidUrl_witness :
  @transact ideal verifier imm 100 (ABI.encode journal_lowercase_get) seal
    genesis = (Failure (CustomError InvalidUrl), genesis) /\
  @transact ideal verifier imm 100 (ABI.encode journal_post) seal genesis
    = (Failure (CustomError InvalidUrl), genesis).
Proof.
  split.
  - apply (@method_mismatch_aborts_InvalidUrl ideal verifier imm 100
             (ABI.encode journal_lowercase_get) seal journal_lowercase_get
             genesis);
      [intros m; apply ideal_hash_inj | compute_done..].
  - apply (@method_mismatch_aborts_InvalidUrl ideal verifier imm 100
             (ABI.encode journal_post) seal journal_post genesis);
      [intros m; apply ideal_hash_inj | compute_done..].
Defined.

(** With Keccak-256 itself, the two variants of the method the
    specification names are rejected, without any assumption. *)
Lemma lowercase_get_and_POST_rejected :
  transact_sample 100 (ABI.encode journal_lowercase_get) seal genesis
    = (Failure (CustomError InvalidUrl), genesis) /\
  transact_sample 100 (ABI.encode journal_post) seal genesis
    = (Failure (CustomError InvalidUrl), genesis).
Proof.
  split.
  - apply (@method_digest_mismatch_aborts evm verifier imm 100
             (ABI.encode journal_lowercase_get) seal journal_lowercase_get
             genesis); compute_done.
  - apply (@method_digest_mismatch_aborts evm verifier imm 100
             (ABI.encode journal_post) seal journal_post genesis);
      compute_done.
Qed.

(** One bit of the queries hash flipped: [InvalidQueriesHash]. *)
Lemma flipped_queries_hash_rejected :
  transact_sample 100 (ABI.encode journal_bad_queries_hash) seal genesis
    = (Failure (CustomError InvalidQueriesHash), genesis).
Proof.
  apply (@queries_hash_mismatch_aborts evm verifier imm 100
           (ABI.encode journal_bad_queries_hash) seal journal_bad_queries_hash
           genesis); compute_done.
Defined.

Lemma url_prefix_check_witness :
  (transact_sample 100 journalData seal genesis).1 = Success /\
  transact_sample 100 (ABI.encode journal_other_host) seal genesis
    = (Failure (CustomError InvalidUrl), genesis) /\
  transact_sample 100 (ABI.encode journal_short_url) seal genesis
    = (Failure (CustomError InvalidUrl), genesis).
Proof.
  split; [|split].
  - destruct (@url_prefix_check evm verifier imm 100 journalData seal
                journal genesis) as [Hpass _]; [compute_done..|].
    destruct Hpass as [Heq _]; [compute_done|].
    rewrite Heq. compute_done.
  - destruct (@url_prefix_check evm verifier imm 100
                (ABI.encode journal_other_host) seal
                journal_other_host genesis) as [_ Hfail]; [compute_done..|].
    apply Hfail. right. exists 20%nat. compute_done.
  - destruct (@url_prefix_check evm verifier imm 100
                (ABI.encode journal_short_url) seal
                journal_short_url genesis) as [_ Hfail]; [compute_done..|].
    apply Hfail. left. compute_done.
Defined.

Lemma empty_balance_aborts_before_verification_witness :
  transact_sample 100 (ABI.encode journal_empty_balance) seal genesis
    = (Failure (CustomError InvalidBalance), genesis) /\
  calls_sample 100 (ABI.encode journal_empty_balance) seal genesis = [].
Proof.
  destruct (@empty_balance_aborts_before_verification evm verifier imm
              100 (ABI.encode journal_empty_balance) seal genesis)
    as [Hempty _]; [compute_done|].
  apply (Hempty journal_empty_balance); compute_done.
Defined.

Lemma no_replay_or_freshness_protection_witness :
  exists j,
    ABI.decode journalData = Some j /\
    (forall txs bn',
       transact_sample bn' journalData seal
         (@run_txs evm verifier imm txs (committed genesis journal 100))
       = (Success,
          committed (@run_txs evm verifier imm txs
                       (committed genesis journal 100)) j bn')) /\
    exists c2,
      transact_sample 200 (ABI.encode journal_older) seal genesis
        = (Success, c2) /\
      chain_events c2 =
        [BalanceVerified (lit "123.45") (lit "https://api.example.com/v2?x=1")
                         0 200].
Proof.
  destruct (@no_replay_or_freshness_protection evm verifier imm
              100 journalData seal genesis (committed genesis journal 100))
    as (j & Hdec & _ & Hreplay & _ & Hfresh); [compute_done..|].
  exists j. split; [exact Hdec|]. split; [exact Hreplay|].
  assert (Hj : j = journal) by (apply (inj Some); rewrite <- Hdec; compute_done).
  destruct (Hfresh (ABI.encode journal_older) seal 0 200)
    as (c2 & Htx & _ & Hev).
  - rewrite Hj. compute_done.
  - compute_done.
  - exists c2. split; [exact Htx|]. rewrite Hev, Hj. reflexivity.
Defined.

End SampleDeployment.
Section SampleCoverage.

Import Sample.

Local Abbreviation transact_sample := (@transact evm verifier imm).

Lemma submitBalance_succeeds_iff_witness :
  exists j,
    @abi_decode evm journalData = Some j /\
    notaryKeyFingerprint j = EXPECTED_NOTARY_KEY_FINGERPRINT imm /\
    @keccak256 evm (method j) = @keccak256 evm (lit "GET") /\
    queriesHash j = EXPECTED_QUERIES_HASH imm /\
    expectedUrlPattern (chain_storage genesis) `prefix_of` url j /\
    _balance j <> [] /\
    @verify verifier seal (IMAGE_ID imm) (@sha256 evm journalData) = Returned.
Proof.
  apply (proj1 (@submitBalance_succeeds_iff evm verifier imm 100 journalData
                  seal genesis ltac:(compute_done))).
  compute_done.
Defined.


(** An accepted submission, a rejected one, and one more accepted. *)
Local Abbreviation history :=
  [mkTx 100 journalData seal;
   mkTx 101 (ABI.encode journal_post) seal;
   mkTx 102 (ABI.encode journal_older) seal].

Lemma history_is_append_only_witness :
  expectedUrlPattern (chain_storage (@run_txs evm verifier imm history genesis))
    = expectedUrlPattern (chain_storage genesis) /\
  chain_events genesis
    `prefix_of` chain_events (@run_txs evm verifier imm history genesis) /\
  (length (chain_events (@run_txs evm verifier imm history genesis))
     <= length (chain_events genesis) + length history)%nat.
Proof.
  apply (@history_is_append_only evm verifier imm history genesis).
  compute_done.
Defined.

Lemma balance_is_last_verified_witness :
  let c := @run_txs evm verifier imm history genesis in
  balance (chain_storage c)
    = from_option ev_balance [] (last (chain_events c)) /\
  Forall (fun e => ev_balance e <> []) (chain_events c) /\
  (balance (chain_storage c) = [] <-> chain_events c = []).
Proof.
  apply (balance_is_last_verified 0x1111 0x2222 0xa11ce 0xb0b
           (lit "https://api.example.com/v2") history).
  compute_done.
Defined.

Lemma url_prefix_loop_out_of_bounds_witness :
  url_prefix_loop (lit "https://api.example.com")
    (lit "https://api.example.com/v2") 0 (enter genesis)
  = Reverted (Panic 0x32) (enter genesis).
Proof.
  apply url_prefix_loop_out_of_bounds; [compute_done|compute_done|].
  by exists (lit "/v2").
Defined.

End SampleCoverage.

(** * Properties of the submission client *)

Import SubmitProof.

Section ClientProperties.

Context `{!Node} `{!Viem}.

(** ** Enumerating the runs *)

(** Unfolds the sequencing of the script in a hypothesis, and splits on
    the outcome of the step the run is waiting for. *)
Ltac js_unfold H :=
  unfold submitProof, mbind, Js_bind, try_catch, log, error, perform, eval,
    throw, mret, Js_ret in H;
  cbv beta iota zeta in H.

(** The innermost term a [match] is stuck on. *)
Ltac scrutinee t :=
  lazymatch t with
  | context [match ?x with _ => _ end] => scrutinee x
  | _ => t
  end.

Ltac js_step H :=
  lazymatch type of H with
  | ?lhs = _ =>
      let x := scrutinee lhs in
      lazymatch x with
      | lhs => fail "nothing to split on"
      | bool_decide (_ = "sepolia") =>
          (* the choice of the RPC url is data, not control *)
          lazymatch lhs with
          | context [match x with true => ?a | false => ?b end] =>
              let u := fresh "rpcUrl" in
              set (u := if x then a else b) in H; clearbody u
          end
      | _ => destruct x eqn:?; cbv beta iota zeta delta [negb orb] in H
      end
  end.

(** Every run is one of finitely many paths; [js_paths] enumerates them,
    leaving for each the outcomes of the steps taken and the trace. *)
Ltac js_paths H :=
  js_unfold H; repeat js_step H;
  inversion H; subst; clear H.

(** Computes the observations on a trace given as appended singletons. *)
Ltac trace_simpl :=
  unfold rpc_calls, stderr; rewrite ?omap_app; cbn [omap list_omap app].

(** Where an action occurs in a trace given as appended singletons. *)
Ltac locate H :=
  set_unfold in H;
  repeat match type of H with _ \/ _ => destruct H as [H|H] end;
  try discriminate H; try (exfalso; exact H).

Lemma rpc_call_in_calls (a : Action) tr :
  a ∈ tr ->
  match a with console_log _ | console_error _ => False | _ => True end ->
  a ∈ rpc_calls tr.
Proof.
  intros Hin Hrpc. apply list_elem_of_omap. exists a. by destruct a.
Qed.

Lemma rpc_simulateContract_in_calls tr client addr fn arguments acct :
  rpc_simulateContract client addr fn arguments acct ∈ tr ->
  rpc_simulateContract client addr fn arguments acct ∈ rpc_calls tr.
Proof.
  intros Hin. apply list_elem_of_omap. eauto.
Qed.

(** ** Simulation before submission *)

(** What a run looks like when the simulation throws: the simulation is
    the only call made, and the report and the outcome are those of the
    [catch] block. *)
Lemma simulation_failure_trace opts res tr client addr fn arguments acct e :
  submitProof opts [] = (res, tr) ->
  rpc_simulateContract client addr fn arguments acct ∈ tr ->
  simulateContract client addr fn arguments acct = Throw e ->
  rpc_calls tr = [rpc_simulateContract client addr fn arguments acct] /\
  (res, stderr tr) =
    match member e "message" with
    | Throw t => (Throw t, [])
    | Normal message =>
        (Throw e,
         if truthy (getRevertData e) then
           match decodeErrorResult contractABI (default "" (getRevertData e))
           with
           | Normal de =>
               [[JsString ("✗ Simulation failed: " +:+ errorName de);
                 JsArray (default [] (args de))]]
           | Throw _ =>
               [[JsString "✗ Simulation failed:"; message];
                [JsString "Revert data:";
                 JsString (default "" (getRevertData e))]]
           end
         else [[JsString "✗ Simulation failed:"; message]])
    end.
Proof.
  intros Hrun Hin%rpc_simulateContract_in_calls Hsim. js_paths Hrun.
  all: revert Hin; trace_simpl; intros Hin.
  all: locate Hin.
  all: injection Hin as -> -> -> -> ->.
  all: match goal with
       | H : simulateContract _ _ _ _ _ = _ |- _ =>
           rewrite H in Hsim; try discriminate Hsim;
           injection Hsim as ->
       end.
  all: repeat match goal with
       | H : member _ _ = _ |- _ => rewrite H; clear H
       | H : truthy (getRevertData _) = _ |- _ => rewrite H; clear H
       | H : decodeErrorResult _ _ = _ |- _ => rewrite H; clear H
       end.
  all: done.
Qed.

Lemma truthy_Some d : truthy (Some d) = bool_decide (d <> "").
Proof. unfold truthy. by repeat case_bool_decide. Qed.

(** A failed simulation. When the simulation throws, [writeContract]
    is never called: the simulation is the only call that reached the node.
    The error is reported and rethrown: with a revert payload that decodes
    against the ABI, the error name and its arguments; with a payload that
    does not decode, the message and the raw payload; with no payload (or
    an empty one), the message alone. (Reading the message of a thrown
    [undefined] or [null] throws in turn, before anything is reported.) *)
Theorem simulation_failure_blocks_submit
    opts res tr client addr fn arguments acct e :
  submitProof opts [] = (res, tr) ->
  rpc_simulateContract client addr fn arguments acct ∈ tr ->
  simulateContract client addr fn arguments acct = Throw e ->
  rpc_calls tr = [rpc_simulateContract client addr fn arguments acct] /\
  (forall wc a f l, rpc_writeContract wc a f l ∉ tr) /\
  (exists e', res = Throw e') /\
  (forall message, member e "message" = Normal message ->
     res = Throw e /\
     (forall d de,
        getRevertData e = Some d -> d <> "" ->
        decodeErrorResult contractABI d = Normal de ->
        stderr tr = [[JsString ("✗ Simulation failed: " +:+ errorName de);
                      JsArray (default [] (args de))]]) /\
     (forall d x,
        getRevertData e = Some d -> d <> "" ->
        decodeErrorResult contractABI d = Throw x ->
        stderr tr = [[JsString "✗ Simulation failed:"; message];
                     [JsString "Revert data:"; JsString d]]) /\
     (getRevertData e = None \/ getRevertData e = Some "" ->
        stderr tr = [[JsString "✗ Simulation failed:"; message]])).
Proof.
  intros Hrun Hin Hsim.
  destruct (simulation_failure_trace _ _ _ _ _ _ _ _ _ Hrun Hin Hsim)
    as [Hcalls Hout].
  split; [done|]. split.
  { intros wc a f l Hw.
    assert (Hw' : rpc_writeContract wc a f l ∈ rpc_calls tr)
      by (apply list_elem_of_omap; eauto).
    rewrite Hcalls in Hw'. by apply list_elem_of_singleton in Hw'. }
  split.
  { destruct (member e "message"); injection Hout as -> _; eauto. }
  intros message Hm. rewrite Hm in Hout. injection Hout as -> ->.
  split; [done|]. repeat split.
  - intros d de -> Hd Hde. rewrite truthy_Some, bool_decide_eq_true_2 by done.
    cbn [default from_option id]. by rewrite Hde.
  - intros d x -> Hd Hx. rewrite truthy_Some, bool_decide_eq_true_2 by done.
    cbn [default from_option id]. by rewrite Hx.
  - by intros [-> | ->].
Qed.

(** The other direction: a submission is sent only after the simulation
    of the same call, with the same arguments, has succeeded. *)
Lemma submit_only_after_successful_simulation
    opts res tr wc addr fn arguments :
  submitProof opts [] = (res, tr) ->
  rpc_writeContract wc addr fn arguments ∈ tr ->
  exists pc acct rest,
    simulateContract pc addr fn arguments acct = Normal tt /\
    rpc_calls tr = rpc_simulateContract pc addr fn arguments acct
                     :: rpc_writeContract wc addr fn arguments :: rest.
Proof.
  intros Hrun Hin. apply rpc_call_in_calls in Hin; [|done]. js_paths Hrun.
  all: revert Hin; trace_simpl; intros Hin.
  all: locate Hin.
  all: injection Hin as -> -> -> ->.
  all: repeat match goal with u : unit |- _ => destruct u end.
  all: eauto.
Qed.

(** ** The client-side decoding *)

(** What a run looks like when the journal of the proof file does not
    decode on the client: no call is made; either the run failed before
    reading the proof file, or the failure is reported and the script throws
    its own error. *)
Lemma decode_failure_trace opts res tr pd jd e :
  submitProof opts [] = (res, tr) ->
  read_ProofData (path_resolve (opt_proofFile opts)) = Normal pd ->
  or_else (pd_data pd ≫= pf_journalDataAbi) (pd_journalDataAbi pd) = Some jd ->
  decodeAbiParameters jd = Throw e ->
  rpc_calls tr = [] /\
  ((exists e', res = Throw e') /\ stderr tr = [] /\
   console_log ("  Journal Data ABI length: " +:+ pretty (length_utf16 jd)
                +:+ " chars") ∉ tr
   \/
   res = Throw (new_Error
     "Failed to decode journalDataAbi. Make sure the proof format matches the contract expectations.") /\
   stderr tr = [[JsString "Error decoding journalDataAbi:"; e]]).
Proof.
  intros Hrun Hpd Hjd He. unfold mbind in Hjd. js_paths Hrun.
  all: try discriminate Hpd; try (injection Hpd as ->).
  all: try match goal with
       | H : decodeAbiParameters _ = _ |- _ =>
           rewrite Hjd in H; cbn [default from_option id] in H;
           rewrite H in He; try discriminate He; injection He as ->
       end.
  all: split; [by trace_simpl|].
  all: try (right; split; [done|by trace_simpl]).
  all: left; split; [eauto|]; split; [by trace_simpl|].
  all: intros Hin; locate Hin.
Qed.

(** C9, as the code has it. A failure of the client-side decoding of the
    journal is reported and is fatal: the run ends by throwing, and neither
    the simulation nor the submission is attempted. Once the proof file has
    been read (its details printed), the failure is reported with
    [console.error] and the error thrown is the one the script builds. *)
Theorem decode_failure_is_fatal opts res tr pd jd e :
  submitProof opts [] = (res, tr) ->
  read_ProofData (path_resolve (opt_proofFile opts)) = Normal pd ->
  or_else (pd_data pd ≫= pf_journalDataAbi) (pd_journalDataAbi pd) = Some jd ->
  decodeAbiParameters jd = Throw e ->
  rpc_calls tr = [] /\
  (forall client addr fn arguments acct,
     rpc_simulateContract client addr fn arguments acct ∉ tr) /\
  (forall client addr fn arguments, rpc_writeContract client addr fn arguments ∉ tr) /\
  (exists e', res = Throw e') /\
  (console_log ("  Journal Data ABI length: " +:+ pretty (length_utf16 jd)
                +:+ " chars") ∈ tr ->
   res = Throw (new_Error
     "Failed to decode journalDataAbi. Make sure the proof format matches the contract expectations.") /\
   stderr tr = [[JsString "Error decoding journalDataAbi:"; e]]).
Proof.
  intros Hrun Hpd Hjd He.
  destruct (decode_failure_trace _ _ _ _ _ _ Hrun Hpd Hjd He) as [Hcalls Hout].
  split; [done|]. split.
  { intros client addr fn arguments acct Hin%rpc_simulateContract_in_calls.
    rewrite Hcalls in Hin. by apply elem_of_nil in Hin. }
  split.
  { intros client addr fn arguments Hin.
    assert (Hin' : rpc_writeContract client addr fn arguments ∈ rpc_calls tr)
      by (apply list_elem_of_omap; eauto).
    rewrite Hcalls in Hin'. by apply elem_of_nil in Hin'. }
  destruct Hout as [(Hres & _ & Hnot) | [Hres Herr]].
  - split; [done|]. intros Hin. by destruct Hnot.
  - split; [eauto|]. done.
Qed.

(** ** The run of the script, as a whole *)

Lemma truthy_true o : truthy o = true -> exists s, o = Some s /\ s <> "".
Proof.
  destruct o as [s|]; [|done]. cbn. case_bool_decide; [done|]. eauto.
Qed.

Lemma truthy_default o : truthy o = true -> o = Some (default "" o).
Proof. by destruct o. Qed.

Lemma truthy_nonempty o : truthy o = true -> default "" o <> "".
Proof. destruct o; [|done]. cbn. by case_bool_decide. Qed.

(** The test on the network's name in [submitProof] changes nothing: the
    configuration already holds the url of the environment. *)
Lemma rpcUrl_of_config network cfg :
  getNetworkConfig network = Normal cfg ->
  chain cfg = sepolia /\
  rpcUrl cfg = (if truthy env_SEPOLIA_RPC_URL
                then default "" env_SEPOLIA_RPC_URL
                else "https://rpc.sepolia.org") /\
  (if bool_decide (network = "sepolia") then
     if truthy env_SEPOLIA_RPC_URL
     then default (rpcUrl cfg) env_SEPOLIA_RPC_URL
     else rpcUrl cfg
   else rpcUrl cfg) = rpcUrl cfg.
Proof.
  unfold getNetworkConfig. case_bool_decide; [|done]. intros [= <-].
  cbn [chain rpcUrl]. unfold or_else.
  destruct (truthy env_SEPOLIA_RPC_URL) eqn:Henv.
  - apply truthy_true in Henv as (s & -> & _). cbn. by case_bool_decide.
  - cbn. by case_bool_decide.
Qed.

Ltac js_step_url H :=
  lazymatch type of H with
  | ?lhs = _ =>
      let x := scrutinee lhs in
      lazymatch x with
      | lhs => fail "nothing to split on"
      | bool_decide (_ = "sepolia") =>
          lazymatch lhs with
          | context [match x with true => ?a | false => ?b end] =>
              let u := fresh "rpcUrl" in
              set (u := if x then a else b) in H
          end
      | _ => destruct x eqn:?; cbv beta iota zeta delta [negb orb] in H
      end
  end.


Lemma truthy_Some_nonempty s : s <> "" -> truthy (Some s) = true.
Proof. intros Hs. unfold truthy. by case_bool_decide. Qed.

(** Splits the tests into their equations, with the strings they find
    known to be truthy. *)
Ltac unpack_validated H :=
  let Hne := fresh "Hne" in
  destruct H as
    (?Hcfg & [[?Hopt | (?Hno & ?Hfile & ?di & ?Hdi & ?Hdia)] Hne%truthy_Some_nonempty]
     & (?key & ?Hkey & ?Hacct & ?Hkne%truthy_Some_nonempty)
     & (?Hex & ?pd & ?Hpd & ?Hzk & ?Hjd & ?Hzne%truthy_Some_nonempty
        & ?Hjne%truthy_Some_nonempty)
     & (?dj & ?iso & ?Hdj & ?Hiso));
  unfold deploymentPath, mbind in *.

Lemma validated_unique opts cfg addr acct zk jd cfg' addr' acct' zk' jd' :
  validated opts cfg addr acct zk jd ->
  validated opts cfg' addr' acct' zk' jd' ->
  cfg' = cfg /\ addr' = addr /\ acct' = acct /\ zk' = zk /\ jd' = jd.
Proof.
  intros H1 H2. unpack_validated H1; unpack_validated H2;
    split_and!; congruence.
Qed.

(** Every run: either the script throws before it has sent anything, or
    its tests have passed and what follows is decided by the answers of the
    node, call after call. *)
Lemma submitProof_run opts res tr :
  submitProof opts [] = (res, tr) ->
  (rpc_calls tr = [] /\ (exists e, res = Throw e) /\
   forall cfg addr acct zk jd, ~ validated opts cfg addr acct zk jd) \/
  exists cfg addr acct zk jd,
    validated opts cfg addr acct zk jd /\
    let pc := createPublicClient (chain cfg) (rpcUrl cfg) in
    let wc := createWalletClient acct (chain cfg) (rpcUrl cfg) in
    let sim :=
      rpc_simulateContract pc addr "submitBalance" [jd; zk] (address acct) in
    let wr := rpc_writeContract wc addr "submitBalance" [jd; zk] in
    match simulateContract pc addr "submitBalance" [jd; zk] (address acct) with
    | Throw e =>
        rpc_calls tr = [sim] /\ (res, stderr tr) = failed_call "Simulation" e
    | Normal _ =>
        match writeContract wc addr "submitBalance" [jd; zk] with
        | Throw e =>
            rpc_calls tr = [sim; wr] /\
            (res, stderr tr) = failed_call "Submission" e
        | Normal hash =>
            stderr tr = [] /\
            match waitForTransactionReceipt pc hash with
            | Throw e =>
                rpc_calls tr = [sim; wr; rpc_waitForTransactionReceipt pc hash] /\
                res = Throw e
            | Normal receipt =>
                rpc_calls tr = [sim; wr; rpc_waitForTransactionReceipt pc hash;
                                rpc_readContract pc addr "balance"] /\
                res = match readContract pc addr "balance" with
                      | Normal storedBalance =>
                          Normal (mkResult hash (r_blockNumber receipt)
                                    (r_gasUsed receipt) storedBalance)
                      | Throw e => Throw e
                      end
            end
        end
    end.
Proof.
  intros Hrun.
  (* the conclusion is put aside while the paths are enumerated *)
  match goal with
  | |- ?C => cut (forall G : Prop, (C -> G) -> G);
             [intros Hcut; apply Hcut; exact (fun c => c) | intros G HG]
  end.
  js_unfold Hrun. repeat js_step_url Hrun.
  all: injection Hrun as Hres Htr.
  all: pose proof (f_equal rpc_calls Htr) as Hcalls;
       pose proof (f_equal stderr Htr) as Herr; clear Htr;
       unfold rpc_calls at 1 in Hcalls; unfold stderr at 1 in Herr;
       rewrite ?omap_app in Hcalls, Herr;
       cbn [omap list_omap app] in Hcalls, Herr.
  all: apply HG; clear HG; rewrite <- Hcalls, <- Herr, <- Hres;
       clear Hcalls Herr Hres.
  all: try (left; split; [done|]; split; [eauto|];
            intros cfg addr acct zk jd Hv; unpack_validated Hv;
            repeat match goal with
              | Hs : ?o = Some _, Hp : context [default "" ?o] |- _ =>
                  rewrite Hs in Hp; cbn [default from_option id] in Hp
              | H1 : ?x = Normal _, H2 : ?x = Normal _ |- _ =>
                  rewrite H1 in H2; injection H2 as <-
              end;
            congruence).
  all: right.
  all: match goal with
    | u := _ : string, Hc : getNetworkConfig _ = Normal ?a |- _ =>
        assert (u = rpcUrl a) as Hu
          by (subst u; apply (rpcUrl_of_config _ _ Hc));
        clearbody u; subst u
    end.
  all: eexists _, _, _, _, _.
  all: split; [unfold validated; split_and!|].
  all: lazymatch goal with
    | |- address_found _ _ =>
        split;
          [first [left; apply truthy_default; assumption
                 |right; unfold deploymentPath;
                  split_and!; [assumption..|];
                  eexists; split;
                    [eassumption|apply truthy_default; assumption]]
          |apply truthy_nonempty; assumption]
    | |- wallet_ready _ =>
        eexists; split_and!;
          [apply truthy_default; assumption | eassumption
          |apply truthy_nonempty; assumption]
    | |- proof_loaded _ _ _ =>
        split; [assumption|]; eexists; split_and!;
          [eassumption
          |apply truthy_default; assumption
          |apply truthy_default; assumption
          |apply truthy_nonempty; assumption
          |apply truthy_nonempty; assumption]
    | |- journal_printed _ => eexists _, _; split; eassumption
    | |- _ = Normal _ => first [eassumption|reflexivity]
    | |- _ => idtac
    end.
  all: cbv zeta; unfold mbind.
  all: repeat match goal with
    | Hc : _ = Normal _ |- _ => rewrite Hc
    | Hc : _ = Throw _ |- _ => rewrite Hc
    end.
  all: unfold failed_call.
  all: repeat match goal with
    | Hc : _ = Normal _ |- _ => rewrite Hc
    | Hc : _ = Throw _ |- _ => rewrite Hc
    | Hc : truthy _ = _ |- _ => rewrite Hc
    end.
  all: done.
Qed.


(** ** What reaches the node *)


(** The script talks to the node only after all its tests have passed,
    and the first thing it sends is the simulation of
    [submitBalance(journalDataAbi, zkProof)], with the two strings of the
    proof file as they are, from the account of the private key, to the
    address found. *)
Theorem first_call_is_the_simulation opts res tr :
  submitProof opts [] = (res, tr) ->
  rpc_calls tr <> [] ->
  exists cfg addr acct zk jd,
    validated opts cfg addr acct zk jd /\
    head (rpc_calls tr)
      = Some (rpc_simulateContract
                (createPublicClient (chain cfg) (rpcUrl cfg)) addr
                "submitBalance" [jd; zk] (address acct)).
Proof.
  intros Hrun Hcalls.
  destruct (submitProof_run _ _ _ Hrun)
    as [[Hnone _] | (cfg & addr & acct & zk & jd & Hv & Hrest)]; [done|].
  exists cfg, addr, acct, zk, jd. split; [done|].
  cbv zeta in Hrest.
  destruct (simulateContract _ _ _ _ _); [|by destruct Hrest as [-> _]].
  destruct (writeContract _ _ _ _); [|by destruct Hrest as [-> _]].
  destruct Hrest as [_ Hrest].
  destruct (waitForTransactionReceipt _ _); by destruct Hrest as [-> _].
Qed.

(** Every request goes to Sepolia, at the url of [SEPOLIA_RPC_URL] when
    that is set (and not empty) and at the public endpoint otherwise: also
    when the network is spelt otherwise than in lower case, which the
    script's own test on the name misses. *)
Theorem rpc_endpoint_is_env_or_default opts res tr :
  submitProof opts [] = (res, tr) ->
  let endpoint := if truthy env_SEPOLIA_RPC_URL
                  then default "" env_SEPOLIA_RPC_URL
                  else "https://rpc.sepolia.org" in
  Forall (fun a =>
            match a with
            | rpc_simulateContract pc _ _ _ _
            | rpc_waitForTransactionReceipt pc _
            | rpc_readContract pc _ _ =>
                pc = createPublicClient sepolia endpoint
            | rpc_writeContract wc _ _ _ =>
                wc_chain wc = sepolia /\ wc_transport wc = endpoint
            | console_log _ | console_error _ => True
            end) (rpc_calls tr).
Proof.
  intros Hrun endpoint.
  destruct (submitProof_run _ _ _ Hrun)
    as [[-> _] | (cfg & addr & acct & zk & jd & [Hcfg _] & Hrest)]; [done|].
  destruct (rpcUrl_of_config _ _ Hcfg) as (Hchain & Hurl & _).
  rewrite Hchain, Hurl in Hrest. fold endpoint in Hrest. cbv zeta in Hrest.
  destruct (simulateContract _ _ _ _ _).
  2:{ destruct Hrest as [-> _]. by repeat constructor. }
  destruct (writeContract _ _ _ _) as [hash|].
  2:{ destruct Hrest as [-> _]. by repeat constructor. }
  destruct Hrest as [_ Hrest].
  destruct (waitForTransactionReceipt _ _);
    destruct Hrest as [-> _]; by repeat constructor.
Qed.

(** ** The outcome *)

(** The script returns exactly when its tests pass and the four calls
    (simulation, submission, receipt, read-back) all return; the result
    is the hash of the submission, the block and the gas of the receipt
    and the balance read back. The status of the receipt plays no part: a
    transaction mined as reverted is reported like one that succeeded. *)
Theorem submitProof_returns_iff opts (result : SubmitProofResult) :
  (submitProof opts []).1 = Normal result <->
  exists cfg addr acct zk jd hash receipt,
    validated opts cfg addr acct zk jd /\
    let pc := createPublicClient (chain cfg) (rpcUrl cfg) in
    let wc := createWalletClient acct (chain cfg) (rpcUrl cfg) in
    simulateContract pc addr "submitBalance" [jd; zk] (address acct)
      = Normal tt /\
    writeContract wc addr "submitBalance" [jd; zk] = Normal hash /\
    waitForTransactionReceipt pc hash = Normal receipt /\
    readContract pc addr "balance" = Normal (balance result) /\
    result = mkResult hash (r_blockNumber receipt) (r_gasUsed receipt)
               (balance result) /\
    rpc_calls (submitProof opts []).2
      = [rpc_simulateContract pc addr "submitBalance" [jd; zk] (address acct);
         rpc_writeContract wc addr "submitBalance" [jd; zk];
         rpc_waitForTransactionReceipt pc hash;
         rpc_readContract pc addr "balance"] /\
    stderr (submitProof opts []).2 = [].
Proof.
  destruct (submitProof opts []) as [res tr] eqn:Hrun. cbn [fst snd].
  destruct (submitProof_run _ _ _ Hrun)
    as [(_ & [e ->] & Hnot) | (cfg & addr & acct & zk & jd & Hv & Hrest)].
  { split; [done|]. intros (cfg & addr & acct & zk & jd & _ & _ & Hv & _).
    by destruct (Hnot cfg addr acct zk jd). }
  cbv zeta in Hrest. split.
  - intros ->. exists cfg, addr, acct, zk, jd.
    unfold failed_call in Hrest.
    destruct (simulateContract _ _ _ _ _) as [[]|e] eqn:Hsim.
    2:{ destruct Hrest as [_ Hrest]. by destruct (member e "message"). }
    destruct (writeContract _ _ _ _) as [hash|e] eqn:Hwr.
    2:{ destruct Hrest as [_ Hrest]. by destruct (member e "message"). }
    destruct Hrest as [Herr Hrest].
    destruct (waitForTransactionReceipt _ _) as [receipt|e] eqn:Hwait;
      [|by destruct Hrest as [_ ?]].
    destruct Hrest as [Hcalls Hres].
    destruct (readContract _ _ _) as [b|] eqn:Hread; [|done].
    injection Hres as ->. by exists hash, receipt.
  - intros (cfg' & addr' & acct' & zk' & jd' & hash & receipt & Hv' & Hcalls).
    destruct (validated_unique _ _ _ _ _ _ _ _ _ _ _ Hv Hv')
      as (-> & -> & -> & -> & ->).
    cbv zeta in Hcalls.
    destruct Hcalls as (Hsim & Hwr & Hwait & Hread & Hresult & _).
    rewrite Hsim, Hwr, Hwait, Hread in Hrest.
    destruct Hrest as (_ & _ & ->). by rewrite <- Hresult.
Qed.

(** When the submission throws, the error is reported like that of a
    failed simulation and thrown again: with a revert payload that decodes
    against the ABI, the error name and its arguments; with a payload that
    does not decode, the message and the raw payload; with no payload, the
    message alone. Neither the receipt nor the balance is asked for. *)
Theorem submission_failure_is_reported
    opts res tr wc addr fn arguments e :
  submitProof opts [] = (res, tr) ->
  rpc_writeContract wc addr fn arguments ∈ tr ->
  writeContract wc addr fn arguments = Throw e ->
  (exists pc acct,
     rpc_calls tr = [rpc_simulateContract pc addr fn arguments acct;
                     rpc_writeContract wc addr fn arguments]) /\
  (exists e', res = Throw e') /\
  (forall message, member e "message" = Normal message ->
     res = Throw e /\
     (forall d de,
        getRevertData e = Some d -> d <> "" ->
        decodeErrorResult contractABI d = Normal de ->
        stderr tr = [[JsString ("✗ Submission failed: " +:+ errorName de);
                      JsArray (default [] (args de))]]) /\
     (forall d x,
        getRevertData e = Some d -> d <> "" ->
        decodeErrorResult contractABI d = Throw x ->
        stderr tr = [[JsString "✗ Submission failed:"; message];
                     [JsString "Revert data:"; JsString d]]) /\
     (getRevertData e = None \/ getRevertData e = Some "" ->
        stderr tr = [[JsString "✗ Submission failed:"; message]])).
Proof.
  intros Hrun Hin Hthrow. apply rpc_call_in_calls in Hin; [|done].
  destruct (submitProof_run _ _ _ Hrun)
    as [[Hnone _] | (cfg & addr' & acct & zk & jd & _ & Hrest)].
  { rewrite Hnone in Hin. by apply elem_of_nil in Hin. }
  cbv zeta in Hrest.
  destruct (simulateContract _ _ _ _ _).
  2:{ destruct Hrest as [Hc _]. rewrite Hc in Hin. locate Hin. }
  lazymatch type of Hrest with
  | context [writeContract ?w ?a ?f ?l] =>
      destruct (writeContract w a f l) as [hash|e0] eqn:Hwr
  end.
  { destruct Hrest as [_ Hrest].
    destruct (waitForTransactionReceipt _ _);
      destruct Hrest as [Hc _]; rewrite Hc in Hin; locate Hin;
      injection Hin as -> -> -> ->; by rewrite Hthrow in Hwr. }
  destruct Hrest as [Hc Hout]. rewrite Hc in Hin. locate Hin.
  injection Hin as -> -> -> ->. rewrite Hthrow in Hwr. injection Hwr as <-.
  split; [by eexists _, _|]. unfold failed_call in Hout. split.
  { destruct (member e "message"); injection Hout as -> _; eauto. }
  intros message Hm. rewrite Hm in Hout. injection Hout as -> ->.
  split; [done|]. repeat split.
  - intros d de -> Hd Hde. rewrite truthy_Some, bool_decide_eq_true_2 by done.
    cbn [default from_option id]. by rewrite Hde.
  - intros d x -> Hd Hx. rewrite truthy_Some, bool_decide_eq_true_2 by done.
    cbn [default from_option id]. by rewrite Hx.
  - by intros [-> | ->].
Qed.

Ltac in_list :=
  repeat first [apply list_elem_of_here | apply list_elem_of_further].

(** Once the submission has returned a hash, the script prints no error
    of its own: it waits for the receipt of that hash and, whatever the
    receipt says, reads the balance back from the same address; an error of
    either call is thrown as it is, and the hash is then not returned. *)
Theorem after_submission opts res tr wc addr fn arguments hash :
  submitProof opts [] = (res, tr) ->
  rpc_writeContract wc addr fn arguments ∈ tr ->
  writeContract wc addr fn arguments = Normal hash ->
  let pc := createPublicClient (wc_chain wc) (wc_transport wc) in
  stderr tr = [] /\
  rpc_waitForTransactionReceipt pc hash ∈ tr /\
  match waitForTransactionReceipt pc hash with
  | Throw e => res = Throw e /\ rpc_readContract pc addr "balance" ∉ tr
  | Normal receipt =>
      rpc_readContract pc addr "balance" ∈ tr /\
      res = match readContract pc addr "balance" with
            | Normal storedBalance =>
                Normal (mkResult hash (r_blockNumber receipt)
                          (r_gasUsed receipt) storedBalance)
            | Throw e => Throw e
            end
  end.
Proof.
  intros Hrun Hin Hhash pc. apply rpc_call_in_calls in Hin; [|done].
  assert (Hsub : forall a, a ∈ rpc_calls tr -> a ∈ tr).
  { intros a (x & Hx & Hf)%list_elem_of_omap.
    destruct x; try done; by injection Hf as <-. }
  assert (Hnot : forall a,
            match a with console_log _ | console_error _ => False | _ => True end ->
            a ∉ rpc_calls tr -> a ∉ tr).
  { intros a Ha Hn Hi. by apply Hn, rpc_call_in_calls. }
  destruct (submitProof_run _ _ _ Hrun)
    as [[Hnone _] | (cfg & addr' & acct & zk & jd & _ & Hrest)].
  { rewrite Hnone in Hin. by apply elem_of_nil in Hin. }
  cbv zeta in Hrest.
  destruct (simulateContract _ _ _ _ _).
  2:{ destruct Hrest as [Hc _]. rewrite Hc in Hin. locate Hin. }
  lazymatch type of Hrest with
  | context [writeContract ?w ?a ?f ?l] =>
      destruct (writeContract w a f l) as [hash'|e0] eqn:Hwr
  end.
  2:{ destruct Hrest as [Hc _]. rewrite Hc in Hin. locate Hin.
      injection Hin as -> -> -> ->. by rewrite Hhash in Hwr. }
  destruct Hrest as [Herr Hrest]. split; [done|].
  destruct (waitForTransactionReceipt _ hash') as [receipt|e] eqn:Hwait;
    destruct Hrest as [Hc Hres]; rewrite Hc in Hin; locate Hin;
    injection Hin as -> -> -> ->; rewrite Hhash in Hwr; injection Hwr as <-;
    subst pc; cbn [wc_chain wc_transport]; rewrite Hwait.
  - split; [apply Hsub; rewrite Hc; in_list|].
    split; [apply Hsub; rewrite Hc; in_list|done].
  - split; [apply Hsub; rewrite Hc; in_list|].
    split; [done|]. apply Hnot; [done|]. rewrite Hc. intros Hi. locate Hi.
Qed.


End ClientProperties.

(** ** The client on the sample run *)

Section SampleRun.

Import Sample.

Local Abbreviation client :=
  (createPublicClient sepolia "https://rpc.sepolia.org").
Local Abbreviation wallet :=
  (createWalletClient (mkAccount "0xA11CE") sepolia "https://rpc.sepolia.org").
Local Abbreviation good_bundle := (to_hex journalData).
Local Abbreviation bad_bundle := (to_hex (ABI.encode journal_bad_queries_hash)).

(** The run on the valid bundle. *)
Local Abbreviation run_accepted :=
  (@submitProof (node (bundle good_bundle)) (viem PayloadInCauseData true)
     options []).

(** The run on the bundle whose queries hash has one bit flipped: the
    contract rejects the simulated call. *)
Local Abbreviation run_rejected :=
  (@submitProof (node (bundle bad_bundle)) (viem PayloadInCauseData true)
     options []).

(** The same, with a node client that throws errors of viem's shape. *)
Local Abbreviation run_rejected_raw :=
  (@submitProof (node (bundle bad_bundle)) (viem PayloadInCauseRaw true)
     options []).

(** The run on the valid bundle when the simulation fails before reaching
    the contract. *)
Local Abbreviation run_unreachable :=
  (@submitProof (node (bundle good_bundle)) (viem PayloadInCauseData false)
     options []).

(** The run on a bundle whose journal is not an encoding of the tuple. *)
Local Abbreviation run_malformed :=
  (@submitProof (node (bundle "0x1234")) (viem PayloadInCauseData true)
     options []).

(** Finds an action in a computed trace. *)
Ltac in_list :=
  repeat first [apply list_elem_of_here | apply list_elem_of_further].
Ltac find_in_trace := vm_compute; in_list.

(** The error thrown for the rejected bundle, in viem's shape. *)
Local Abbreviation rejection :=
  (reverted PayloadInCauseRaw
     (EtherscanVerifier.CustomError EtherscanVerifier.InvalidQueriesHash)).

(** The client scenarios of the specification. On the valid bundle the
    simulation and the submission succeed and the value read back is the
    extracted value. *)
Lemma client_scenario_accepted :
  run_accepted.1 = Normal (mkResult "0x7a" 100 21000 "123.45") /\
  rpc_calls run_accepted.2
    = [rpc_simulateContract client "0xC0FFEE" "submitBalance"
         [good_bundle; "0xaa"] "0xA11CE";
       rpc_writeContract
         (createWalletClient (mkAccount "0xA11CE") sepolia
            "https://rpc.sepolia.org")
         "0xC0FFEE" "submitBalance" [good_bundle; "0xaa"];
       rpc_waitForTransactionReceipt client "0x7a";
       rpc_readContract client "0xC0FFEE" "balance"] /\
  stderr run_accepted.2 = [].
Proof. split_and!; compute_done. Qed.

(** With one bit of the queries hash flipped and the payload where the
    script looks for it, the simulation is rejected with
    [InvalidQueriesHash], the script decodes and prints the name, and
    nothing is submitted. *)
Lemma simulation_failure_blocks_submit_witness :
  run_rejected.1 = Throw (reverted PayloadInCauseData (EtherscanVerifier.CustomError
                                      EtherscanVerifier.InvalidQueriesHash)) /\
  stderr run_rejected.2
    = [[JsString "✗ Simulation failed: InvalidQueriesHash"; JsArray []]] /\
  (forall wc a f l, rpc_writeContract wc a f l ∉ run_rejected.2).
Proof.
  assert (Hrun : run_rejected = (run_rejected.1, run_rejected.2))
    by apply surjective_pairing.
  assert (Hin : rpc_simulateContract client "0xC0FFEE" "submitBalance"
                  [bad_bundle; "0xaa"] "0xA11CE" ∈ run_rejected.2)
    by find_in_trace.
  assert (Hsim : @simulateContract (viem PayloadInCauseData true) client "0xC0FFEE" "submitBalance"
                   [bad_bundle; "0xaa"] "0xA11CE"
                 = Throw (reverted PayloadInCauseData (EtherscanVerifier.CustomError
                                      EtherscanVerifier.InvalidQueriesHash)))
    by compute_done.
  destruct (simulation_failure_blocks_submit _ _ _ _ _ _ _ _ _ Hrun Hin Hsim)
    as (_ & Hnowrite & _ & Hreport).
  destruct (Hreport (JsString (revert_message
                        (EtherscanVerifier.CustomError
                           EtherscanVerifier.InvalidQueriesHash))))
    as (Hres & Hkind & _ & _); [compute_done|].
  split; [exact Hres|]. split; [|exact Hnowrite].
  apply (Hkind (to_hex (ABI.selector "InvalidQueriesHash()"))
           (mkDecodedError "InvalidQueriesHash" None)); compute_done.
Defined.


(** When the simulation fails before reaching the contract, the error
    holds no payload and its message is printed. *)
Lemma simulation_failure_unreachable :
  run_unreachable.1 = Throw unreachable /\
  stderr run_unreachable.2
    = [[JsString "✗ Simulation failed:"; JsString "HTTP request failed."]] /\
  rpc_calls run_unreachable.2
    = [rpc_simulateContract client "0xC0FFEE" "submitBalance"
         [good_bundle; "0xaa"] "0xA11CE"].
Proof. split_and!; compute_done. Qed.

Lemma decode_failure_is_fatal_witness :
  run_malformed.1 = Throw (new_Error
    "Failed to decode journalDataAbi. Make sure the proof format matches the contract expectations.") /\
  stderr run_malformed.2
    = [[JsString "Error decoding journalDataAbi:"; malformed]] /\
  rpc_calls run_malformed.2 = [].
Proof.
  assert (Hrun : run_malformed = (run_malformed.1, run_malformed.2))
    by apply surjective_pairing.
  assert (Hpd : @read_ProofData (node (bundle "0x1234"))
                  (@path_resolve (node (bundle "0x1234"))
                     (opt_proofFile options))
                = Normal (bundle "0x1234")) by reflexivity.
  assert (Hjd : or_else (pd_data (bundle "0x1234") ≫= pf_journalDataAbi)
                  (pd_journalDataAbi (bundle "0x1234")) = Some "0x1234")
    by compute_done.
  assert (He : @decodeAbiParameters (viem PayloadInCauseData true) "0x1234" = Throw malformed)
    by compute_done.
  destruct (decode_failure_is_fatal _ _ _ _ _ _ Hrun Hpd Hjd He)
    as (Hcalls & _ & _ & _ & Hreport).
  destruct Hreport as [Hres Herr]; [find_in_trace|].
  split; [exact Hres|]. split; [exact Herr|exact Hcalls].
Defined.

(** C9 as stated fails: when the client-side decoding throws, the run ends
    there; the failure is reported, and no call reaches the node. *)
Lemma decode_failure_blocks_submission :
  @decodeAbiParameters (viem PayloadInCauseData true) "0x1234" = Throw malformed /\
  run_malformed.1 = Throw (new_Error
    "Failed to decode journalDataAbi. Make sure the proof format matches the contract expectations.") /\
  stderr run_malformed.2
    = [[JsString "Error decoding journalDataAbi:"; malformed]] /\
  rpc_calls run_malformed.2 = [].
Proof. split_and!; compute_done. Qed.

(** ** Further runs *)

Lemma first_call_is_the_simulation_witness :
  exists cfg addr acct zk jd,
    @validated (node (bundle good_bundle)) (viem PayloadInCauseData true) options cfg addr acct zk jd /\
    head (rpc_calls run_accepted.2)
      = Some (rpc_simulateContract
                (createPublicClient (chain cfg) (rpcUrl cfg)) addr
                "submitBalance" [jd; zk] (address acct)).
Proof.
  assert (Hrun : run_accepted = (run_accepted.1, run_accepted.2))
    by apply surjective_pairing.
  apply (first_call_is_the_simulation _ _ _ Hrun). vm_compute. discriminate.
Defined.

(** With the variable set and the network spelt with a capital, the
    requests go to the url of the variable. *)
Lemma rpc_endpoint_is_env_or_default_witness :
  Forall (fun a =>
            match a with
            | rpc_simulateContract pc _ _ _ _
            | rpc_waitForTransactionReceipt pc _
            | rpc_readContract pc _ _ =>
                pc = createPublicClient sepolia "https://sepolia.example/rpc"
            | rpc_writeContract wc _ _ _ =>
                wc_chain wc = sepolia /\
                wc_transport wc = "https://sepolia.example/rpc"
            | console_log _ | console_error _ => True
            end)
    (rpc_calls (@submitProof (node_with_rpc (bundle good_bundle)
                                "https://sepolia.example/rpc")
                  (viem PayloadInCauseData true) (mkOptions "Sepolia" "proof.json" (Some "0xC0FFEE"))
                  []).2) /\
  length (rpc_calls
            (@submitProof (node_with_rpc (bundle good_bundle)
                             "https://sepolia.example/rpc")
               (viem PayloadInCauseData true) (mkOptions "Sepolia" "proof.json" (Some "0xC0FFEE"))
               []).2) = 4%nat.
Proof.
  split; [|vm_compute; reflexivity].
  exact (rpc_endpoint_is_env_or_default
           (H := node_with_rpc (bundle good_bundle) "https://sepolia.example/rpc")
           _ _ _ (surjective_pairing _)).
Defined.

(** The simulation passes and the submission is refused by the node. *)
Local Abbreviation refused := (new_Error "insufficient funds for gas").
Local Abbreviation run_refused :=
  (@submitProof (node (bundle good_bundle))
     (viem_submitting (Throw refused) "success") options []).

Lemma submission_failure_is_reported_witness :
  rpc_calls run_refused.2
    = [rpc_simulateContract client "0xC0FFEE" "submitBalance"
         [good_bundle; "0xaa"] "0xA11CE";
       rpc_writeContract wallet "0xC0FFEE" "submitBalance"
         [good_bundle; "0xaa"]] /\
  run_refused.1 = Throw refused /\
  stderr run_refused.2
    = [[JsString "✗ Submission failed:";
        JsString "insufficient funds for gas"]].
Proof.
  assert (Hrun : run_refused = (run_refused.1, run_refused.2))
    by apply surjective_pairing.
  destruct (submission_failure_is_reported
              (H0 := viem_submitting (Throw refused) "success")
              _ _ _ wallet "0xC0FFEE" "submitBalance" [good_bundle; "0xaa"]
              refused Hrun)
    as (_ & _ & Hreport); [vm_compute; in_list|reflexivity|].
  destruct (Hreport (JsString "insufficient funds for gas"))
    as (Hres & _ & _ & Hnone); [reflexivity|].
  split; [vm_compute; reflexivity|]. split; [exact Hres|].
  apply Hnone. by left.
Defined.

(** A receipt that says the transaction reverted: the script returns as if
    it had succeeded. *)
Local Abbreviation run_mined_reverted :=
  (@submitProof (node (bundle good_bundle))
     (viem_submitting (Normal "0x7a") "reverted") options []).

Lemma after_submission_witness :
  stderr run_mined_reverted.2 = [] /\
  rpc_waitForTransactionReceipt client "0x7a" ∈ run_mined_reverted.2 /\
  rpc_readContract client "0xC0FFEE" "balance" ∈ run_mined_reverted.2 /\
  run_mined_reverted.1 = Normal (mkResult "0x7a" 100 21000 "123.45").
Proof.
  assert (Hrun : run_mined_reverted
                 = (run_mined_reverted.1, run_mined_reverted.2))
    by apply surjective_pairing.
  exact (after_submission
           (H0 := viem_submitting (Normal "0x7a") "reverted")
           _ _ _ wallet "0xC0FFEE" "submitBalance" [good_bundle; "0xaa"]
           "0x7a" Hrun ltac:(vm_compute; in_list) eq_refl).
Defined.

Lemma submit_only_after_successful_simulation_witness :
  exists pc acct rest,
    @simulateContract (viem PayloadInCauseData true) pc "0xC0FFEE" "submitBalance"
      [good_bundle; "0xaa"] acct = Normal tt /\
    rpc_calls run_accepted.2
      = rpc_simulateContract pc "0xC0FFEE" "submitBalance"
          [good_bundle; "0xaa"] acct
        :: rpc_writeContract wallet "0xC0FFEE" "submitBalance"
             [good_bundle; "0xaa"] :: rest.
Proof.
  assert (Hrun : run_accepted = (run_accepted.1, run_accepted.2))
    by apply surjective_pairing.
  apply (submit_only_after_successful_simulation _ _ _ _ _ _ _ Hrun).
  vm_compute; in_list.
Defined.


End SampleRun.

(** * Properties of the verification script *)

Import Scripts.

Section ScriptProperties.

Context `{!Node} `{!Shell}.

(** Unfolds the sequencing of a script in a hypothesis. *)
Ltac sc_unfold H :=
  unfold mbind, Script_bind, try_catch, when, log, error, perform, eval,
    throw, mret, Script_ret in H;
  cbv beta iota zeta in H.

Ltac scrutinee t :=
  lazymatch t with
  | context [match ?x with _ => _ end] => scrutinee x
  | _ => t
  end.

Ltac sc_step H :=
  lazymatch type of H with
  | ?lhs = _ =>
      let x := scrutinee lhs in
      lazymatch x with
      | lhs => fail "nothing to split on"
      | _ => destruct x eqn:?; cbv beta iota zeta delta [negb orb] in H
      end
  end.

(** The paths of a run, each with the outcomes of its steps. *)
Ltac sc_paths H := sc_unfold H; repeat sc_step H.

(** Computes an observation on a trace given as appended singletons. *)
Ltac observe f :=
  unfold f; rewrite ?omap_app; cbn [omap list_omap app].

(** The command line [verify] builds. *)
Lemma verify_command_text (addr network : string) (cargs : list string) :
  join " "
    (if bool_decide (0 < length cargs)%nat
     then ["forge"; "verify-contract"; addr;
           "src/EtherscanVerifier.sol:EtherscanVerifier"; "--chain"; network;
           "--watch"] ++ ["--constructor-args"] ++ cargs
     else ["forge"; "verify-contract"; addr;
           "src/EtherscanVerifier.sol:EtherscanVerifier"; "--chain"; network;
           "--watch"])
  = "forge verify-contract " +:+ addr
    +:+ " src/EtherscanVerifier.sol:EtherscanVerifier --chain " +:+ network
    +:+ " --watch"
    +:+ match cargs with
        | [] => ""
        | _ => " --constructor-args " +:+ join " " cargs
        end.
Proof.
  destruct cargs as [|a l]; [reflexivity|].
  rewrite bool_decide_eq_true_2 by (cbn; lia). reflexivity.
Qed.

(** For a supported network [verify] runs one command, and no other: forge
    on the address and the network as they were given, with the
    constructor arguments, if there are any, after one flag, separated by
    spaces and not quoted. For any other network it runs nothing. *)
Theorem verify_runs_one_forge_command opts res tr :
  verify opts [] = (res, tr) ->
  commands tr =
    match getNetworkConfig (vo_network opts) with
    | Throw _ => []
    | Normal _ =>
        ["forge verify-contract " +:+ vo_contractAddress opts
         +:+ " src/EtherscanVerifier.sol:EtherscanVerifier --chain "
         +:+ vo_network opts +:+ " --watch"
         +:+ match default [] (vo_constructorArgs opts) with
             | [] => ""
             | cargs => " --constructor-args " +:+ join " " cargs
             end]
    end.
Proof.
  intros Hrun. unfold verify in Hrun. cbv zeta in Hrun.
  rewrite verify_command_text in Hrun.
  sc_paths Hrun.
  all: injection Hrun as _ <-; by observe commands.
Qed.

(** [verify] returns only [{ success: true }], and only after forge has
    returned; when forge fails, the failure is announced on the error
    stream and the error of forge is thrown again. *)
Theorem verify_outcome opts res tr :
  verify opts [] = (res, tr) ->
  (forall r, res = Normal r ->
     success r = true /\
     exists command out,
       commands tr = [command] /\ execAsync command = Normal out) /\
  (forall command e,
     command ∈ commands tr ->
     execAsync command = Throw e ->
     e <> JsUndefined -> e <> JsNull ->
     res = Throw e /\
     head (errors tr) = Some [JsString (nl +:+ "✗ Verification failed:")]).
Proof.
  intros Hrun. unfold verify in Hrun. cbv zeta in Hrun.
  match type of Hrun with
  | context [join " " ?l] => set (cmd := join " " l) in Hrun; clearbody cmd
  end.
  sc_paths Hrun.
  all: injection Hrun as <- <-; split.
  all: try (intros r [= <-]; split; [done|]; observe commands; by eexists _, _).
  all: try (by intros r [=]).
  all: intros command e1; observe commands; intros Hin;
    try (by apply elem_of_nil in Hin);
    apply list_elem_of_singleton in Hin; subst command.
  all: intros Hexec; try congruence.
  all: match goal with
       | Hx : execAsync _ = Throw ?e' |- _ =>
           rewrite Hx in Hexec; injection Hexec as ->
       end.
  all: intros Hu Hn; try (split; [done|by observe errors]).
  all: by destruct e1.
Qed.

(** The network is accepted in any capitalisation and handed to forge as
    it was typed. *)
Lemma getNetworkConfig_supported network :
  (exists cfg, getNetworkConfig network = Normal cfg)
  <-> toLowerCase network = "sepolia".
Proof.
  unfold getNetworkConfig. case_bool_decide; split; try done; eauto.
  by intros [cfg [=]].
Qed.

(** From the command line: with fewer than two arguments, or for a network
    that is not supported, nothing is run and the process exits with
    code 1. *)
Theorem verify_main_refuses args res tr :
  verify_main args [] = (res, tr) ->
  (length args < 2)%nat \/
  (exists network rest,
     args = network :: rest /\ toLowerCase network <> "sepolia") ->
  res = Normal (Exited 1) /\ commands tr = [].
Proof.
  intros Hrun Hbad.
  destruct args as [|network [|addr cargs]];
    try (injection Hrun as <- <-; by split).
  destruct Hbad as [Hlen | (n & rest & [= <- <-] & Hn)]; [cbn in Hlen; lia|].
  assert (Hcfg : exists e, getNetworkConfig network = Throw e /\
                           exists m, member e "message" = Normal m).
  { unfold getNetworkConfig. rewrite bool_decide_eq_false_2 by done.
    eexists. split; [done|]. by eexists. }
  destruct Hcfg as (e & Hcfg & m & Hm).
  unfold verify_main, verify in Hrun. cbv zeta in Hrun.
  match type of Hrun with
  | context [join " " ?l] => set (cmd := join " " l) in Hrun; clearbody cmd
  end.
  cbn [vo_network] in Hrun. sc_unfold Hrun. rewrite Hcfg in Hrun.
  cbv beta iota zeta in Hrun. rewrite Hm in Hrun.
  injection Hrun as <- <-. split; [done|]. by observe commands.
Qed.

End ScriptProperties.

(** ** The verification script on the sample *)

Section ScriptRun.

Import Sample ScriptSample.

Local Abbreviation machine := (node (bundle "0x")).

(** With constructor arguments: they follow the flag as they are, a
    space or an ampersand within one of them included. *)
Lemma verify_runs_one_forge_command_witness :
  commands
    (@verify machine forge
       (mkVerifyOptions "Sepolia" "0xBEEF"
          (Some ["0x01"; "https://api.etherscan.io/api?a=b&c=d e"])) []).2
  = ["forge verify-contract 0xBEEF src/EtherscanVerifier.sol:EtherscanVerifier --chain Sepolia --watch --constructor-args 0x01 https://api.etherscan.io/api?a=b&c=d e"].
Proof.
  exact (verify_runs_one_forge_command (H := machine) (H0 := forge)
           (mkVerifyOptions "Sepolia" "0xBEEF"
              (Some ["0x01"; "https://api.etherscan.io/api?a=b&c=d e"]))
           _ _ (surjective_pairing _)).
Defined.

(** Forge fails on the other address: its error is thrown again. *)
Lemma verify_outcome_witness :
  (@verify machine forge (mkVerifyOptions "sepolia" "0xBEEF" None) []).1
    = Throw forge_failure /\
  head (errors
          (@verify machine forge (mkVerifyOptions "sepolia" "0xBEEF" None) []).2)
    = Some [JsString (nl +:+ "✗ Verification failed:")].
Proof.
  destruct (verify_outcome (H := machine) (H0 := forge)
              (mkVerifyOptions "sepolia" "0xBEEF" None) _ _
              (surjective_pairing _)) as [_ Hfail].
  apply (Hfail "forge verify-contract 0xBEEF src/EtherscanVerifier.sol:EtherscanVerifier --chain sepolia --watch");
    [vm_compute; apply list_elem_of_here|reflexivity|discriminate..].
Defined.

(** On the contract of the sample forge succeeds. *)
Lemma verify_scenario_verified :
  (@verify machine forge (mkVerifyOptions "sepolia" "0xC0FFEE" None) []).1
    = Normal (mkVerifyResult true) /\
  (@verify_main machine forge ["sepolia"; "0xC0FFEE"] []).1 = Normal Returned.
Proof. split; vm_compute; reflexivity. Qed.

Lemma verify_main_refuses_witness :
  (@verify_main machine forge ["mainnet"; "0xC0FFEE"] []).1
    = Normal (Exited 1) /\
  commands (@verify_main machine forge ["mainnet"; "0xC0FFEE"] []).2 = [].
Proof.
  apply (verify_main_refuses (H := machine) (H0 := forge)
           ["mainnet"; "0xC0FFEE"] _ _ (surjective_pairing _)).
  right. exists "mainnet", ["0xC0FFEE"]. split; [reflexivity|].
  vm_compute. discriminate.
Defined.

End ScriptRun.

(** * Properties of the deployment script *)

Section DeployProperties.

Context `{!Node} `{!Viem} `{!Tools}.

(** ** Following a run step by step *)

(** A sequence stops where its first part throws, and otherwise goes on
    from the trace its first part left. *)
Lemma bind_inv {A B} (m : Script A) (k : A -> Script B) tr res tr' :
  (m ≫= k) tr = (res, tr') ->
  (exists e, m tr = (Throw e, tr') /\ res = Throw e) \/
  (exists a tr1, m tr = (Normal a, tr1) /\ k a tr1 = (res, tr')).
Proof.
  unfold mbind, Script_bind. destruct (m tr) as [[a|e] tr1]; intros Hrun.
  - right. eauto.
  - left. injection Hrun as <- <-. eauto.
Qed.

(** What a single step returns, and what it adds to the trace. *)
Lemma log_inv s tr (c : Completion unit) tr1 :
  log s tr = (c, tr1) ->
  c = Normal tt /\ tr1 = tr ++ [console_log [JsString s]].
Proof. by intros [= <- <-]. Qed.

Lemma error_inv s tr (c : Completion unit) tr1 :
  error s tr = (c, tr1) ->
  c = Normal tt /\ tr1 = tr ++ [console_error [JsString s]].
Proof. by intros [= <- <-]. Qed.

Lemma perform_inv {A} a (c : Completion A) tr c' tr1 :
  perform a c tr = (c', tr1) -> c = c' /\ tr1 = tr ++ [a].
Proof. by intros [= <- <-]. Qed.

Lemma eval_inv {A} (c : Completion A) tr c' tr1 :
  eval c tr = (c', tr1) -> c = c' /\ tr1 = tr.
Proof. by intros [= <- <-]. Qed.

Lemma throw_inv {A} e tr (c : Completion A) tr1 :
  throw e tr = (c, tr1) -> c = Throw e /\ tr1 = tr.
Proof. by intros [= <- <-]. Qed.

Lemma mret_inv {A} (a : A) tr (c : Completion A) tr1 :
  (mret a : Script A) tr = (c, tr1) -> c = Normal a /\ tr1 = tr.
Proof. by intros [= <- <-]. Qed.

(** Follows a run through the script: every step either throws, which
    ends the run with the trace so far, or returns and hands over to the
    next. *)
Ltac sc_run0 H :=
  lazymatch type of H with
  | mbind _ _ _ = _ =>
      let Hm := fresh "Hm" in
      let Hres := fresh "Hres" in
      apply bind_inv in H as [(?e & Hm & Hres) | (?a & ?tr & Hm & H)];
      [ first [ discriminate Hres
              | injection Hres as ->; sc_run0 Hm
              | subst; sc_run0 Hm ]
      | sc_run0 Hm; cbv beta in H; sc_run0 H ]
  | log _ _ = _ =>
      let Hc := fresh "Hc" in
      apply log_inv in H as [Hc ->];
      first [discriminate Hc | injection Hc as -> | subst]
  | error _ _ = _ =>
      let Hc := fresh "Hc" in
      apply error_inv in H as [Hc ->];
      first [discriminate Hc | injection Hc as -> | subst]
  | perform _ _ _ = _ =>
      let Hc := fresh "Hc" in apply perform_inv in H as [Hc ->]
  | eval _ _ = _ =>
      let Hc := fresh "Hc" in apply eval_inv in H as [Hc ->]
  | throw _ _ = _ =>
      let Hc := fresh "Hc" in
      apply throw_inv in H as [Hc ->];
      first [discriminate Hc | injection Hc as -> | subst]
  | mret _ _ = _ =>
      let Hc := fresh "Hc" in
      apply mret_inv in H as [Hc ->];
      first [discriminate Hc | injection Hc as -> | subst]
  | when ?b _ _ = _ =>
      let Hb := fresh "Hb" in
      destruct b eqn:Hb; cbn [when] in H; sc_run0 H
  | (if ?b then _ else _) _ = _ =>
      let Hb := fresh "Hb" in
      destruct b eqn:Hb; sc_run0 H
  | loadContractArtifact _ = _ => unfold loadContractArtifact in H; sc_run0 H
  | loadMockVerifierArtifact _ = _ =>
      unfold loadMockVerifierArtifact in H; sc_run0 H
  | deployMockVerifier _ _ _ _ = _ =>
      unfold deployMockVerifier in H; sc_run0 H
  | _ => idtac
  end.

Lemma deployed_app l k : deployed (l ++ k) = deployed l ++ deployed k.
Proof. apply omap_app. Qed.

Lemma written_app l k : written (l ++ k) = written l ++ written k.
Proof. apply omap_app. Qed.

(** Computes an observation on a trace given as appended parts. *)
Ltac observe f :=
  rewrite ?deployed_app, ?written_app;
  repeat match goal with
         | Hf : f _ = _ |- _ => rewrite Hf
         end;
  unfold f; cbn [omap list_omap app].

(** ** The blocks of [deploy] *)

(** The choice of the RPC url prints at most a line, and changes nothing:
    the configuration already holds the url of the environment. *)
Lemma rpc_block_run network cfg tr (c : Completion string) tr1 :
  (if bool_decide (network = "sepolia") then
     if truthy env_SEPOLIA_RPC_URL then
       log "Using SEPOLIA_RPC_URL from .env";;
       mret (default (rpcUrl cfg) env_SEPOLIA_RPC_URL)
     else
       log ("SEPOLIA_RPC_URL not set in .env, using default: "
            +:+ rpcUrl cfg);;
       mret (rpcUrl cfg)
   else mret (rpcUrl cfg)) tr = (c, tr1) ->
  getNetworkConfig network = Normal cfg ->
  c = Normal (rpcUrl cfg) /\
  exists l, tr1 = tr ++ l /\ deployed l = [] /\ written l = [].
Proof.
  intros Hrun Hcfg.
  destruct (rpcUrl_of_config _ _ Hcfg) as (_ & _ & Hurl).
  repeat case_bool_decide; try destruct (truthy env_SEPOLIA_RPC_URL);
    sc_run0 Hrun; rewrite ?Hurl;
    (split; [done|]); first [by eexists [_] | exists []; by rewrite app_nil_r].
Qed.

(** The verifier: the address given, or else a mock verifier deployed on
    the spot, whose address is that of its receipt. Nothing else is
    deployed here and no file is written. *)
Lemma verifier_block_run walletClient publicClient account
    (providedVerifier : option Address) tr (c : Completion Address) tr1 :
  (if negb (truthy providedVerifier) then
     log (nl +:+ "No verifier address provided. Deploying RiscZeroMockVerifier...");;
     deployed ← deployMockVerifier walletClient publicClient account;
     log ("RiscZeroMockVerifier deployed at: " +:+ deployed);;
     log "⚠️  WARNING: This is a MOCK verifier for testing only. Do NOT use in production!";;
     mret deployed
   else mret (default "" providedVerifier)) tr = (c, tr1) ->
  exists l, tr1 = tr ++ l /\ written l = [] /\
    match c with
    | Normal verifierAddress =>
        verifierAddress <> "" /\
        if truthy providedVerifier
        then deployed l = [] /\ providedVerifier = Some verifierAddress
        else deployed l = [[JsString "0xFFFFFFFF"]] /\
             exists hash receipt,
               waitForTransactionReceipt publicClient hash = Normal receipt /\
               dr_contractAddress receipt = Some verifierAddress
    | Throw _ =>
        deployed l = [] \/
        truthy providedVerifier = false /\
        deployed l = [[JsString "0xFFFFFFFF"]]
    end.
Proof.
  intros Hrun. destruct (truthy providedVerifier) eqn:Hp; cbn [negb] in Hrun.
  { sc_run0 Hrun. exists []. rewrite app_nil_r. split_and!; try done.
    - by apply truthy_nonempty.
    - by apply truthy_default. }
  sc_run0 Hrun.
  all: rewrite <- ?app_assoc; eexists; (split; [reflexivity|]).
  all: split; [by observe written|].
  all: try (observe deployed; by eauto).
  match goal with
  | Hr : negb (truthy (dr_contractAddress ?r)) = false |- _ =>
      apply negb_false_iff in Hr;
      split; [by apply truthy_nonempty|];
      split; [by observe deployed|];
      eexists _, r; split; [eassumption|by apply truthy_default]
  end.
Qed.

(** The same, with the two blocks of [deploy] taken as one step each. *)
Ltac sc_run H :=
  lazymatch type of H with
  | mbind _ _ _ = _ =>
      let Hm := fresh "Hm" in
      let Hres := fresh "Hres" in
      apply bind_inv in H as [(?e & Hm & Hres) | (?a & ?tr & Hm & H)];
      [ first [ discriminate Hres
              | injection Hres as ->; sc_run Hm
              | subst; sc_run Hm ]
      | sc_run Hm; cbv beta in H; sc_run H ]
  | log _ _ = _ =>
      let Hc := fresh "Hc" in
      apply log_inv in H as [Hc ->];
      first [discriminate Hc | injection Hc as -> | subst]
  | error _ _ = _ =>
      let Hc := fresh "Hc" in
      apply error_inv in H as [Hc ->];
      first [discriminate Hc | injection Hc as -> | subst]
  | perform _ _ _ = _ =>
      let Hc := fresh "Hc" in apply perform_inv in H as [Hc ->]
  | eval _ _ = _ =>
      let Hc := fresh "Hc" in apply eval_inv in H as [Hc ->]
  | throw _ _ = _ =>
      let Hc := fresh "Hc" in
      apply throw_inv in H as [Hc ->];
      first [discriminate Hc | injection Hc as -> | subst]
  | mret _ _ = _ =>
      let Hc := fresh "Hc" in
      apply mret_inv in H as [Hc ->];
      first [discriminate Hc | injection Hc as -> | subst]
  | when ?b _ _ = _ =>
      let Hb := fresh "Hb" in
      destruct b eqn:Hb; cbn [when] in H; sc_run H
  | (if bool_decide (_ = "sepolia") then _ else _) _ = _ =>
      let Hc := fresh "Hc" in
      eapply rpc_block_run in H as (Hc & ?l & -> & ?Hd & ?Hw);
      [ first [discriminate Hc | injection Hc as ->] | eassumption ]
  | (if negb (truthy _) then _ else _) _ = _ =>
      apply verifier_block_run in H as (?l & -> & ?Hw & ?Hv)
  | (if ?b then _ else _) _ = _ =>
      let Hb := fresh "Hb" in
      destruct b eqn:Hb; sc_run H
  | loadContractArtifact _ = _ => unfold loadContractArtifact in H; sc_run H
  | loadMockVerifierArtifact _ = _ =>
      unfold loadMockVerifierArtifact in H; sc_run H
  | deployMockVerifier _ _ _ _ = _ =>
      unfold deployMockVerifier in H; sc_run H
  | _ => idtac
  end.

(** Splits what is known of the verifier block into its cases. *)
Ltac verifier_cases :=
  try match goal with
      | Hv : _ <> "" /\ (if truthy ?p then _ else _) |- _ =>
          let Hne := fresh "Hne" in
          let Hp := fresh "Hp" in
          destruct Hv as [Hne Hv]; destruct (truthy p) eqn:Hp;
          [ destruct Hv as [?Hd ?Hgiven]
          | destruct Hv as [?Hd (?hash & ?receipt & ?Hwait & ?Haddr)] ]
      | Hv : deployed _ = [] \/ _ |- _ => destruct Hv as [?Hd | [?Hp ?Hd]]
      end.

(** ** The parameters of the contract *)

Lemma parameter_test v :
  negb (truthy v) || bool_decide (v = Some zero_word) = false ->
  parameter_set v.
Proof.
  destruct v as [s|]; [|done]. cbn. repeat case_bool_decide; try done.
  intros _. exists s. split_and!; [done|done|]. intros ->. done.
Qed.

Lemma parameter_test_fails v :
  ~ parameter_set v ->
  negb (truthy v) || bool_decide (v = Some zero_word) = true.
Proof.
  intros Hv. destruct (negb (truthy v) || bool_decide (v = Some zero_word))
    eqn:Ht; [done|]. by apply parameter_test in Ht.
Qed.

(** Without its three parameters the contract is never deployed and no
    deployment file is written; but the parameters are looked at only after
    the verifier has been dealt with: when no verifier address is given, the
    mock verifier may have been deployed by then, and stays deployed. *)
Theorem deploy_without_parameters opts res tr :
  deploy opts [] = (res, tr) ->
  ~ (parameter_set env_ZK_PROVER_GUEST_ID /\
     parameter_set env_NOTARY_KEY_FINGERPRINT /\
     parameter_set env_QUERIES_HASH) ->
  (exists e, res = Throw e) /\ written tr = [] /\
  (deployed tr = [] \/
   truthy (do_verifierAddress opts) = false /\
   deployed tr = [[JsString "0xFFFFFFFF"]]).
Proof.
  intros Hrun Hbad. unfold deploy in Hrun. cbv zeta in Hrun.
  sc_run Hrun.
  all: try (destruct Hbad; split_and!; by apply parameter_test).
  all: verifier_cases.
  all: split; [eauto|]; split; [by observe written|].
  all: observe deployed; by eauto.
Qed.

(** ** A deployment that returns *)


(** ** The deployment file *)

(** A deployment file is written at most once, and only once the receipt
    of the contract's deployment shows an address: the file is the one of
    the network, under [deployments], and it records that address, the
    transaction and the network. After it only the writing itself can fail:
    the run returns the address and the transaction it recorded, or throws
    the error of the writing. *)
Theorem deployment_file_follows_deployment opts res tr p info :
  deploy opts [] = (res, tr) ->
  (p, info) ∈ written tr ->
  written tr = [(p, info)] /\
  p = path_join [path_join [__dirname; "../deployments"];
                 do_network opts +:+ ".json"] /\
  exists client hash receipt addr,
    waitForTransactionReceipt client hash = Normal receipt /\
    dr_contractAddress receipt = Some addr /\ addr <> "" /\
    prop info "contractAddress" = JsString addr /\
    prop info "transactionHash" = JsString hash /\
    prop info "network" = JsString (do_network opts) /\
    match writeFileSync p info with
    | Normal _ => res = Normal (mkDeployResult addr hash info)
    | Throw e => res = Throw e
    end.
Proof.
  intros Hrun Hin. unfold deploy in Hrun. cbv zeta in Hrun.
  sc_run Hrun.
  all: revert Hin; observe written; intros Hin;
    try (by apply elem_of_nil in Hin).
  all: apply list_elem_of_singleton in Hin; injection Hin as -> ->.
  all: (split; [done|]); (split; [done|]).
  all: repeat match goal with
              | Hb : negb (truthy _) = false |- _ =>
                  apply negb_false_iff in Hb
              end.
  all: eexists _, _, _, _; (split; [eassumption|]).
  all: (split; [by apply truthy_default|]).
  all: (split; [by apply truthy_nonempty|]).
  all: split_and!; try reflexivity.
  all: match goal with
       | Hw : writeFileSync _ _ = _ |- _ => by rewrite Hw
       end.
Qed.

(** ** The command line *)

(** The script never ends by throwing: it returns, or exits with code 1;
    and it returns exactly when it was given a network and [deploy], on the
    options read from the arguments, returned. *)
Theorem deploy_script_ending args :
  exists ending,
    (deploy_script args []).1 = Normal ending /\
    (ending = Returned \/ ending = Exited 1) /\
    (ending = Returned <->
     exists network rest r,
       args = network :: rest /\
       (deploy
          (mkDeployOptions network (Some (bool_decide ("--verify" ∈ args)))
             (List.find (fun a => startsWith "0x" a
                                  && bool_decide (length_utf16 a = 42%nat))
                args)) []).1 = Normal r).
Proof.
  unfold deploy_script, deploy_main. destruct args as [|network rest].
  { eexists. split; [reflexivity|]. split; [by right|].
    split; [done|]. by intros (? & ? & ? & [=] & _). }
  set (opts := mkDeployOptions _ _ _). cbv zeta.
  unfold try_catch, mbind, Script_bind.
  destruct (deploy opts []) as [[r|e] tr1] eqn:Hrun.
  - eexists. split; [reflexivity|]. split; [by left|].
    split; [|done]. intros _. exists network, rest, r. split; [done|].
    fold opts. by rewrite Hrun.
  - cbn [fst]. unfold eval, perform.
    destruct (member e "message") as [message|t].
    + eexists. split; [reflexivity|]. split; [by right|].
      split; [done|]. intros (? & ? & r & [= <- <-] & Hr).
      fold opts in Hr. by rewrite Hrun in Hr.
    + eexists. split; [reflexivity|]. split; [by right|].
      split; [done|]. intros (? & ? & r & [= <- <-] & Hr).
      fold opts in Hr. by rewrite Hrun in Hr.
Qed.

End DeployProperties.

(** ** The deployment on the sample *)

Section DeployRun.

Import Sample ScriptSample.

Local Abbreviation online := (viem PayloadInCauseData true).
Local Abbreviation no_verifier := (mkDeployOptions "sepolia" None None).

(** With the parameters unset and no verifier given, the mock verifier is
    deployed, and then the script stops. *)
Lemma deploy_without_parameters_witness :
  (@deploy build_machine online (tools None) no_verifier []).1
    = Throw (new_Error "ZK_PROVER_GUEST_ID not set") /\
  deployed (@deploy build_machine online (tools None) no_verifier []).2
    = [[JsString "0xFFFFFFFF"]] /\
  written (@deploy build_machine online (tools None) no_verifier []).2 = [].
Proof.
  destruct (deploy_without_parameters
              (H := build_machine) (H0 := online) (H1 := tools None)
              no_verifier _ _ (surjective_pairing _))
    as (_ & Hw & _).
  { intros [(s & Hs & _) _]. discriminate Hs. }
  split; [vm_compute; reflexivity|]. split; [vm_compute; reflexivity|exact Hw].
Defined.


Lemma deployment_file_follows_deployment_witness :
  written
    (@deploy build_machine online (tools (Some "0x11")) no_verifier []).2
  = [("/app/scripts/../deployments/sepolia.json", sample_deploymentInfo)].
Proof.
  apply (deployment_file_follows_deployment
           (H := build_machine) (H0 := online) (H1 := tools (Some "0x11"))
           no_verifier _ _ _ _ (surjective_pairing _)).
  vm_compute. apply list_elem_of_here.
Defined.

End DeployRun.
